(** * airlink-proxy: the monitor (scheduler, sensor pipeline, store) and the
      query server, embedded from [monitor/monitor.py] and [server/server.py].

    Conventions of the embedding.
    - Python [int] is [Z]; [str] is [string]; [Optional[T]] is [option T].
    - Python [float] values (wall-clock time, sensor concentrations) are
      modelled by the rational their decimal text denotes ([Q]); the binary
      rounding of IEEE doubles is not modelled.  Python's [==] on floats is
      [Qeq].  Where a float goes through text (the store), the statements
      either allow for the last digits or are about floats that a double
      holds exactly; where an integer is turned into a float (the age of a
      reading), they are about integers that a double holds.
    - A call that can raise returns [result]: [Ok v] or [Raise e].
    - A Python [dict] (JSON object, [args_dict]) is an association list with
      Python's update discipline: assignment replaces the value of an existing
      key in place and appends a new key at the end. *)

From Stdlib Require Import ZArith QArith Qround Qabs List Bool Ascii String Lia.
From Stdlib Require Import DecimalString DecimalZ Sorted Permutation.
From Stdlib Require Lqa.
Import ListNotations.

Open Scope string_scope.
Open Scope Z_scope.

(* ================================================================== *)
(** ** Exceptions *)

Inductive exn : Type :=
| KeyError (k : string)
| IndexError
| TypeError
| ValueError
| ZeroDivisionError
| OperationalError (msg : string)     (* sqlite3.OperationalError *)
| IntegrityError (msg : string)       (* sqlite3.IntegrityError *)
| ProgrammingError (msg : string)     (* sqlite3.ProgrammingError *)
| DataError (msg : string)            (* sqlite3.DataError *)
| DatabaseAlreadyExists (path : string)
| Untyped (field : string)
| Unmodelled (what : string).
  (* [Untyped f] is not a Python exception.  The embedding types the fields
     of a [Reading] after the annotations of the dataclass; where Python
     would store an object of another class in field [f], the typed
     embedding has no [Reading] to return and reports the field.
     [Unmodelled w] is not a Python exception either: it marks a text that
     the embedding of sqlite has no answer for (sqlite may well run it), so
     that no statement below speaks about it. *)

Inductive result (A : Type) : Type :=
| Ok (a : A)
| Raise (e : exn).
Arguments Ok {A} a.
Arguments Raise {A} e.

Definition bind {A B : Type} (m : result A) (k : A -> result B) : result B :=
  match m with
  | Ok a => k a
  | Raise e => Raise e
  end.

Notation "x <- m ;; k" := (bind m (fun x => k))
  (at level 61, m at next level, right associativity).

(** [try: body except Exception: handler] *)
Definition try_except {A : Type} (body : result A) (handler : exn -> result A)
  : result A :=
  match body with
  | Ok a => Ok a
  | Raise e => handler e
  end.

Definition of_option {A : Type} (e : exn) (o : option A) : result A :=
  match o with
  | Some a => Ok a
  | None => Raise e
  end.

(* ================================================================== *)
(** ** Strings the way Python handles them *)

(** [c in s] for a one-character [c]. *)
Fixpoint has_char (c : ascii) (s : string) : bool :=
  match s with
  | EmptyString => false
  | String a r => Ascii.eqb a c || has_char c r
  end.

(** Every character of [s] satisfies [p]. *)
Fixpoint all_chars (p : ascii -> bool) (s : string) : bool :=
  match s with
  | EmptyString => true
  | String a r => p a && all_chars p r
  end.

(** [s.split(sep)] for a one-character separator: never the empty list. *)
Fixpoint split (sep : ascii) (s : string) : list string :=
  match s with
  | EmptyString => [EmptyString]
  | String c r =>
      if Ascii.eqb c sep then EmptyString :: split sep r
      else match split sep r with
           | h :: t => String c h :: t
           | [] => [String c EmptyString]
           end
  end.

(** The pieces of a split, put together again. *)
Fixpoint unsplit (sep : ascii) (pieces : list string) : string :=
  match pieces with
  | [] => ""
  | [a] => a
  | a :: rest => a ++ String sep (unsplit sep rest)
  end.

(** [l[i]] for a list: [IndexError] out of range. *)
Definition item {A : Type} (l : list A) (i : nat) : result A :=
  of_option IndexError (nth_error l i).

Definition is_digit (c : ascii) : bool :=
  let n := nat_of_ascii c in (48 <=? n)%nat && (n <=? 57)%nat.

Definition digit_val (c : ascii) : Z := Z.of_nat (nat_of_ascii c) - 48.

(** The white space of C's [isspace]: what [int] skips around the digits
    and sqlite around a number written as text. *)
Definition is_space (c : ascii) : bool :=
  let n := nat_of_ascii c in
  ((9 <=? n)%nat && (n <=? 13)%nat) || (n =? 32)%nat.

(** The characters of class [blank] removed from the left and the right. *)
Fixpoint lstrip_by (blank : ascii -> bool) (s : string) : string :=
  match s with
  | EmptyString => EmptyString
  | String c r => if blank c then lstrip_by blank r else s
  end.

Fixpoint rstrip_by (blank : ascii -> bool) (s : string) : string :=
  match s with
  | EmptyString => EmptyString
  | String c r =>
      match rstrip_by blank r with
      | EmptyString => if blank c then EmptyString else String c EmptyString
      | r' => String c r'
      end
  end.

Definition strip_by (blank : ascii -> bool) (s : string) : string :=
  rstrip_by blank (lstrip_by blank s).

Definition strip (s : string) : string := strip_by is_space s.

Fixpoint map_chars (f : ascii -> ascii) (s : string) : string :=
  match s with
  | EmptyString => EmptyString
  | String c r => String (f c) (map_chars f r)
  end.

(** [int] turns the white space beyond ASCII into blanks before it reads
    the text; in a request line, which is decoded as Latin-1, that is
    U+0085 and U+00A0. *)
Definition ascii_space (c : ascii) : ascii :=
  let n := nat_of_ascii c in
  if (n =? 133)%nat || (n =? 160)%nat then " "%char else c.

(** The number of digits in a text. *)
Fixpoint count_digits (s : string) (acc : Z) : Z :=
  match s with
  | EmptyString => acc
  | String c r => count_digits r (if is_digit c then acc + 1 else acc)
  end.

(** [sys.get_int_max_str_digits()], as Python 3.11 sets it. *)
Definition max_str_digits : Z := 4300.

(** The digits of an [int] literal: decimal digits, a single underscore
    allowed between two digits. *)
Fixpoint int_digits (s : string) (acc : Z) (after_digit : bool) : option Z :=
  match s with
  | EmptyString => if after_digit then Some acc else None
  | String c r =>
      if is_digit c then int_digits r (10 * acc + digit_val c) true
      else if Ascii.eqb c "_" && after_digit then int_digits r acc false
      else None
  end.

(** [int(s)] for a [str] argument, base 10; [ValueError] otherwise, also
    for a text of more than [max_str_digits] digits. *)
Definition py_int (s : string) : result Z :=
  of_option ValueError
    match strip (map_chars ascii_space s) with
    | EmptyString => None
    | String c r =>
        if max_str_digits <? count_digits (String c r) 0 then None
        else if Ascii.eqb c "-" then option_map Z.opp (int_digits r 0 false)
        else if Ascii.eqb c "+" then int_digits r 0 false
        else int_digits (String c r) 0 false
    end.

(** ['%d' % z] *)
Definition fmt_d (z : Z) : string := NilZero.string_of_int (Z.to_int z).

(* ================================================================== *)
(** ** Dictionaries *)

Section Dict.
Context {V : Type}.

Fixpoint dict_get (k : string) (d : list (string * V)) : option V :=
  match d with
  | [] => None
  | (k', v) :: r => if String.eqb k' k then Some v else dict_get k r
  end.

(** [d[k] = v] *)
Fixpoint dict_set (k : string) (v : V) (d : list (string * V))
  : list (string * V) :=
  match d with
  | [] => [(k, v)]
  | (k', v') :: r =>
      if String.eqb k' k then (k', v) :: r else (k', v') :: dict_set k v r
  end.

(** [k in d] *)
Definition dict_mem (k : string) (d : list (string * V)) : bool :=
  match dict_get k d with Some _ => true | None => false end.
End Dict.

(* ================================================================== *)
(** ** server/server.py *)

Module Server.

Inductive RequestType : Type :=
| ERROR
| GET_VERSION
| GET_EARLIEST_TIMESTAMP
| FETCH_CURRENT_RECORD
| FETCH_ARCHIVE_RECORDS.

Record Request : Type := mkRequest {
  request_type : RequestType;
  since_ts : option Z;
  max_ts : option Z;
  limit : option Z;
  error : option string;
  request : string
}.

(** [Handler.parse_args].  [key_value[1]] exists whenever ['=' in arg], as
    [split] then returns at least two pieces; the [IndexError] branch of the
    lookup is written out all the same. *)
Fixpoint parse_args_loop (args : list string) (args_dict : list (string * string))
  : result (list (string * string)) :=
  match args with
  | [] => Ok args_dict
  | arg :: rest =>
      if has_char "=" arg then
        let key_value := split "=" arg in
        k <- item key_value 0 ;;
        if negb (String.eqb k "") then
          v <- item key_value 1 ;;
          parse_args_loop rest (dict_set k v args_dict)
        else parse_args_loop rest args_dict
      else parse_args_loop rest args_dict
  end.

Definition parse_args (args_in : string) : result (list (string * string)) :=
  parse_args_loop (split "," args_in) [].

(** The state of the local variables of [parse_requestline] that the
    argument parsing updates. *)
Record vars : Type := mkVars {
  v_type : RequestType;
  v_since : option Z;
  v_max : option Z;
  v_limit : option Z;
  v_error : option string
}.

Definition parse_since (a : string) (v : vars) : vars :=
  match py_int a with
  | Ok n => mkVars (v_type v) (Some n) (v_max v) (v_limit v) (v_error v)
  | Raise _ =>
      mkVars ERROR (v_since v) (v_max v) (v_limit v)
        (Some ("The since_ts argument must be an integer, found: '" ++ a ++ "'."))
  end.

Definition parse_max (a : string) (v : vars) : vars :=
  match py_int a with
  | Ok n => mkVars (v_type v) (v_since v) (Some n) (v_limit v) (v_error v)
  | Raise _ =>
      mkVars ERROR (v_since v) (v_max v) (v_limit v)
        (Some ("The max_ts argument must be an integer, found: '" ++ a ++ "'."))
  end.

Definition parse_limit (a : string) (v : vars) : vars :=
  match py_int a with
  | Ok n => mkVars (v_type v) (v_since v) (v_max v) (Some n) (v_error v)
  | Raise _ =>
      mkVars ERROR (v_since v) (v_max v) (v_limit v)
        (Some ("The limit argument must be an integer, found: '" ++ a ++ "'."))
  end.

Definition on_key (k : string) (d : list (string * string))
    (f : string -> vars -> vars) (v : vars) : vars :=
  match dict_get k d with
  | Some a => f a v
  | None => v
  end.

(** [Handler.parse_requestline].  The test [cmd != RequestType.ERROR]
    compares a [str] with an enum member and is always true, so the
    arguments are parsed for every command. *)
Definition parse_requestline (requestline : string) : result Request :=
  request <- item (split " " requestline) 1 ;;
  cmd_args <-
    (if has_char "?" request then
       cmd <- item (split "?" request) 0 ;;
       args <- item (split "?" request) 1 ;;
       Ok (cmd, args)
     else Ok (request, "")) ;;
  let '(cmd, args) := cmd_args in
  let v0 :=
    if String.eqb cmd "/get-version" then
      mkVars GET_VERSION None None None None
    else if String.eqb cmd "/get-earliest-timestamp" then
      mkVars GET_EARLIEST_TIMESTAMP None None None None
    else if String.eqb cmd "/v1/current_conditions" then
      mkVars FETCH_CURRENT_RECORD None None None None
    else if String.eqb cmd "/fetch-archive-records" then
      mkVars FETCH_ARCHIVE_RECORDS None None None None
    else if String.eqb cmd "/" then
      mkVars ERROR None None None (Some "A command must be specified.")
    else
      mkVars ERROR None None None (Some ("Unknown command: " ++ cmd ++ "."))
  in
  args_dict <- parse_args args ;;
  let v :=
    match v_type v0 with
    | FETCH_ARCHIVE_RECORDS =>
        match dict_get "since_ts" args_dict with
        | Some a =>
            on_key "limit" args_dict parse_limit
              (on_key "max_ts" args_dict parse_max (parse_since a v0))
        | None =>
            mkVars ERROR None None None
              (Some "fetch-archive-records requires since_ts argument")
        end
    | _ => v0
    end in
  Ok (mkRequest (v_type v) (v_since v) (v_max v) (v_limit v) (v_error v)
        request).

(** A query string in the usual URL form: [k1=v1&k2=v2&...]. *)
Fixpoint ampersand_query (params : list (string * string)) : string :=
  match params with
  | [] => ""
  | [(k, v)] => k ++ "=" ++ v
  | (k, v) :: rest => k ++ "=" ++ v ++ "&" ++ ampersand_query rest
  end.

(** A key or a value of such a query: none of the characters that
    delimit the request line or the query. *)
Definition url_token (s : string) : bool :=
  negb (has_char " " s || has_char "?" s || has_char "," s
        || has_char "=" s || has_char "&" s).

Definition token_pair (kv : string * string) : Prop :=
  url_token (fst kv) = true /\ url_token (snd kv) = true.

End Server.

(* ================================================================== *)
(** ** Parsed JSON values *)

Unset Elimination Schemes.
Inductive json : Type :=
| JNull
| JBool (b : bool)
| JInt (z : Z)
| JFloat (q : Q)
| JStr (s : string)
| JList (l : list json)
| JDict (d : list (string * json)).
Set Elimination Schemes.

(** The classes that [isinstance] is asked about. *)
Inductive pytype : Type := Tdict | Tlist | Tstr | Tint | Tfloat.

(** [isinstance(x, t)]; [bool] is a subclass of [int]. *)
Definition isinstance (x : json) (t : pytype) : bool :=
  match t, x with
  | Tdict, JDict _ => true
  | Tlist, JList _ => true
  | Tstr, JStr _ => true
  | Tint, JInt _ => true
  | Tint, JBool _ => true
  | Tfloat, JFloat _ => true
  | _, _ => false
  end.

Definition is_none (x : json) : bool :=
  match x with JNull => true | _ => false end.

(** [x[k]] for a string key. *)
Definition subscript (x : json) (k : string) : result json :=
  match x with
  | JDict d => of_option (KeyError k) (dict_get k d)
  | _ => Raise TypeError
  end.

(** [x[i]] for an integer index [i >= 0]. *)
Definition subscript_int (x : json) (i : nat) : result json :=
  match x with
  | JList l => item l i
  | JStr s =>
      match String.get i s with
      | Some c => Ok (JStr (String c EmptyString))
      | None => Raise IndexError
      end
  | JDict _ => Raise (KeyError (fmt_d (Z.of_nat i)))
  | _ => Raise TypeError
  end.

Fixpoint is_substring (k s : string) : bool :=
  String.prefix k s
  || match s with
     | EmptyString => false
     | String _ r => is_substring k r
     end.

Definition is_str (k : string) (x : json) : bool :=
  match x with JStr s => String.eqb s k | _ => false end.

(** [k in x] for a string [k]. *)
Definition contains (k : string) (x : json) : result bool :=
  match x with
  | JDict d => Ok (dict_mem k d)
  | JList l => Ok (existsb (is_str k) l)
  | JStr s => Ok (is_substring k s)
  | _ => Raise TypeError
  end.

(** [len(x)] *)
Definition py_len (x : json) : result nat :=
  match x with
  | JList l => Ok (List.length l)
  | JDict d => Ok (List.length d)
  | JStr s => Ok (String.length s)
  | _ => Raise TypeError
  end.

(** [x == n] for an [int] literal [n]. *)
Definition eq_int (x : json) (n : Z) : bool :=
  match x with
  | JInt z => z =? n
  | JBool b => (if b then 1 else 0) =? n
  | JFloat q => Qeq_bool q (inject_Z n)
  | _ => false
  end.

(** The number a value stands for in arithmetic and in ['%d'], if any. *)
Definition as_number (x : json) : result Q :=
  match x with
  | JInt z => Ok (inject_Z z)
  | JBool b => Ok (inject_Z (if b then 1 else 0))
  | JFloat q => Ok q
  | _ => Raise TypeError
  end.

(** [int(x)] for a float [x]: truncation toward zero. *)
Definition py_trunc (x : Q) : Z := Z.quot (Qnum x) (Zpos (Qden x)).

(** [x / d] for a float [x] and an [int] [d]. *)
Definition py_div (x : Q) (d : Z) : result Q :=
  if d =? 0 then Raise ZeroDivisionError else Ok (x / inject_Z d)%Q.

(* ================================================================== *)
(** ** monitor/monitor.py: the data model *)

Inductive Event : Type := POLL | ARCHIVE.

Record Reading : Type := mkReading {
  did                       : option string;
  name                      : option string;
  ts                        : option Z;
  lsid                      : option Z;
  data_structure_type       : option Z;
  temp                      : option Q;
  hum                       : option Q;
  dew_point                 : option Q;
  wet_bulb                  : option Q;
  heat_index                : option Q;
  pm_1_last                 : option Z;
  pm_2p5_last               : option Z;
  pm_10_last                : option Z;
  pm_1                      : option Q;
  pm_2p5                    : option Q;
  pm_2p5_last_1_hour        : option Q;
  pm_2p5_last_3_hours       : option Q;
  pm_2p5_last_24_hours      : option Q;
  pm_2p5_nowcast            : option Q;
  pm_10                     : option Q;
  pm_10_last_1_hour         : option Q;
  pm_10_last_3_hours        : option Q;
  pm_10_last_24_hours       : option Q;
  pm_10_nowcast             : option Q;
  last_report_time          : option Z;
  pct_pm_data_last_1_hour   : option Z;
  pct_pm_data_last_3_hours  : option Z;
  pct_pm_data_nowcast       : option Z;
  pct_pm_data_last_24_hours : option Z
}.

Module RecordType.
Definition CURRENT : Z := 0.
Definition ARCHIVE : Z := 1.
End RecordType.

(* ================================================================== *)
(** ** monitor/monitor.py: [Service], the scheduler and start-up *)

Module Scheduler.

(** The attributes of a [Service] that the scheduler reads. *)
Record Service : Type := mkService {
  hostname : string;
  port : Z;
  timeout_secs : Z;
  pollfreq_secs : Z;
  pollfreq_offset : Z;
  arcint_secs : Z;
  database : string
}.

(** [Service.__init__]: the three timing attributes are set to constants;
    the constructor takes no interval argument. *)
Definition Service_init (hostname : string) (port timeout_secs : Z)
    (database : string) : Service :=
  mkService hostname port timeout_secs 5 5 60 database.

(** [int(now / pollfreq_secs) * pollfreq_secs + pollfreq_secs] *)
Definition next_poll_event (self : Service) (now : Q) : result Z :=
  x <- py_div now (pollfreq_secs self) ;;
  Ok (py_trunc x * pollfreq_secs self + pollfreq_secs self).

(** [int((now - pollfreq_offset) / arcint_secs) * arcint_secs
     + arcint_secs + pollfreq_offset] *)
Definition next_arc_event (self : Service) (now : Q) : result Z :=
  x <- py_div (now - inject_Z (pollfreq_offset self))%Q (arcint_secs self) ;;
  Ok (py_trunc x * arcint_secs self + arcint_secs self + pollfreq_offset self).

(** [Service.compute_next_event], with [time.time()] as the argument
    [now]. *)
Definition compute_next_event (self : Service) (now : Q)
  : result (Event * Q) :=
  next_poll <- next_poll_event self now ;;
  next_arc <- next_arc_event self now ;;
  let event := if next_poll =? next_arc then ARCHIVE else POLL in
  let secs_to_event := (inject_Z next_poll - now)%Q in
  Ok (event, secs_to_event).

(** [v] is the smallest value [k * interval + offset] (for an integer [k])
    that is strictly greater than [bound]. *)
Definition smallest_boundary_above (interval offset : Z) (bound : Q) (v : Z)
  : Prop :=
  (exists k, v = k * interval + offset)
  /\ (bound < inject_Z v)%Q
  /\ forall k, (bound < inject_Z (k * interval + offset))%Q ->
               v <= k * interval + offset.

(** What [start] reads from the command line and the configuration file,
    after the [int] conversions. *)
Record Config : Type := mkConfig {
  opt_test : bool;
  opt_dump : bool;
  cfg_hostname : option string;
  cfg_port : Z;
  cfg_timeout_secs : Z;
  cfg_pollfreq_secs : Z;
  cfg_pollfreq_offset : Z;
  cfg_arcint_secs : Z;
  cfg_db_file : option string
}.

(** How [start] ends. *)
Inductive startup : Type :=
| ParserError (msg : string)   (* [parser.error]: usage message, exit status 2 *)
| RanTests                     (* [run_tests] then [sys.exit(0)] *)
| DumpedDatabase               (* [dump_database] then [sys.exit(0)] *)
| Crashed (e : exn)            (* an uncaught exception *)
| EnteredLoop (svc : Service). (* [do_loop] runs with this service *)

(** [not s] for an optional string: [None] and [''] are false. *)
Definition falsy (o : option string) : bool :=
  match o with
  | None => true
  | Some s => String.eqb s ""
  end.

(** [start], from the checks that follow the logging of the options. *)
Definition start (c : Config) : startup :=
  if opt_test c && opt_dump c then
    ParserError "At most one of --test and --dump can be specified."
  else if opt_test c then
    if falsy (cfg_hostname c) then
      ParserError "hostname must be specified in the config file"
    else RanTests
  else if opt_dump c then
    if falsy (cfg_db_file c) then
      ParserError "database-file must be specified in the config file"
    else DumpedDatabase
  else if falsy (cfg_hostname c) then
    ParserError "hostname must be specified in the config file"
  else if falsy (cfg_db_file c) then
    ParserError "database-file must be specified in the config file"
  else if cfg_pollfreq_secs c =? 0 then
    Crashed ZeroDivisionError
  else if negb (cfg_arcint_secs c mod cfg_pollfreq_secs c =? 0) then
    ParserError "archive-interval-secs must be a multiple of poll-frequency-secs"
  else
    match cfg_hostname c, cfg_db_file c with
    | Some h, Some f =>
        EnteredLoop (Service_init h (cfg_port c) (cfg_timeout_secs c) f)
    | _, _ => Crashed TypeError   (* not reached: both were tested above *)
    end.

End Scheduler.

(* ================================================================== *)
(** ** monitor/monitor.py: the sensor pipeline *)

(** The double quote character, for the texts that hold one. *)
Definition dquote : ascii := ascii_of_nat 34.
Definition dq : string := String dquote EmptyString.

Module Pipeline.

(** The [log.info] message that goes with a discarded payload. *)
Inductive logged : Type :=
| LogReturnedError    (* '%s returned error(%d): %s' *)
| LogNotSane          (* 'Reading not sane:  %s (%s)' *)
| LogTimeSinceBoot    (* 'last_report_time must be time since boot: ...' *)
| LogIgnoringAge      (* 'Ignoring reading from %s--age: %d seconds. ...' *)
| LogAttemptFailed.   (* 'collect_data: Attempt to fetch from: %s failed: %s.' *)

(** What the [try] of [collect_data] leaves behind. *)
Inductive tried : Type :=
| Discarded (why : logged)
| Fresh (time_of_reading : json) (j : json).

Section WithStr.

(** [str(x)] of a parsed value.  Only diagnostic text is built with it. *)
Variable py_str : json -> string.

(** [j['data']['conditions'][0]] *)
Definition cond0 (j : json) : result json :=
  data <- subscript j "data" ;;
  conditions <- subscript data "conditions" ;;
  subscript_int conditions 0.

(** [j['data']['conditions'][0][k] = v], as the payload after the
    assignment: the object is updated in place and is reachable only
    through this path. *)
Definition set_cond0 (j : json) (k : string) (v : json) : result json :=
  data <- subscript j "data" ;;
  conditions <- subscript data "conditions" ;;
  c <- subscript_int conditions 0 ;;
  match c, conditions, data, j with
  | JDict cd, JList cl, JDict dd, JDict jd =>
      Ok (JDict (dict_set "data"
            (JDict (dict_set "conditions"
               (JList (JDict (dict_set k v cd) :: tl cl)) dd)) jd))
  | _, _, _, _ => Raise TypeError
  end.

(** The two assignments that move one legacy key to its canonical name. *)
Definition move_key (legacy canonical : string)
  : list (json -> result json) :=
  [ (fun j => c <- cond0 j ;; v <- subscript c legacy ;;
              set_cond0 j canonical v);
    (fun j => set_cond0 j legacy JNull) ].

(** Statements run in sequence inside one [try]: the first exception ends
    the run and the mutations made so far stay. *)
Fixpoint run_until_exception (steps : list (json -> result json)) (j : json)
  : json :=
  match steps with
  | [] => j
  | step :: rest =>
      match step j with
      | Ok j' => run_until_exception rest j'
      | Raise _ => j
      end
  end.

(** [Service.convert_data_structure_type_5_to_6] *)
Definition convert_data_structure_type_5_to_6 (j : json) : json :=
  run_until_exception
    (move_key "pm_10p0" "pm_10"
     ++ move_key "pm_10p0_last_1_hour" "pm_10_last_1_hour"
     ++ move_key "pm_10p0_last_3_hours" "pm_10_last_3_hours"
     ++ move_key "pm_10p0_last_24_hours" "pm_10_last_24_hours"
     ++ move_key "pm_10p0_nowcast" "pm_10_nowcast"
     ++ [fun j => set_cond0 j "data_structure_type" (JInt 6)])
    j.

(** [Service.is_type] *)
Definition is_type (j : json) (t : pytype) (name : string) (none_ok : bool)
  : bool :=
  match subscript j name with
  | Ok x => if is_none x && none_ok then true else isinstance x t
  | Raise _ => false
  end.

Definition missing_or_malformed (name : string) : string :=
  "Missing or malformed " ++ dq ++ name ++ dq ++ " field".

(** The first name of a [for name in [...]] loop that fails [is_type]. *)
Fixpoint first_not_type (c : json) (t : pytype) (none_ok : bool)
    (names : list string) : option string :=
  match names with
  | [] => None
  | name :: rest =>
      if is_type c t name none_ok then first_not_type c t none_ok rest
      else Some name
  end.

(** [Service.is_sane] *)
Definition is_sane (j : json) : result (bool * string) :=
  err <- subscript j "error" ;;
  if negb (is_none err) then Ok (false, "Error: " ++ py_str err)
  else if negb (is_type j Tdict "data" false) then
    Ok (false, missing_or_malformed "data")
  else
  data <- subscript j "data" ;;
  if negb (is_type data Tstr "name" false) then
    Ok (false, missing_or_malformed "name")
  else if negb (is_type data Tint "ts" false) then
    Ok (false, missing_or_malformed "ts")
  else if negb (is_type data Tlist "conditions" false) then
    Ok (false, missing_or_malformed "conditions")
  else
  conditions <- subscript data "conditions" ;;
  n <- py_len conditions ;;
  if (n =? 0)%nat then Ok (false, "Expected one element in conditions array.")
  else
  c <- subscript_int conditions 0 ;;
  if negb (is_type c Tint "data_structure_type" false) then
    Ok (false, missing_or_malformed "data_structure_type")
  else
  dst <- subscript c "data_structure_type" ;;
  if negb (eq_int dst 6) then
    Ok (false,
        "Expected data_structure_type of 6 (or type 5 auto converted to 6.")
  else
  match first_not_type c Tint true
          ["pm_1_last"; "pm_2p5_last"; "pm_10_last"; "last_report_time";
           "pct_pm_data_last_1_hour"; "pct_pm_data_last_3_hours";
           "pct_pm_data_nowcast"; "pct_pm_data_last_24_hours"] with
  | Some name => Ok (false, missing_or_malformed name)
  | None =>
  if negb (is_type c Tint "lsid" true) then
    Ok (false, missing_or_malformed "lsid")
  else
  match first_not_type c Tfloat false
          ["temp"; "hum"; "dew_point"; "wet_bulb"; "heat_index"] with
  | Some name => Ok (false, missing_or_malformed name)
  | None =>
  match first_not_type c Tfloat true
          ["pm_1"; "pm_2p5"; "pm_2p5_last_1_hour"; "pm_2p5_last_3_hours";
           "pm_2p5_last_24_hours"; "pm_2p5_nowcast";
           "pm_10"; "pm_10_last_1_hour"; "pm_10_last_3_hours";
           "pm_10_last_24_hours"; "pm_10_nowcast"] with
  | Some name => Ok (false, missing_or_malformed name)
  | None => Ok (true, "")
  end end end.

(** The values a typed field takes from a parsed value. *)
Definition as_str (field : string) (x : json) : result (option string) :=
  match x with
  | JNull => Ok None
  | JStr s => Ok (Some s)
  | _ => Raise (Untyped field)
  end.

Definition as_int (field : string) (x : json) : result (option Z) :=
  match x with
  | JNull => Ok None
  | JInt z => Ok (Some z)
  | JBool b => Ok (Some (if b then 1 else 0))
  | _ => Raise (Untyped field)
  end.

Definition as_float (field : string) (x : json) : result (option Q) :=
  match x with
  | JNull => Ok None
  | JFloat q => Ok (Some q)
  | JInt z => Ok (Some (inject_Z z))
  | JBool b => Ok (Some (inject_Z (if b then 1 else 0)))
  | _ => Raise (Untyped field)
  end.

(** [get_and_update_missed_data]; the list [missed] is only logged. *)
Definition get_and_update_missed_data (j : json) (key : string)
  : result json :=
  data <- subscript j "data" ;;
  present <- contains key data ;;
  if present then subscript data key else Ok JNull.

(** [get_and_update_missed_data_conditions] *)
Definition get_and_update_missed_data_conditions (j : json) (key : string)
  : result json :=
  c <- cond0 j ;;
  present <- contains key c ;;
  if present then subscript c key else Ok JNull.

(** [Service.populate_record]: the lookups in the order of the source
    (the entries [pm1_0], [pm2_5] and [pm10_0] of [record] are read and not
    used), then the [Reading].  The argument [ts] is not used. *)
Definition populate_record (ts : json) (j : json) : result Reading :=
  let data := get_and_update_missed_data j in
  let cond := get_and_update_missed_data_conditions j in
  r_did <- data "did" ;;
  r_name <- data "name" ;;
  r_ts <- data "ts" ;;
  r_lsid <- cond "lsid" ;;
  r_data_structure_type <- cond "data_structure_type" ;;
  r_last_report_time <- cond "last_report_time" ;;
  r_temp <- cond "temp" ;;
  r_hum <- cond "hum" ;;
  r_dew_point <- cond "dew_point" ;;
  r_wet_bulb <- cond "wet_bulb" ;;
  r_heat_index <- cond "heat_index" ;;
  r_pct_1 <- cond "pct_pm_data_last_1_hour" ;;
  r_pct_3 <- cond "pct_pm_data_last_3_hours" ;;
  r_pct_nowcast <- cond "pct_pm_data_nowcast" ;;
  r_pct_24 <- cond "pct_pm_data_last_24_hours" ;;
  _ <- cond "pm_1_last" ;;
  _ <- cond "pm_2p5_last" ;;
  _ <- cond "pm_10_last" ;;
  r_pm_1 <- cond "pm_1" ;;
  r_pm_1_last <- cond "pm_1_last" ;;
  r_pm_2p5_last <- cond "pm_2p5_last" ;;
  r_pm_2p5 <- cond "pm_2p5" ;;
  r_pm_2p5_last_1_hour <- cond "pm_2p5_last_1_hour" ;;
  r_pm_2p5_last_3_hours <- cond "pm_2p5_last_3_hours" ;;
  r_pm_2p5_last_24_hours <- cond "pm_2p5_last_24_hours" ;;
  r_pm_2p5_nowcast <- cond "pm_2p5_nowcast" ;;
  r_pm_10_last <- cond "pm_10_last" ;;
  r_pm_10 <- cond "pm_10" ;;
  r_pm_10_last_1_hour <- cond "pm_10_last_1_hour" ;;
  r_pm_10_last_3_hours <- cond "pm_10_last_3_hours" ;;
  r_pm_10_last_24_hours <- cond "pm_10_last_24_hours" ;;
  r_pm_10_nowcast <- cond "pm_10_nowcast" ;;
  f_did <- as_str "did" r_did ;;
  f_name <- as_str "name" r_name ;;
  f_ts <- as_int "ts" r_ts ;;
  f_lsid <- as_int "lsid" r_lsid ;;
  f_data_structure_type <- as_int "data_structure_type" r_data_structure_type ;;
  f_temp <- as_float "temp" r_temp ;;
  f_hum <- as_float "hum" r_hum ;;
  f_dew_point <- as_float "dew_point" r_dew_point ;;
  f_wet_bulb <- as_float "wet_bulb" r_wet_bulb ;;
  f_heat_index <- as_float "heat_index" r_heat_index ;;
  f_pm_1_last <- as_int "pm_1_last" r_pm_1_last ;;
  f_pm_2p5_last <- as_int "pm_2p5_last" r_pm_2p5_last ;;
  f_pm_10_last <- as_int "pm_10_last" r_pm_10_last ;;
  f_pm_1 <- as_float "pm_1" r_pm_1 ;;
  f_pm_2p5 <- as_float "pm_2p5" r_pm_2p5 ;;
  f_pm_2p5_last_1_hour <- as_float "pm_2p5_last_1_hour" r_pm_2p5_last_1_hour ;;
  f_pm_2p5_last_3_hours <- as_float "pm_2p5_last_3_hours" r_pm_2p5_last_3_hours ;;
  f_pm_2p5_last_24_hours <- as_float "pm_2p5_last_24_hours" r_pm_2p5_last_24_hours ;;
  f_pm_2p5_nowcast <- as_float "pm_2p5_nowcast" r_pm_2p5_nowcast ;;
  f_pm_10 <- as_float "pm_10" r_pm_10 ;;
  f_pm_10_last_1_hour <- as_float "pm_10_last_1_hour" r_pm_10_last_1_hour ;;
  f_pm_10_last_3_hours <- as_float "pm_10_last_3_hours" r_pm_10_last_3_hours ;;
  f_pm_10_last_24_hours <- as_float "pm_10_last_24_hours" r_pm_10_last_24_hours ;;
  f_pm_10_nowcast <- as_float "pm_10_nowcast" r_pm_10_nowcast ;;
  f_last_report_time <- as_int "last_report_time" r_last_report_time ;;
  f_pct_1 <- as_int "pct_pm_data_last_1_hour" r_pct_1 ;;
  f_pct_3 <- as_int "pct_pm_data_last_3_hours" r_pct_3 ;;
  f_pct_nowcast <- as_int "pct_pm_data_nowcast" r_pct_nowcast ;;
  f_pct_24 <- as_int "pct_pm_data_last_24_hours" r_pct_24 ;;
  Ok (mkReading f_did f_name f_ts f_lsid f_data_structure_type
        f_temp f_hum f_dew_point f_wet_bulb f_heat_index
        f_pm_1_last f_pm_2p5_last f_pm_10_last
        f_pm_1
        f_pm_2p5 f_pm_2p5_last_1_hour f_pm_2p5_last_3_hours
        f_pm_2p5_last_24_hours f_pm_2p5_nowcast
        f_pm_10 f_pm_10_last_1_hour f_pm_10_last_3_hours
        f_pm_10_last_24_hours f_pm_10_nowcast
        f_last_report_time f_pct_1 f_pct_3 f_pct_nowcast f_pct_24).

(** The body of the [try] of [Service.collect_data], from the parsed
    response [j] on.  The result is what the statements after the [try]
    find: [Discarded] when the body returned [None] or cleared [j], tagged
    with the message it logged, otherwise [time_of_reading] and the
    payload.  Of the log calls only the tag and the ['%d'] conversions of
    their arguments, which can raise, are kept.  The age is the difference
    of rationals; for a [last_report_time] that no double holds (beyond
    [2^1024]) Python raises [OverflowError] at the subtraction, which the
    handler around the body turns into [None] like any other exception. *)
Definition collect_data_try (j : json) (now : Q) : result tried :=
  has_error <- contains "error" j ;;
  err <- (if has_error then subscript j "error" else Ok JNull) ;;
  if has_error && negb (is_none err) then
    code <- subscript err "code" ;;
    message <- subscript err "message" ;;
    _ <- as_number code ;;
    Ok (Discarded LogReturnedError)
  else
    c <- cond0 j ;;
    dst <- subscript c "data_structure_type" ;;
    let j := if eq_int dst 5 then convert_data_structure_type_5_to_6 j
             else j in
    sane <- is_sane j ;;
    if negb (fst sane) then Ok (Discarded LogNotSane)
    else
      c <- cond0 j ;;
      time_of_reading <- subscript c "last_report_time" ;;
      t <- as_number time_of_reading ;;
      let age_of_reading := (now - t)%Q in
      if negb (Qle_bool age_of_reading 60) then
        c <- cond0 j ;;
        pm_1 <- subscript c "pm_1" ;;
        if is_none pm_1 then Ok (Discarded LogTimeSinceBoot)
        else Ok (Discarded LogIgnoringAge)
      else Ok (Fresh time_of_reading j).

(** [Service.collect_data] once the request has returned a response:
    [parsed] is the outcome of [r.json()] and [now] the value of
    [time.time()] at the staleness check.  [None] is the absent reading.
    The request itself, with its three attempts on [ConnectionError],
    comes before and raises to the caller on failure. *)
Definition collect_data (parsed : result json) (now : Q)
  : result (option Reading) :=
  found <- try_except (j <- parsed ;; collect_data_try j now)
                      (fun _ => Ok (Discarded LogAttemptFailed)) ;;
  match found with
  | Discarded _ => Ok None
  | Fresh time_of_reading j =>
      r <- populate_record time_of_reading j ;;
      Ok (Some r)
  end.

End WithStr.

(** *** Vocabulary for statements about payloads *)





(** The field value that a float-or-null payload value becomes. *)
Definition float_field (v : json) : option Q :=
  match v with JFloat q => Some q | _ => None end.

Definition int_field (v : json) : option Z :=
  match v with
  | JInt z => Some z
  | JBool b => Some (if b then 1 else 0)
  | _ => None
  end.

Definition str_field (v : json) : option string :=
  match v with JStr s => Some s | _ => None end.

(** [d[k]] when the key is there, [None] otherwise. *)
Definition lookup_or_null (d : list (string * json)) (k : string) : json :=
  match dict_get k d with Some x => x | None => JNull end.

(** The field named [name] of the object [d] is null, absent or of class
    [t]. *)
Definition typed_at (d : list (string * json)) (name : string) (t : pytype)
  : Prop :=
  is_none (lookup_or_null d name) || isinstance (lookup_or_null d name) t
  = true.

Definition data_schema : list (string * pytype) :=
  [("did", Tstr); ("name", Tstr); ("ts", Tint)].

Definition conditions_schema : list (string * pytype) :=
  [("lsid", Tint); ("data_structure_type", Tint);
   ("temp", Tfloat); ("hum", Tfloat); ("dew_point", Tfloat);
   ("wet_bulb", Tfloat); ("heat_index", Tfloat);
   ("pm_1_last", Tint); ("pm_2p5_last", Tint); ("pm_10_last", Tint);
   ("pm_1", Tfloat);
   ("pm_2p5", Tfloat); ("pm_2p5_last_1_hour", Tfloat);
   ("pm_2p5_last_3_hours", Tfloat); ("pm_2p5_last_24_hours", Tfloat);
   ("pm_2p5_nowcast", Tfloat);
   ("pm_10", Tfloat); ("pm_10_last_1_hour", Tfloat);
   ("pm_10_last_3_hours", Tfloat); ("pm_10_last_24_hours", Tfloat);
   ("pm_10_nowcast", Tfloat);
   ("last_report_time", Tint);
   ("pct_pm_data_last_1_hour", Tint); ("pct_pm_data_last_3_hours", Tint);
   ("pct_pm_data_nowcast", Tint); ("pct_pm_data_last_24_hours", Tint)].

(** The [Reading] that [populate_record] builds from a payload whose
    [data] object is [dd] and whose [conditions[0]] object is [cd], both
    typed after the schemas. *)
Definition reading_of (dd cd : list (string * json)) : Reading :=
  let s k := str_field (lookup_or_null dd k) in
  let i k := int_field (lookup_or_null cd k) in
  let f k := float_field (lookup_or_null cd k) in
  mkReading (s "did") (s "name") (int_field (lookup_or_null dd "ts"))
    (i "lsid") (i "data_structure_type")
    (f "temp") (f "hum") (f "dew_point") (f "wet_bulb") (f "heat_index")
    (i "pm_1_last") (i "pm_2p5_last") (i "pm_10_last")
    (f "pm_1")
    (f "pm_2p5") (f "pm_2p5_last_1_hour") (f "pm_2p5_last_3_hours")
    (f "pm_2p5_last_24_hours") (f "pm_2p5_nowcast")
    (f "pm_10") (f "pm_10_last_1_hour") (f "pm_10_last_3_hours")
    (f "pm_10_last_24_hours") (f "pm_10_nowcast")
    (i "last_report_time")
    (i "pct_pm_data_last_1_hour") (i "pct_pm_data_last_3_hours")
    (i "pct_pm_data_nowcast") (i "pct_pm_data_last_24_hours").

(** The payload with the object [cd] at [j['data']['conditions'][0]]. *)
Definition with_cond0 (jd dd : list (string * json)) (rest : list json)
    (cd : list (string * json)) : json :=
  JDict (dict_set "data"
           (JDict (dict_set "conditions" (JList (JDict cd :: rest)) dd)) jd).



End Pipeline.

(* ================================================================== *)
(** ** Number formats *)

(** Rounding to the nearest integer, ties to even. *)
Definition round_half_even (x : Q) : Z :=
  let f := Qfloor x in
  match (x - inject_Z f ?= 1 # 2)%Q with
  | Lt => f
  | Gt => f + 1
  | Eq => if Z.even f then f else f + 1
  end.

Definition digit_char (d : Z) : ascii := ascii_of_nat (48 + Z.to_nat d).

(** The last [k] decimal digits of [n], most significant first. *)
Fixpoint digits_fixed (k : nat) (n : Z) : string :=
  match k with
  | O => ""
  | S k' => digits_fixed k' (n / 10) ++ String (digit_char (n mod 10)) ""
  end.

(** ['%f' % q]: six digits after the point, the sign of [q] kept even when
    the digits round to zero.  The rounding is that of the rational [q].
    Python rounds the double, which for a value of seven decimals that ends
    in 5 can fall on the other side of the tie: there the last digit can
    differ.  A value with at most six decimals is printed as it is. *)
Definition fmt_f (q : Q) : string :=
  let n := round_half_even (Qabs q * 1000000) in
  (match (q ?= 0)%Q with Lt => "-" | _ => "" end)
  ++ fmt_d (n / 1000000) ++ "." ++ digits_fixed 6 (n mod 1000000).

(** The number that the text of ['%f' % q] denotes. *)
Definition rounded_6 (q : Q) : Q :=
  Qmake ((match (q ?= 0)%Q with Lt => -1 | _ => 1 end)
         * round_half_even (Qabs q * 1000000)) 1000000.

(** [q] has at most six digits after the point. *)
Definition six_decimals (q : Q) : Prop := exists m : Z, (q == m # 1000000)%Q.

(** The characters of a numeral. *)
Definition numeral_char (c : ascii) : bool :=
  is_digit c || Ascii.eqb c "-" || Ascii.eqb c ".".

(** The value of a run of decimal digits, [None] on any other character. *)
Fixpoint digits_value (s : string) (acc : Z) : option Z :=
  match s with
  | EmptyString => Some acc
  | String c r =>
      if is_digit c then digits_value r (10 * acc + digit_val c) else None
  end.

(** The value of the digits of a [uint], read from the left. *)
Fixpoint uint_val (d : Decimal.uint) (acc : Z) : Z :=
  match d with
  | Decimal.Nil => acc
  | Decimal.D0 d => uint_val d (10 * acc + 0)
  | Decimal.D1 d => uint_val d (10 * acc + 1)
  | Decimal.D2 d => uint_val d (10 * acc + 2)
  | Decimal.D3 d => uint_val d (10 * acc + 3)
  | Decimal.D4 d => uint_val d (10 * acc + 4)
  | Decimal.D5 d => uint_val d (10 * acc + 5)
  | Decimal.D6 d => uint_val d (10 * acc + 6)
  | Decimal.D7 d => uint_val d (10 * acc + 7)
  | Decimal.D8 d => uint_val d (10 * acc + 8)
  | Decimal.D9 d => uint_val d (10 * acc + 9)
  end.

(* ================================================================== *)
(** ** The sqlite3 library, as far as the statements of this program go

    A database file holds the one table [Reading].  A row is its key
    [(record_type, timestamp)] and the 29 data cells in the order of
    [CREATE TABLE].  [exec_insert] reads the text of an INSERT statement the
    way sqlite 3.40 and Python's [sqlite3] module do, as far as it goes:
    - a column list, then one list of literals: integer numerals within 64
      bits, decimal numerals, double-quoted text, which sqlite takes for a
      string where no column of that name is in scope, with a doubled quote
      standing for a quote character;
    - the same followed by
      [ON CONFLICT(record_type, timestamp) DO UPDATE SET <column>=(<text>)],
      which a text field that holds a double quote can bring into the
      statement;
    - a statement that is too long, holds a NUL character or ends inside a
      quoted text is refused.
    Of every other text sqlite may make what it likes (a field that holds a
    double quote can end the string and go on with any SQL): the embedding
    answers [Unmodelled].  A decimal numeral is stored as the double that
    sqlite converts it to; the embedding has the value of the numeral in its
    place, so the stored float is right up to that conversion, and exact
    where the value is a double with few digits. *)

Module Sqlite.

Inductive SqlValue : Type :=
| SNull
| SInt (z : Z)
| SReal (q : Q)
| SText (s : string)
| SUnknown.
  (* [SUnknown] stands for the number that sqlite makes of a text that looks
     like a number and that the embedding does not read. *)

(** Column affinities: [INTEGER], [FLOAT] (real) and [STRING], which
    sqlite gives numeric affinity. *)
Inductive affinity : Type := AInteger | AReal | ANumeric.

(** The data columns of [CREATE TABLE Reading], after the key. *)
Definition columns : list (string * affinity) :=
  [("did", ANumeric); ("name", ANumeric); ("ts", AInteger);
   ("lsid", AInteger); ("data_structure_type", AInteger);
   ("temp", AReal); ("hum", AReal); ("dew_point", AReal);
   ("wet_bulb", AReal); ("heat_index", AReal);
   ("pm_1_last", AInteger); ("pm_2p5_last", AInteger);
   ("pm_10_last", AInteger);
   ("pm_1", AReal);
   ("pm_2p5", AReal); ("pm_2p5_last_1_hour", AReal);
   ("pm_2p5_last_3_hours", AReal); ("pm_2p5_last_24_hours", AReal);
   ("pm_2p5_nowcast", AReal);
   ("pm_10", AReal); ("pm_10_last_1_hour", AReal);
   ("pm_10_last_3_hours", AReal); ("pm_10_last_24_hours", AReal);
   ("pm_10_nowcast", AReal);
   ("last_report_time", AInteger);
   ("pct_pm_data_last_1_hour", AInteger);
   ("pct_pm_data_last_3_hours", AInteger);
   ("pct_pm_data_nowcast", AInteger);
   ("pct_pm_data_last_24_hours", AInteger)].

Record Row : Type := mkRow {
  row_type : Z;
  row_timestamp : Z;
  cells : list SqlValue
}.

(** The table, in insertion order. *)
Definition Table : Type := list Row.

(** *** Literals *)

(** What follows the opening quote of a quoted text, up to its closing
    quote, which must end the literal. *)
Fixpoint unquote_body (s : string) : option string :=
  match s with
  | EmptyString => None
  | String c r =>
      if Ascii.eqb c dquote then
        match r with
        | EmptyString => Some EmptyString
        | String c2 r2 =>
            if Ascii.eqb c2 dquote
            then option_map (String dquote) (unquote_body r2)
            else None
        end
      else option_map (String c) (unquote_body r)
  end.

Definition nonempty (s : string) : bool :=
  match s with EmptyString => false | _ => true end.

(** The integers of sqlite: 64 bits, signed. *)
Definition int64 (z : Z) : bool :=
  (-9223372036854775808 <=? z) && (z <=? 9223372036854775807).

(** A numeral without sign: digits, or digits, a point and digits.  An
    integer numeral beyond 64 bits is no integer to sqlite, which stores a
    float for it: the embedding has no value for it. *)
Definition unsigned_literal (sign : Z) (s : string) : option SqlValue :=
  match split "." s with
  | [i] =>
      if nonempty i
      then match digits_value i 0 with
           | Some z => if int64 (sign * z) then Some (SInt (sign * z))
                       else None
           | None => None
           end
      else None
  | [i; f] =>
      if nonempty i && nonempty f then
        match digits_value i 0, digits_value f 0 with
        | Some zi, Some zf =>
            let scale := 10 ^ Z.of_nat (String.length f) in
            Some (SReal (Qmake (sign * (zi * scale + zf))
                               (Z.to_pos scale)))
        | _, _ => None
        end
      else None
  | _ => None
  end.

Definition number_literal (s : string) : option SqlValue :=
  match s with
  | EmptyString => None
  | String c r =>
      if Ascii.eqb c "-" then unsigned_literal (-1) r
      else unsigned_literal 1 s
  end.

(** The white space between the tokens of a statement: blank, tab, line
    feed, form feed and carriage return. *)
Definition is_blank (c : ascii) : bool :=
  let n := nat_of_ascii c in
  (n =? 9)%nat || (n =? 10)%nat || (n =? 12)%nat || (n =? 13)%nat
  || (n =? 32)%nat.

Definition trim (s : string) : string := strip_by is_blank s.

(** One literal of a [VALUES] list, blanks around it skipped. *)
Definition literal (piece : string) : option SqlValue :=
  match trim piece with
  | EmptyString => None
  | String c r =>
      if Ascii.eqb c dquote then option_map SText (unquote_body r)
      else number_literal (String c r)
  end.

(** Splitting at the commas that are not inside quotes. *)
Fixpoint split_top (s : string) (in_quotes : bool) : list string :=
  match s with
  | EmptyString => [EmptyString]
  | String c r =>
      if Ascii.eqb c "," && negb in_quotes
      then EmptyString :: split_top r false
      else
        match split_top r (if Ascii.eqb c dquote then negb in_quotes
                           else in_quotes) with
        | h :: t => String c h :: t
        | [] => [String c EmptyString]
        end
  end.

Fixpoint traverse {A B : Type} (f : A -> option B) (l : list A)
  : option (list B) :=
  match l with
  | [] => Some []
  | a :: r =>
      match f a, traverse f r with
      | Some b, Some bs => Some (b :: bs)
      | _, _ => None
      end
  end.

(** *** The shape of the statement *)

Fixpoint strip_prefix (p s : string) : option string :=
  match p, s with
  | EmptyString, _ => Some s
  | String a p', String b s' =>
      if Ascii.eqb a b then strip_prefix p' s' else None
  | String _ _, EmptyString => None
  end.

Fixpoint strip_suffix (suffix s : string) : option string :=
  if String.eqb s suffix then Some EmptyString
  else match s with
       | EmptyString => None
       | String c r => option_map (String c) (strip_suffix suffix r)
       end.

(** The text before the first [c] and the text after it. *)
Fixpoint split_first (c : ascii) (s : string) : option (string * string) :=
  match s with
  | EmptyString => None
  | String a r =>
      if Ascii.eqb a c then Some (EmptyString, r)
      else option_map (fun br => (String a (fst br), snd br))
                      (split_first c r)
  end.

(** [INSERT INTO Reading (<columns>) VALUES(<literals>);] *)
Definition parse_insert (sql : string)
  : option (list string * list SqlValue) :=
  match strip_prefix "INSERT INTO Reading (" sql with
  | None => None
  | Some rest =>
      match split_first ")" rest with
      | None => None
      | Some (fields, after) =>
          match strip_prefix " VALUES(" after with
          | None => None
          | Some rest' =>
              match strip_suffix ");" rest' with
              | None => None
              | Some values =>
                  match traverse literal (split_top values false) with
                  | None => None
                  | Some vs => Some (map trim (split "," fields), vs)
                  end
              end
          end
      end
  end.

(** The text before the first closing parenthesis outside quotes, and the
    text after it. *)
Fixpoint split_close (s : string) (in_quotes : bool)
  : option (string * string) :=
  match s with
  | EmptyString => None
  | String c r =>
      if Ascii.eqb c ")" && negb in_quotes then Some (EmptyString, r)
      else option_map (fun br => (String c (fst br), snd br))
             (split_close r (if Ascii.eqb c dquote then negb in_quotes
                             else in_quotes))
  end.

Definition upsert_clause : string :=
  " ON CONFLICT(record_type, timestamp) DO UPDATE SET ".

(** A character of the names of the table: its columns and [rowid]. *)
Definition name_char (c : ascii) : bool :=
  let n := nat_of_ascii c in
  is_digit c || ((65 <=? n)%nat && (n <=? 90)%nat)
  || ((97 <=? n)%nat && (n <=? 122)%nat) || (n =? 95)%nat.

(** The value assigned in [SET <column>=(<value>)]: a number, or quoted
    text that cannot be the name of a column, which are in scope here. *)
Definition assigned_value (text : string) : option SqlValue :=
  match literal text with
  | Some (SText s) => if all_chars name_char s then None else Some (SText s)
  | other => other
  end.

(** [INSERT INTO Reading (<columns>) VALUES(<literals>)
     ON CONFLICT(record_type, timestamp) DO UPDATE SET <column>=(<value>);] *)
Definition parse_upsert (sql : string)
  : option (list string * list SqlValue * (string * SqlValue)) :=
  match strip_prefix "INSERT INTO Reading (" sql with
  | None => None
  | Some rest =>
      match split_first ")" rest with
      | None => None
      | Some (fields, after) =>
          match strip_prefix " VALUES(" after with
          | None => None
          | Some rest' =>
              match split_close rest' false with
              | None => None
              | Some (values, clause) =>
                  match strip_prefix upsert_clause clause with
                  | None => None
                  | Some assignment =>
                      match split_first "=" assignment with
                      | None => None
                      | Some (column, value) =>
                          match strip_prefix "(" value with
                          | None => None
                          | Some opened =>
                              match strip_suffix ");" opened with
                              | None => None
                              | Some text =>
                                  match traverse literal
                                          (split_top values false),
                                        assigned_value text with
                                  | Some vs, Some new =>
                                      Some (map trim (split "," fields), vs,
                                            (column, new))
                                  | _, _ => None
                                  end
                              end
                          end
                      end
                  end
              end
          end
      end
  end.

(** *** Text that is refused *)

Fixpoint count_char (c : ascii) (s : string) : nat :=
  match s with
  | EmptyString => O
  | String a r => ((if Ascii.eqb a c then 1 else 0) + count_char c r)%nat
  end.

Definition starts_with (p s : string) : bool :=
  match strip_prefix p s with Some _ => true | None => false end.

(** [sub in s] *)
Fixpoint has_sub (sub s : string) : bool :=
  starts_with sub s
  || match s with
     | EmptyString => false
     | String _ r => has_sub sub r
     end.

(** One statement that ends inside a double-quoted text: the number of its
    double quotes is odd, and it has nothing else that could hold one (a
    comment, text in single quotes, a name in brackets or back quotes).
    sqlite finds no end of the last token, or an error before it. *)
Definition unterminated (sql : string) : bool :=
  match strip_suffix ";" sql with
  | None => false
  | Some body =>
      Nat.odd (count_char dquote body)
      && negb (has_char ";" body) && negb (has_char "'" body)
      && negb (has_char "`" body) && negb (has_char "[" body)
      && negb (has_sub "--" body) && negb (has_sub "/*" body)
  end.

(** The length of the statement in bytes: a character beyond ASCII takes
    two bytes in UTF-8. *)
Fixpoint utf8_length (s : string) : Z :=
  match s with
  | EmptyString => 0
  | String c r =>
      (if (nat_of_ascii c <? 128)%nat then 1 else 2) + utf8_length r
  end.

(** [SQLITE_LIMIT_SQL_LENGTH] *)
Definition max_sql_length : Z := 1000000000.

(** *** Affinity *)

Definition is_integral (q : Q) : bool :=
  Qeq_bool q (inject_Z (Qfloor q)).

(** Text that reads as a number is converted under a numeric affinity.
    Of sqlite's numerals the integers within 64 bits are read here; sqlite
    also converts text with a point, an exponent or a leading plus, and
    integers beyond 64 bits, to a float or to the integer that the float
    equals. *)
Definition text_to_number (s : string) : option SqlValue :=
  match number_literal (strip s) with
  | Some (SInt z) => Some (SInt z)
  | _ => None
  end.

(** A character that a number written as text can hold: sqlite converts
    no text with any other character in it. *)
Definition number_char (c : ascii) : bool :=
  is_digit c || Ascii.eqb c "+" || Ascii.eqb c "-" || Ascii.eqb c "."
  || Ascii.eqb c "e" || Ascii.eqb c "E" || is_space c.

(** Text that sqlite may take for a number. *)
Definition number_like (s : string) : bool :=
  negb (String.eqb (strip s) "") && all_chars number_char s.

Definition to_integer_if_integral (v : SqlValue) : SqlValue :=
  match v with
  | SReal q => if is_integral q then SInt (Qfloor q) else v
  | _ => v
  end.

Definition to_real (v : SqlValue) : SqlValue :=
  match v with
  | SInt z => SReal (inject_Z z)
  | _ => v
  end.

Definition apply_affinity (a : affinity) (v : SqlValue) : SqlValue :=
  let numeric :=
    match v with
    | SText s =>
        match text_to_number s with
        | Some n => n
        | None => if number_like s then SUnknown else v
        end
    | _ => v
    end in
  match a with
  | AInteger | ANumeric => to_integer_if_integral numeric
  | AReal => to_real numeric
  end.

(** *** Statements *)

Definition known_column (name : string) : bool :=
  String.eqb name "record_type" || String.eqb name "timestamp"
  || existsb (fun ca => String.eqb (fst ca) name) columns.

Definition value_of (bound : list (string * SqlValue)) (name : string)
  : SqlValue :=
  match dict_get name bound with Some v => v | None => SNull end.

Definition has_key (rt ts : Z) (t : Table) : bool :=
  existsb (fun r => (row_type r =? rt) && (row_timestamp r =? ts)) t.

(** The row that a column list and its values make.  The key columns are
    [INTEGER NOT NULL]; a key that is not an integer is outside what this
    program writes. *)
Definition new_row (names : list string) (vs : list SqlValue) : result Row :=
  if negb (List.length names =? List.length vs)%nat then
    Raise (OperationalError "values do not match the columns")
  else if negb (forallb known_column names) then
    Raise (OperationalError "table Reading has no such column")
  else
    let bound := combine names vs in
    match apply_affinity AInteger (value_of bound "record_type"),
          apply_affinity AInteger (value_of bound "timestamp") with
    | SInt rt, SInt ts =>
        Ok (mkRow rt ts
              (map (fun ca => apply_affinity (snd ca)
                                (value_of bound (fst ca)))
                   columns))
    | SNull, _ | _, SNull =>
        Raise (IntegrityError "NOT NULL constraint failed")
    | _, _ => Raise (Unmodelled "a key that is not an integer")
    end.

(** [UPDATE ... SET <column> = <v>] on the cells of a row. *)
Definition set_cell (column : string) (v : SqlValue) (cs : list SqlValue)
  : list SqlValue :=
  map (fun cc => if String.eqb (fst (fst cc)) column
                 then apply_affinity (snd (fst cc)) v
                 else snd cc)
      (combine columns cs).

(** The row under the key is rewritten, the others stay. *)
Definition update_row (rt ts : Z) (column : string) (v : SqlValue)
    (t : Table) : Table :=
  map (fun r => if (row_type r =? rt) && (row_timestamp r =? ts)
                then mkRow rt ts (set_cell column v (cells r))
                else r) t.

(** [cursor.execute] of an INSERT statement. *)
Definition exec_insert (t : Table) (sql : string) : result Table :=
  if max_sql_length <? utf8_length sql then
    Raise (DataError "query string is too large")
  else if has_char Ascii.zero sql then
    Raise (ProgrammingError "the query contains a null character")
  else
    match parse_insert sql with
    | Some (names, vs) =>
        row <- new_row names vs ;;
        if has_key (row_type row) (row_timestamp row) t then
          Raise (IntegrityError
            "UNIQUE constraint failed: Reading.record_type, Reading.timestamp")
        else Ok (t ++ [row])%list
    | None =>
        match parse_upsert sql with
        | Some (names, vs, (column, v)) =>
            row <- new_row names vs ;;
            if negb (existsb (fun ca => String.eqb (fst ca) column) columns)
            then Raise (Unmodelled "an assignment to this column")
            else if has_key (row_type row) (row_timestamp row) t then
              Ok (update_row (row_type row) (row_timestamp row) column v t)
            else Ok (t ++ [row])%list
        | None =>
            if unterminated sql then Raise (OperationalError "syntax error")
            else Raise (Unmodelled "this statement")
        end
    end.

(** [DELETE FROM Reading where record_type = <rt>;] *)
Definition exec_delete (t : Table) (rt : Z) : Table :=
  filter (fun r => negb (row_type r =? rt)) t.

(** Rows in ascending order of timestamp (insertion sort, stable). *)
Fixpoint insert_by_timestamp (r : Row) (l : list Row) : list Row :=
  match l with
  | [] => [r]
  | x :: rest =>
      if row_timestamp r <? row_timestamp x then r :: l
      else x :: insert_by_timestamp r rest
  end.

Definition order_by_timestamp (l : list Row) : list Row :=
  fold_right insert_by_timestamp [] l.

(** [LIMIT n]: a negative limit is no limit. *)
Definition apply_limit (limit : option Z) (l : list Row) : list Row :=
  match limit with
  | None => l
  | Some n => if n <? 0 then l else firstn (Z.to_nat n) l
  end.

(** [SELECT <data columns> FROM Reading WHERE record_type = <rt>
     AND timestamp > <since> [AND timestamp <= <max>]
     ORDER BY timestamp [LIMIT <limit>];] *)
Definition exec_select (t : Table) (rt since : Z) (max : option Z)
    (limit : option Z) : list Row :=
  apply_limit limit
    (order_by_timestamp
       (filter (fun r =>
                  (row_type r =? rt) && (since <? row_timestamp r)
                  && match max with
                     | Some m => row_timestamp r <=? m
                     | None => true
                     end) t)).

Definition by_timestamp (a b : Row) : Prop :=
  row_timestamp a <= row_timestamp b.

End Sqlite.

(* ================================================================== *)
(** ** monitor/monitor.py: [Database] *)

(** [a == b] for two optional floats. *)
Definition opt_Qeq (a b : option Q) : Prop :=
  match a, b with
  | Some x, Some y => (x == y)%Q
  | None, None => True
  | _, _ => False
  end.

(** [a == b] for two readings: the dataclass compares field by field. *)
Definition reading_eq (a b : Reading) : Prop :=
  did a = did b
  /\ name a = name b
  /\ ts a = ts b
  /\ lsid a = lsid b
  /\ data_structure_type a = data_structure_type b
  /\ opt_Qeq (temp a) (temp b)
  /\ opt_Qeq (hum a) (hum b)
  /\ opt_Qeq (dew_point a) (dew_point b)
  /\ opt_Qeq (wet_bulb a) (wet_bulb b)
  /\ opt_Qeq (heat_index a) (heat_index b)
  /\ pm_1_last a = pm_1_last b
  /\ pm_2p5_last a = pm_2p5_last b
  /\ pm_10_last a = pm_10_last b
  /\ opt_Qeq (pm_1 a) (pm_1 b)
  /\ opt_Qeq (pm_2p5 a) (pm_2p5 b)
  /\ opt_Qeq (pm_2p5_last_1_hour a) (pm_2p5_last_1_hour b)
  /\ opt_Qeq (pm_2p5_last_3_hours a) (pm_2p5_last_3_hours b)
  /\ opt_Qeq (pm_2p5_last_24_hours a) (pm_2p5_last_24_hours b)
  /\ opt_Qeq (pm_2p5_nowcast a) (pm_2p5_nowcast b)
  /\ opt_Qeq (pm_10 a) (pm_10 b)
  /\ opt_Qeq (pm_10_last_1_hour a) (pm_10_last_1_hour b)
  /\ opt_Qeq (pm_10_last_3_hours a) (pm_10_last_3_hours b)
  /\ opt_Qeq (pm_10_last_24_hours a) (pm_10_last_24_hours b)
  /\ opt_Qeq (pm_10_nowcast a) (pm_10_nowcast b)
  /\ last_report_time a = last_report_time b
  /\ pct_pm_data_last_1_hour a = pct_pm_data_last_1_hour b
  /\ pct_pm_data_last_3_hours a = pct_pm_data_last_3_hours b
  /\ pct_pm_data_nowcast a = pct_pm_data_nowcast b
  /\ pct_pm_data_last_24_hours a = pct_pm_data_last_24_hours b.

(** Two optional floats: both absent, or not further apart than a unit of
    the sixth decimal. *)
Definition near (a b : option Q) : Prop :=
  match a, b with
  | Some x, Some y => (Qabs (y - x) <= 1 # 1000000)%Q
  | None, None => True
  | _, _ => False
  end.

(** The reading [b] is the reading [a] but for the rounding of its
    floats. *)
Definition within_rounding (a b : Reading) : Prop :=
  did a = did b
  /\ name a = name b
  /\ ts a = ts b
  /\ lsid a = lsid b
  /\ data_structure_type a = data_structure_type b
  /\ near (temp a) (temp b)
  /\ near (hum a) (hum b)
  /\ near (dew_point a) (dew_point b)
  /\ near (wet_bulb a) (wet_bulb b)
  /\ near (heat_index a) (heat_index b)
  /\ pm_1_last a = pm_1_last b
  /\ pm_2p5_last a = pm_2p5_last b
  /\ pm_10_last a = pm_10_last b
  /\ near (pm_1 a) (pm_1 b)
  /\ near (pm_2p5 a) (pm_2p5 b)
  /\ near (pm_2p5_last_1_hour a) (pm_2p5_last_1_hour b)
  /\ near (pm_2p5_last_3_hours a) (pm_2p5_last_3_hours b)
  /\ near (pm_2p5_last_24_hours a) (pm_2p5_last_24_hours b)
  /\ near (pm_2p5_nowcast a) (pm_2p5_nowcast b)
  /\ near (pm_10 a) (pm_10 b)
  /\ near (pm_10_last_1_hour a) (pm_10_last_1_hour b)
  /\ near (pm_10_last_3_hours a) (pm_10_last_3_hours b)
  /\ near (pm_10_last_24_hours a) (pm_10_last_24_hours b)
  /\ near (pm_10_nowcast a) (pm_10_nowcast b)
  /\ last_report_time a = last_report_time b
  /\ pct_pm_data_last_1_hour a = pct_pm_data_last_1_hour b
  /\ pct_pm_data_last_3_hours a = pct_pm_data_last_3_hours b
  /\ pct_pm_data_nowcast a = pct_pm_data_nowcast b
  /\ pct_pm_data_last_24_hours a = pct_pm_data_last_24_hours b.

Module Database.
Import Sqlite.

(** [Database.add_string]: the value between double quotes. *)
Definition add_string (fields values field str_val : string)
  : string * string :=
  (fields ++ ", " ++ field, values ++ ", " ++ dq ++ str_val ++ dq).

(** [Database.add_int] *)
Definition add_int (fields values field : string) (int_val : Z)
  : string * string :=
  (fields ++ ", " ++ field, values ++ ", " ++ fmt_d int_val).

(** [Database.add_float] *)
Definition add_float (fields values field : string) (float_val : Q)
  : string * string :=
  (fields ++ ", " ++ field, values ++ ", " ++ fmt_f float_val).

(** [if v is not None: fields, values = add(fields, values, field, v)] *)
Definition if_not_none {A : Type} (v : option A)
    (add : string -> string -> string -> A -> string * string)
    (field : string) (fv : string * string) : string * string :=
  match v with
  | Some x => add (fst fv) (snd fv) field x
  | None => fv
  end.

(** [Database.build_insert_statement] *)
Definition build_insert_statement (record_type timestamp : Z) (r : Reading)
  : string :=
  let fv := ("record_type, timestamp",
             fmt_d record_type ++ ", " ++ fmt_d timestamp) in
  let fv := if_not_none (did r) add_string "did" fv in
  let fv := if_not_none (name r) add_string "name" fv in
  let fv := if_not_none (ts r) add_int "ts" fv in
  let fv := if_not_none (lsid r) add_int "lsid" fv in
  let fv := if_not_none (data_structure_type r) add_int "data_structure_type" fv in
  let fv := if_not_none (temp r) add_float "temp" fv in
  let fv := if_not_none (hum r) add_float "hum" fv in
  let fv := if_not_none (dew_point r) add_float "dew_point" fv in
  let fv := if_not_none (wet_bulb r) add_float "wet_bulb" fv in
  let fv := if_not_none (heat_index r) add_float "heat_index" fv in
  let fv := if_not_none (pm_1_last r) add_int "pm_1_last" fv in
  let fv := if_not_none (pm_2p5_last r) add_int "pm_2p5_last" fv in
  let fv := if_not_none (pm_10_last r) add_int "pm_10_last" fv in
  let fv := if_not_none (pm_1 r) add_float "pm_1" fv in
  let fv := if_not_none (pm_2p5 r) add_float "pm_2p5" fv in
  let fv := if_not_none (pm_2p5_last_1_hour r) add_float "pm_2p5_last_1_hour" fv in
  let fv := if_not_none (pm_2p5_last_3_hours r) add_float "pm_2p5_last_3_hours" fv in
  let fv := if_not_none (pm_2p5_last_24_hours r) add_float "pm_2p5_last_24_hours" fv in
  let fv := if_not_none (pm_2p5_nowcast r) add_float "pm_2p5_nowcast" fv in
  let fv := if_not_none (pm_10 r) add_float "pm_10" fv in
  let fv := if_not_none (pm_10_last_1_hour r) add_float "pm_10_last_1_hour" fv in
  let fv := if_not_none (pm_10_last_3_hours r) add_float "pm_10_last_3_hours" fv in
  let fv := if_not_none (pm_10_last_24_hours r) add_float "pm_10_last_24_hours" fv in
  let fv := if_not_none (pm_10_nowcast r) add_float "pm_10_nowcast" fv in
  let fv := if_not_none (last_report_time r) add_int "last_report_time" fv in
  let fv := if_not_none (pct_pm_data_last_1_hour r) add_int "pct_pm_data_last_1_hour" fv in
  let fv := if_not_none (pct_pm_data_last_3_hours r) add_int "pct_pm_data_last_3_hours" fv in
  let fv := if_not_none (pct_pm_data_nowcast r) add_int "pct_pm_data_nowcast" fv in
  let fv := if_not_none (pct_pm_data_last_24_hours r) add_int "pct_pm_data_last_24_hours" fv in
  "INSERT INTO Reading (" ++ fst fv ++ ") VALUES(" ++ snd fv ++ ");".

(** [Database.save_reading], on the table [db] of the database file.
    The [with sqlite3.connect(...)] block commits when it ends normally
    and rolls back when an exception leaves it, so a failed INSERT also
    undoes the DELETE. *)
Definition save_reading (db : Table) (record_type timestamp : Z)
    (r : Reading) : Table * result unit :=
  let insert_reading_sql := build_insert_statement record_type timestamp r in
  let deleted :=
    if record_type =? RecordType.CURRENT
    then exec_delete db RecordType.CURRENT
    else db in
  match exec_insert deleted insert_reading_sql with
  | Ok written => (written, Ok tt)
  | Raise e => (db, Raise e)
  end.

(** [Database.save_current_reading]: the key is [r.ts]; ['%d' % None]
    raises before the database is opened. *)
Definition save_current_reading (db : Table) (r : Reading)
  : Table * result unit :=
  match ts r with
  | Some t => save_reading db RecordType.CURRENT t r
  | None => (db, Raise TypeError)
  end.

(** [Database.save_archive_reading] *)
Definition save_archive_reading (db : Table) (timestamp : Z) (r : Reading)
  : Table * result unit :=
  save_reading db RecordType.ARCHIVE timestamp r.

(** The Python object that sqlite3 returns for a cell, as the value of a
    typed field. *)
Definition cell_str (field : string) (v : SqlValue) : result (option string) :=
  match v with
  | SNull => Ok None
  | SText s => Ok (Some s)
  | _ => Raise (Untyped field)
  end.

Definition cell_int (field : string) (v : SqlValue) : result (option Z) :=
  match v with
  | SNull => Ok None
  | SInt z => Ok (Some z)
  | _ => Raise (Untyped field)
  end.

Definition cell_float (field : string) (v : SqlValue) : result (option Q) :=
  match v with
  | SNull => Ok None
  | SReal q => Ok (Some q)
  | SInt z => Ok (Some (inject_Z z))
  | _ => Raise (Untyped field)
  end.

(** [Database.create_reading_from_row] *)
Definition create_reading_from_row (row : list SqlValue) : result Reading :=
  c_did <- item row 0 ;;
  c_name <- item row 1 ;;
  c_ts <- item row 2 ;;
  c_lsid <- item row 3 ;;
  c_data_structure_type <- item row 4 ;;
  c_temp <- item row 5 ;;
  c_hum <- item row 6 ;;
  c_dew_point <- item row 7 ;;
  c_wet_bulb <- item row 8 ;;
  c_heat_index <- item row 9 ;;
  c_pm_1_last <- item row 10 ;;
  c_pm_2p5_last <- item row 11 ;;
  c_pm_10_last <- item row 12 ;;
  c_pm_1 <- item row 13 ;;
  c_pm_2p5 <- item row 14 ;;
  c_pm_2p5_last_1_hour <- item row 15 ;;
  c_pm_2p5_last_3_hours <- item row 16 ;;
  c_pm_2p5_last_24_hours <- item row 17 ;;
  c_pm_2p5_nowcast <- item row 18 ;;
  c_pm_10 <- item row 19 ;;
  c_pm_10_last_1_hour <- item row 20 ;;
  c_pm_10_last_3_hours <- item row 21 ;;
  c_pm_10_last_24_hours <- item row 22 ;;
  c_pm_10_nowcast <- item row 23 ;;
  c_last_report_time <- item row 24 ;;
  c_pct_pm_data_last_1_hour <- item row 25 ;;
  c_pct_pm_data_last_3_hours <- item row 26 ;;
  c_pct_pm_data_nowcast <- item row 27 ;;
  c_pct_pm_data_last_24_hours <- item row 28 ;;
  f_did <- cell_str "did" c_did ;;
  f_name <- cell_str "name" c_name ;;
  f_ts <- cell_int "ts" c_ts ;;
  f_lsid <- cell_int "lsid" c_lsid ;;
  f_data_structure_type <- cell_int "data_structure_type" c_data_structure_type ;;
  f_temp <- cell_float "temp" c_temp ;;
  f_hum <- cell_float "hum" c_hum ;;
  f_dew_point <- cell_float "dew_point" c_dew_point ;;
  f_wet_bulb <- cell_float "wet_bulb" c_wet_bulb ;;
  f_heat_index <- cell_float "heat_index" c_heat_index ;;
  f_pm_1_last <- cell_int "pm_1_last" c_pm_1_last ;;
  f_pm_2p5_last <- cell_int "pm_2p5_last" c_pm_2p5_last ;;
  f_pm_10_last <- cell_int "pm_10_last" c_pm_10_last ;;
  f_pm_1 <- cell_float "pm_1" c_pm_1 ;;
  f_pm_2p5 <- cell_float "pm_2p5" c_pm_2p5 ;;
  f_pm_2p5_last_1_hour <- cell_float "pm_2p5_last_1_hour" c_pm_2p5_last_1_hour ;;
  f_pm_2p5_last_3_hours <- cell_float "pm_2p5_last_3_hours" c_pm_2p5_last_3_hours ;;
  f_pm_2p5_last_24_hours <- cell_float "pm_2p5_last_24_hours" c_pm_2p5_last_24_hours ;;
  f_pm_2p5_nowcast <- cell_float "pm_2p5_nowcast" c_pm_2p5_nowcast ;;
  f_pm_10 <- cell_float "pm_10" c_pm_10 ;;
  f_pm_10_last_1_hour <- cell_float "pm_10_last_1_hour" c_pm_10_last_1_hour ;;
  f_pm_10_last_3_hours <- cell_float "pm_10_last_3_hours" c_pm_10_last_3_hours ;;
  f_pm_10_last_24_hours <- cell_float "pm_10_last_24_hours" c_pm_10_last_24_hours ;;
  f_pm_10_nowcast <- cell_float "pm_10_nowcast" c_pm_10_nowcast ;;
  f_last_report_time <- cell_int "last_report_time" c_last_report_time ;;
  f_pct_pm_data_last_1_hour <- cell_int "pct_pm_data_last_1_hour" c_pct_pm_data_last_1_hour ;;
  f_pct_pm_data_last_3_hours <- cell_int "pct_pm_data_last_3_hours" c_pct_pm_data_last_3_hours ;;
  f_pct_pm_data_nowcast <- cell_int "pct_pm_data_nowcast" c_pct_pm_data_nowcast ;;
  f_pct_pm_data_last_24_hours <- cell_int "pct_pm_data_last_24_hours" c_pct_pm_data_last_24_hours ;;
  Ok (mkReading
        f_did f_name f_ts f_lsid f_data_structure_type f_temp f_hum
        f_dew_point f_wet_bulb f_heat_index f_pm_1_last f_pm_2p5_last
        f_pm_10_last f_pm_1 f_pm_2p5 f_pm_2p5_last_1_hour
        f_pm_2p5_last_3_hours f_pm_2p5_last_24_hours f_pm_2p5_nowcast
        f_pm_10 f_pm_10_last_1_hour f_pm_10_last_3_hours
        f_pm_10_last_24_hours f_pm_10_nowcast f_last_report_time
        f_pct_pm_data_last_1_hour f_pct_pm_data_last_3_hours
        f_pct_pm_data_nowcast f_pct_pm_data_last_24_hours).

Fixpoint readings_of_rows (rows : list Row) : result (list Reading) :=
  match rows with
  | [] => Ok []
  | row :: rest =>
      reading <- create_reading_from_row (cells row) ;;
      readings <- readings_of_rows rest ;;
      Ok (reading :: readings)
  end.

(** [Database.fetch_readings], the readings it yields, in order.  A
    [LIMIT] beyond 64 bits is a float to sqlite, which refuses it. *)
Definition fetch_readings (db : Table) (record_type since_ts : Z)
    (max_ts limit : option Z) : result (list Reading) :=
  match limit with
  | Some n =>
      if int64 n
      then readings_of_rows
             (exec_select db record_type since_ts max_ts limit)
      else Raise (IntegrityError "datatype mismatch")
  | None => readings_of_rows (exec_select db record_type since_ts max_ts limit)
  end.


(** [Database.fetch_archive_readings] *)
Definition fetch_archive_readings (db : Table) (since_ts : Z)
    (max_ts limit : option Z) : result (list Reading) :=
  fetch_readings db RecordType.ARCHIVE since_ts max_ts limit.



End Database.

(* ================================================================== *)
(** ** Vocabulary for statements about the store *)

Module Store.
Import Sqlite.

(** Text that stays inside its quotes in the statement: it holds no
    double quote and no NUL character. *)
Definition quotable (s : string) : Prop :=
  has_char dquote s = false /\ has_char Ascii.zero s = false.

(** Text that goes into the statement and comes back as it is: it is
    quotable, and it is empty or holds a character that no number has. *)
Definition plain_text (s : string) : Prop :=
  quotable s
  /\ (String.eqb s "" || negb (all_chars number_char s)) = true.

Definition opt_holds {A : Type} (P : A -> Prop) (o : option A) : Prop :=
  match o with
  | Some a => P a
  | None => True
  end.

(** An integer that sqlite stores as an integer. *)
Definition in_int64 (z : Z) : Prop := int64 z = true.

(** A float of a magnitude where a double resolves far below the sixth
    decimal. *)
Definition small (q : Q) : Prop := (Qabs q <= 1000000)%Q.

(** A float that ['%f'] prints exactly and sqlite reads exactly: a binary
    fraction with at most six decimals, below [2^32] in magnitude. *)
Definition exact_float (q : Q) : Prop :=
  six_decimals q
  /\ (exists (m : Z) (k : positive), (q == m # (2 ^ k))%Q)
  /\ (Qabs q <= 4294967296)%Q.

(** The fields of a reading, by type. *)
Definition texts (r : Reading) : list (option string) := [did r; name r].

Definition ints (r : Reading) : list (option Z) :=
  [ts r; lsid r; data_structure_type r; pm_1_last r; pm_2p5_last r;
   pm_10_last r; last_report_time r; pct_pm_data_last_1_hour r;
   pct_pm_data_last_3_hours r; pct_pm_data_nowcast r;
   pct_pm_data_last_24_hours r].

Definition floats (r : Reading) : list (option Q) :=
  [temp r; hum r; dew_point r; wet_bulb r; heat_index r; pm_1 r; pm_2p5 r;
   pm_2p5_last_1_hour r; pm_2p5_last_3_hours r; pm_2p5_last_24_hours r;
   pm_2p5_nowcast r; pm_10 r; pm_10_last_1_hour r; pm_10_last_3_hours r;
   pm_10_last_24_hours r; pm_10_nowcast r].

(** A reading whose statement is one list of literals: its text fields are
    quotable and its integer fields within 64 bits. *)
Definition writable (r : Reading) : Prop :=
  Forall (opt_holds quotable) (texts r)
  /\ Forall (opt_holds in_int64) (ints r).

(** A reading that is stored as it is, but for the last digits of its
    floats: its text fields are plain, its integer fields within 64 bits and
    its float fields small. *)
Definition storable (r : Reading) : Prop :=
  Forall (opt_holds plain_text) (texts r)
  /\ Forall (opt_holds in_int64) (ints r)
  /\ Forall (opt_holds small) (floats r).

(** A reading whose floats are stored exactly. *)
Definition exact_floats (r : Reading) : Prop :=
  Forall (opt_holds exact_float) (floats r).

(** The statement of the save is within the length that sqlite accepts. *)
Definition fits (record_type timestamp : Z) (r : Reading) : Prop :=
  utf8_length (Database.build_insert_statement record_type timestamp r)
  <= max_sql_length.

(** The rows of kind Archive and of kind Current, in table order. *)
Definition archive_rows (t : Table) : list Row :=
  filter (fun r => row_type r =? RecordType.ARCHIVE) t.

Definition current_rows (t : Table) : list Row :=
  filter (fun r => row_type r =? RecordType.CURRENT) t.





(** A literal is closed from the quoting state [in_quotes]: it holds no
    comma outside quotes and ends outside quotes. *)
Fixpoint closed (s : string) (in_quotes : bool) : bool :=
  match s with
  | EmptyString => negb in_quotes
  | String c r =>
      if Ascii.eqb c "," && negb in_quotes then false
      else closed r (if Ascii.eqb c dquote then negb in_quotes
                     else in_quotes)
  end.

(** The text that a list of further items adds: [", " ++ item] each. *)
Definition join_tail (items : list string) : string :=
  fold_right (fun item acc => ", " ++ item ++ acc) "" items.

(** What a field that is not [None] adds to the statement: its column,
    the text of its value and the value that text denotes. *)
Definition entry : Type := string * (string * SqlValue).

Definition str_entry (field : string) (o : option string) : list entry :=
  match o with
  | Some s => [(field, (dq ++ s ++ dq, SText s))]
  | None => []
  end.

Definition int_entry (field : string) (o : option Z) : list entry :=
  match o with
  | Some z => [(field, (fmt_d z, SInt z))]
  | None => []
  end.

Definition float_entry (field : string) (o : option Q) : list entry :=
  match o with
  | Some q => [(field, (fmt_f q, SReal (rounded_6 q)))]
  | None => []
  end.

Definition entries (r : Reading) : list entry :=
  (str_entry "did" (did r)
  ++ str_entry "name" (name r)
  ++ int_entry "ts" (ts r)
  ++ int_entry "lsid" (lsid r)
  ++ int_entry "data_structure_type" (data_structure_type r)
  ++ float_entry "temp" (temp r)
  ++ float_entry "hum" (hum r)
  ++ float_entry "dew_point" (dew_point r)
  ++ float_entry "wet_bulb" (wet_bulb r)
  ++ float_entry "heat_index" (heat_index r)
  ++ int_entry "pm_1_last" (pm_1_last r)
  ++ int_entry "pm_2p5_last" (pm_2p5_last r)
  ++ int_entry "pm_10_last" (pm_10_last r)
  ++ float_entry "pm_1" (pm_1 r)
  ++ float_entry "pm_2p5" (pm_2p5 r)
  ++ float_entry "pm_2p5_last_1_hour" (pm_2p5_last_1_hour r)
  ++ float_entry "pm_2p5_last_3_hours" (pm_2p5_last_3_hours r)
  ++ float_entry "pm_2p5_last_24_hours" (pm_2p5_last_24_hours r)
  ++ float_entry "pm_2p5_nowcast" (pm_2p5_nowcast r)
  ++ float_entry "pm_10" (pm_10 r)
  ++ float_entry "pm_10_last_1_hour" (pm_10_last_1_hour r)
  ++ float_entry "pm_10_last_3_hours" (pm_10_last_3_hours r)
  ++ float_entry "pm_10_last_24_hours" (pm_10_last_24_hours r)
  ++ float_entry "pm_10_nowcast" (pm_10_nowcast r)
  ++ int_entry "last_report_time" (last_report_time r)
  ++ int_entry "pct_pm_data_last_1_hour" (pct_pm_data_last_1_hour r)
  ++ int_entry "pct_pm_data_last_3_hours" (pct_pm_data_last_3_hours r)
  ++ int_entry "pct_pm_data_nowcast" (pct_pm_data_nowcast r)
  ++ int_entry "pct_pm_data_last_24_hours" (pct_pm_data_last_24_hours r))%list.

Definition entry_text (e : entry) : string := fst (snd e).
Definition entry_value (e : entry) : SqlValue := snd (snd e).

(** The cell of a field in the stored row. *)
Definition str_cell (o : option string) : SqlValue :=
  match o with Some s => SText s | None => SNull end.
Definition int_cell (o : option Z) : SqlValue :=
  match o with Some z => SInt z | None => SNull end.
Definition float_cell (o : option Q) : SqlValue :=
  match o with Some q => SReal (rounded_6 q) | None => SNull end.

(** The cells of the row that the statement built for [r] stores. *)
Definition stored_cells (r : Reading) : list SqlValue :=
  [apply_affinity ANumeric (str_cell (did r));
   apply_affinity ANumeric (str_cell (name r));
   apply_affinity AInteger (int_cell (ts r));
   apply_affinity AInteger (int_cell (lsid r));
   apply_affinity AInteger (int_cell (data_structure_type r));
   apply_affinity AReal (float_cell (temp r));
   apply_affinity AReal (float_cell (hum r));
   apply_affinity AReal (float_cell (dew_point r));
   apply_affinity AReal (float_cell (wet_bulb r));
   apply_affinity AReal (float_cell (heat_index r));
   apply_affinity AInteger (int_cell (pm_1_last r));
   apply_affinity AInteger (int_cell (pm_2p5_last r));
   apply_affinity AInteger (int_cell (pm_10_last r));
   apply_affinity AReal (float_cell (pm_1 r));
   apply_affinity AReal (float_cell (pm_2p5 r));
   apply_affinity AReal (float_cell (pm_2p5_last_1_hour r));
   apply_affinity AReal (float_cell (pm_2p5_last_3_hours r));
   apply_affinity AReal (float_cell (pm_2p5_last_24_hours r));
   apply_affinity AReal (float_cell (pm_2p5_nowcast r));
   apply_affinity AReal (float_cell (pm_10 r));
   apply_affinity AReal (float_cell (pm_10_last_1_hour r));
   apply_affinity AReal (float_cell (pm_10_last_3_hours r));
   apply_affinity AReal (float_cell (pm_10_last_24_hours r));
   apply_affinity AReal (float_cell (pm_10_nowcast r));
   apply_affinity AInteger (int_cell (last_report_time r));
   apply_affinity AInteger (int_cell (pct_pm_data_last_1_hour r));
   apply_affinity AInteger (int_cell (pct_pm_data_last_3_hours r));
   apply_affinity AInteger (int_cell (pct_pm_data_nowcast r));
   apply_affinity AInteger (int_cell (pct_pm_data_last_24_hours r))].

(** The reading that comes back from that row: the floats are those of
    the six-decimal numerals. *)
Definition read_back (r : Reading) : Reading :=
  mkReading
    (did r) (name r) (ts r) (lsid r) (data_structure_type r)
    (option_map rounded_6 (temp r)) (option_map rounded_6 (hum r))
    (option_map rounded_6 (dew_point r)) (option_map rounded_6
    (wet_bulb r)) (option_map rounded_6 (heat_index r)) (pm_1_last r)
    (pm_2p5_last r) (pm_10_last r) (option_map rounded_6 (pm_1 r))
    (option_map rounded_6 (pm_2p5 r)) (option_map rounded_6
    (pm_2p5_last_1_hour r)) (option_map rounded_6 (pm_2p5_last_3_hours
    r)) (option_map rounded_6 (pm_2p5_last_24_hours r)) (option_map
    rounded_6 (pm_2p5_nowcast r)) (option_map rounded_6 (pm_10 r))
    (option_map rounded_6 (pm_10_last_1_hour r)) (option_map rounded_6
    (pm_10_last_3_hours r)) (option_map rounded_6 (pm_10_last_24_hours
    r)) (option_map rounded_6 (pm_10_nowcast r)) (last_report_time r)
    (pct_pm_data_last_1_hour r) (pct_pm_data_last_3_hours r)
    (pct_pm_data_nowcast r) (pct_pm_data_last_24_hours r).

(** The columns and values of the statement built for [r]. *)
Definition bound_of (record_type timestamp : Z) (r : Reading)
  : list (string * SqlValue) :=
  ("record_type", SInt record_type) :: ("timestamp", SInt timestamp)
  :: map (fun e => (fst e, entry_value e)) (entries r).

(** The pair of texts after the entries [es] were added to [fv]. *)
Definition added (es : list entry) (fv : string * string) : string * string :=
  (fst fv ++ join_tail (map fst es), snd fv ++ join_tail (map entry_text es)).

Definition clean_char (c : ascii) : bool :=
  negb (is_space c) && negb (Ascii.eqb c ",") && negb (Ascii.eqb c ")")
  && negb (Ascii.eqb c Ascii.zero).

Definition clean_name (n : string) : bool :=
  all_chars clean_char n && known_column n.

Definition entry_reads (e : entry) : Prop :=
  closed (entry_text e) false = true
  /\ literal (entry_text e) = Some (entry_value e)
  /\ has_char Ascii.zero (entry_text e) = false.

Definition pair_of (e : entry) : string * SqlValue := (fst e, entry_value e).

(** A save whose statement sqlite takes: the key within 64 bits, the
    reading storable, the statement within the length. *)
Definition savable (record_type : Z) (tr : Z * Reading) : Prop :=
  in_int64 (fst tr) /\ storable (snd tr) /\ fits record_type (fst tr) (snd tr).

(** The Archive row of a saved record. *)
Definition archive_row (tr : Z * Reading) : Row :=
  mkRow RecordType.ARCHIVE (fst tr) (stored_cells (snd tr)).

(** The store after [saveArchive(t, R)] for each [(t, R)] of a list, in
    the order of the list, on the new database. *)
Definition archived (saved : list (Z * Reading)) : Table :=
  fold_left
    (fun db tr => fst (Database.save_archive_reading db (fst tr) (snd tr)))
    saved [].

(** The window that a fetch asks for: after [since], up to [max]. *)
Definition in_window (since : Z) (max : option Z) (t : Z) : bool :=
  (since <? t) && match max with Some m => t <=? m | None => true end.

(** The first [limit] of a list; all of it without a limit or for a
    negative one. *)
Definition cap {A : Type} (limit : option Z) (l : list A) : list A :=
  match limit with
  | None => l
  | Some n => if n <? 0 then l else firstn (Z.to_nat n) l
  end.

(** Of the saved records, in the order of their timestamps, those in the
    window, up to the limit. *)
Definition window (since : Z) (max limit : option Z)
    (sorted : list (Z * Reading)) : list (Z * Reading) :=
  cap limit (filter (fun tr => in_window since max (fst tr)) sorted).

(** The saved records are in ascending order of timestamp, no two under
    one timestamp. *)
Definition ascending (sorted : list (Z * Reading)) : Prop :=
  StronglySorted (fun a b => fst a < fst b) sorted.

End Store.

(* ================================================================== *)
(** ** Sample payloads *)

(** The response quoted in the comment above [class Reading]. *)
Definition sample_conditions : json :=
  JDict [("lsid", JInt 347825); ("data_structure_type", JInt 6);
         ("temp", JFloat 74.1); ("hum", JFloat 62.8);
         ("dew_point", JFloat 60.6); ("wet_bulb", JFloat 64.2);
         ("heat_index", JFloat 74.7);
         ("pm_1_last", JInt 11); ("pm_2p5_last", JInt 14);
         ("pm_10_last", JInt 17); ("pm_1", JFloat 11.68);
         ("pm_2p5", JFloat 15.55);
         ("pm_2p5_last_1_hour", JFloat 19.35);
         ("pm_2p5_last_3_hours", JFloat 20.54);
         ("pm_2p5_last_24_hours", JFloat 18.59);
         ("pm_2p5_nowcast", JFloat 21.25);
         ("pm_10", JFloat 17.28);
         ("pm_10_last_1_hour", JFloat 23.30);
         ("pm_10_last_3_hours", JFloat 24.64);
         ("pm_10_last_24_hours", JFloat 22.71);
         ("pm_10_nowcast", JFloat 25.60);
         ("last_report_time", JInt 1600657321);
         ("pct_pm_data_last_1_hour", JInt 100);
         ("pct_pm_data_last_3_hours", JInt 100);
         ("pct_pm_data_nowcast", JInt 100);
         ("pct_pm_data_last_24_hours", JInt 100)].

Definition sample_payload : json :=
  JDict [("data", JDict [("did", JStr "001D0A100214");
                         ("name", JStr "paloaltoweather.com");
                         ("ts", JInt 1600657321);
                         ("conditions", JList [sample_conditions])]);
         ("error", JNull)].

(** The same reading as a type 5 device sends it. *)
Definition sample_legacy_payload : json :=
  JDict [("data",
          JDict [("did", JStr "001D0A100214");
                 ("name", JStr "paloaltoweather.com");
                 ("ts", JInt 1600657321);
                 ("conditions",
                  JList [JDict
                    [("lsid", JInt 347825); ("data_structure_type", JInt 5);
                     ("temp", JFloat 74.1); ("hum", JFloat 62.8);
                     ("dew_point", JFloat 60.6); ("wet_bulb", JFloat 64.2);
                     ("heat_index", JFloat 74.7);
                     ("pm_1_last", JInt 11); ("pm_2p5_last", JInt 14);
                     ("pm_10_last", JInt 17); ("pm_1", JFloat 11.68);
                     ("pm_2p5", JFloat 15.55);
                     ("pm_2p5_last_1_hour", JFloat 19.35);
                     ("pm_2p5_last_3_hours", JFloat 20.54);
                     ("pm_2p5_last_24_hours", JFloat 18.59);
                     ("pm_2p5_nowcast", JFloat 21.25);
                     ("pm_10p0", JFloat 17.28);
                     ("pm_10p0_last_1_hour", JFloat 23.30);
                     ("pm_10p0_last_3_hours", JFloat 24.64);
                     ("pm_10p0_last_24_hours", JNull);
                     ("pm_10p0_nowcast", JFloat 25.60);
                     ("last_report_time", JInt 1600657321);
                     ("pct_pm_data_last_1_hour", JInt 100);
                     ("pct_pm_data_last_3_hours", JInt 100);
                     ("pct_pm_data_nowcast", JInt 100);
                     ("pct_pm_data_last_24_hours", JInt 100)]])]);
         ("error", JNull)].

(* ================================================================== *)
(** ** Sample readings *)

(** [create_test_reading] at 2019-12-15 03:43:05 UTC.  Its first five
    float fields are given as [int]s in the source (100, 90, ...), which
    ['%f'] prints like the floats of the same value and which compare equal
    to them. *)
Definition test_reading : Reading :=
  mkReading (Some "abc") (Some "foo") (Some 1576381385) (Some 123) (Some 6)
    (Some 100%Q) (Some 90%Q) (Some 85%Q) (Some 66%Q) (Some 99%Q)
    (Some 1) (Some 3) (Some 10)
    (Some 1.1%Q)
    (Some 2.5%Q) (Some 2.1%Q) (Some 2.3%Q) (Some 2.24%Q) (Some 2.22%Q)
    (Some 10.0%Q) (Some 10.1%Q) (Some 10.3%Q) (Some 10.24%Q) (Some 10.1010%Q)
    (Some 1576381385) (Some 94) (Some 97) (Some 100) (Some 76).


(** A reading with a name, its own timestamp and a temperature. *)
Definition named_reading (n : string) (t : Z) (temperature : Q) : Reading :=
  mkReading (Some "001D0A100214") (Some n) (Some t) None (Some 6)
    (Some temperature) None None None None
    None None None None None None None None None None None None None None
    (Some t) None None None None.



(** The service as [start] constructs it. *)
Definition sample_service : Scheduler.Service :=
  Scheduler.Service_init "airlink" 80 15
    "/home/airlinkproxy/archive/airlinkproxy.sdb".

(** A store after three archive saves, not in timestamp order, and a save
    of the current reading. *)
Definition sample_store : Sqlite.Table :=
  fst (Database.save_current_reading
    (fst (Database.save_archive_reading
      (fst (Database.save_archive_reading
        (fst (Database.save_archive_reading []
                1600657320 (named_reading "airlink" 1600657321 74.1)))
        1600657260 (named_reading "airlink" 1600657261 74.0)))
      1600657380 (named_reading "airlink" 1600657381 74.2)))
    (named_reading "airlink" 1600657386 74.2)).

(** The three archive saves of [sample_store], as they were made and in
    the order of their timestamps. *)
Definition sample_saved : list (Z * Reading) :=
  [(1600657320, named_reading "airlink" 1600657321 74.1);
   (1600657260, named_reading "airlink" 1600657261 74.0);
   (1600657380, named_reading "airlink" 1600657381 74.2)].

Definition sample_sorted : list (Z * Reading) :=
  [(1600657260, named_reading "airlink" 1600657261 74.0);
   (1600657320, named_reading "airlink" 1600657321 74.1);
   (1600657380, named_reading "airlink" 1600657381 74.2)].

(* ================================================================== *)
(** ** Vocabulary for statements about requests *)

Module Requests.

(** The text of one [key=value] argument. *)
Definition argument (kv : string * string) : string :=
  fst kv ++ "=" ++ snd kv.

(** A query string in the form [parse_args] splits: [k1=v1,k2=v2,...]. *)
Fixpoint comma_query (params : list (string * string)) : string :=
  match params with
  | [] => ""
  | [kv] => argument kv
  | kv :: rest => argument kv ++ "," ++ comma_query rest
  end.

(** The dictionary after the assignments [d[k] = v], in order. *)
Definition assigned (params d : list (string * string))
  : list (string * string) :=
  fold_left (fun d kv => dict_set (fst kv) (snd kv) d) params d.

(** A [key=value] pair that [parse_args] keeps: neither part holds a
    delimiter and the key is not empty. *)
Definition kept_pair (kv : string * string) : Prop :=
  Server.token_pair kv /\ fst kv <> "".

(** An integer whose numeral [int] reads: not longer than the digits that
    [int] accepts. *)
Definition printable (z : Z) : Prop :=
  Z.of_nat (String.length (fmt_d z)) <= max_str_digits.

(** The query of a fetch with all three arguments, the integers written
    as ['%d'] prints them. *)
Definition fetch_query (since max limit : Z) : string :=
  comma_query [("since_ts", fmt_d since); ("max_ts", fmt_d max);
               ("limit", fmt_d limit)].

(** The commands that the handler knows. *)
Definition known_command (cmd : string) : bool :=
  existsb (String.eqb cmd)
    ["/get-version"; "/get-earliest-timestamp"; "/v1/current_conditions";
     "/fetch-archive-records"].

(** The request line of a GET for the path and query [request]. *)
Definition get_line (request : string) : string :=
  "GET " ++ request ++ " HTTP/1.1".

End Requests.

(* ================================================================== *)
(** ** monitor/monitor.py: [Service.do_loop] *)

Module Loop.
Import Sqlite Scheduler.

(** [int((time.time() + 5) / self.arcint_secs) * self.arcint_secs], with
    [time.time()] as the argument [now]. *)
Definition archive_ts (self : Service) (now : Q) : result Z :=
  x <- py_div (now + 5)%Q (arcint_secs self) ;;
  Ok (py_trunc x * arcint_secs self).

(** The local variable [reading] of [do_loop]: not assigned yet, or the
    value of its last assignment. *)
Inductive local : Type :=
| Unbound
| Bound (reading : option Reading).

(** What the [try] around [collect_data] did: it raised (any exception,
    of the request or of the pipeline), or [collect_data] returned. *)
Inductive collected : Type :=
| Raised
| Returned (reading : option Reading).

(** What an iteration reads from the loop before it and writes for the
    next one: the local [reading] and the table of the database file. *)
Record state : Type := mkState {
  reading_var : local;
  store : Table
}.

(** An exception that leaves [do_loop]. *)
Inductive escaped : Type :=
| UnboundLocalError        (* [reading] read before its first assignment *)
| Uncaught (e : exn).

Inductive outcome : Type :=
| Continues (st : state)
| Escapes (e : escaped).

(** The value of [reading] that the statements after the [try] find:
    the one just assigned, or, when the [try] raised before the assignment,
    what an earlier iteration left. *)
Definition found (c : collected) (st : state) : local :=
  match c with
  | Returned reading => Bound reading
  | Raised => reading_var st
  end.

(** One iteration of the [while True] of [do_loop].  [now] is
    [time.time()] in [compute_next_event], [c] what the [try] around
    [collect_data] did and [saved_at] is [time.time()] where [archive_ts] is
    computed.  [sleep] raises [ValueError] on a negative argument.  The
    [except] clause logs, closes the session and reads [reading]; the two
    saves each sit in a [try] of their own whose handler only logs, as do
    the log calls that follow a save. *)
Definition iteration (self : Service) (now : Q) (c : collected)
    (saved_at : Q) (st : state) : outcome :=
  match compute_next_event self now with
  | Raise e => Escapes (Uncaught e)
  | Ok (event, secs_to_event) =>
      if negb (Qle_bool 0 secs_to_event) then Escapes (Uncaught ValueError)
      else
        match found c st with
        | Unbound => Escapes UnboundLocalError
        | Bound None => Continues (mkState (Bound None) (store st))
        | Bound (Some reading) =>
            match event with
            | POLL =>
                Continues
                  (mkState (Bound (Some reading))
                     (fst (Database.save_current_reading (store st) reading)))
            | ARCHIVE =>
                match archive_ts self saved_at with
                | Raise e => Escapes (Uncaught e)
                | Ok ts =>
                    Continues
                      (mkState (Bound (Some reading))
                         (fst (Database.save_archive_reading
                                 (fst (Database.save_current_reading
                                         (store st) reading))
                                 ts reading)))
                end
            end
        end
  end.

(** The clock readings and the outcome of the [try] of one iteration. *)
Record tick : Type := mkTick {
  tick_now : Q;
  tick_collected : collected;
  tick_saved_at : Q
}.

(** The first iterations of [do_loop], one per tick. *)
Fixpoint run (self : Service) (ticks : list tick) (st : state) : outcome :=
  match ticks with
  | [] => Continues st
  | t :: rest =>
      match iteration self (tick_now t) (tick_collected t) (tick_saved_at t)
              st with
      | Continues st' => run self rest st'
      | Escapes e => Escapes e
      end
  end.

(** The rows [appended] lie on multiples of [interval]. *)
Definition on_boundaries (interval : Z) (appended : list Row) : Prop :=
  Forall (fun r => (interval | row_timestamp r)) appended.

(** The reading that a local or a collection holds, if any, satisfies
    [P]. *)
Definition local_holds (P : Reading -> Prop) (l : local) : Prop :=
  match l with
  | Bound (Some r) => P r
  | _ => True
  end.

Definition collected_holds (P : Reading -> Prop) (c : collected) : Prop :=
  match c with
  | Returned (Some r) => P r
  | _ => True
  end.

(** A tick whose saves sqlite takes as one list of literals: the reading
    collected is writable and the clock at the save is not negative and
    below [2^62], so that the timestamp of the archive record is within 64
    bits. *)
Definition tame (t : tick) : Prop :=
  collected_holds Store.writable (tick_collected t)
  /\ (0 <= tick_saved_at t)%Q
  /\ (tick_saved_at t <= 4611686018427387904)%Q.

End Loop.

(* ================================================================== *)
(** ** Vocabulary for the invariants of the table *)

Module Keys.
Import Sqlite.

(** The primary key of a row. *)
Definition key (r : Row) : Z * Z := (row_type r, row_timestamp r).


(** The table that the INSERT of a save runs on: for a save of the
    current reading the Current rows are deleted first. *)
Definition cleared (db : Table) (record_type : Z) : Table :=
  if record_type =? RecordType.CURRENT
  then exec_delete db RecordType.CURRENT else db.

End Keys.

(* ================================================================== *)
(** ** monitor/monitor.py: the request of [collect_data] *)

Module Request.

(** What one [session.get] followed by [raise_for_status] does: it
    returns the response, raises [requests.exceptions.ConnectionError], or
    raises another exception (a read timeout, an HTTP error status). *)
Inductive attempt (R : Type) : Type :=
| Responds (r : R)
| RaisesConnectionError
| RaisesOther.
Arguments Responds {R} r.
Arguments RaisesConnectionError {R}.
Arguments RaisesOther {R}.

(** How the [for i in range(3)] loop ends, and the number of
    [sleep(1)] calls it made. *)
Inductive fetched (R : Type) : Type :=
| Response (r : R) (slept : nat)
| ConnectionErrorRaised (slept : nat)
| OtherRaised (slept : nat)
| NoResponse (slept : nat).   (* the loop ran out: [r] is not assigned *)
Arguments Response {R} r slept.
Arguments ConnectionErrorRaised {R} slept.
Arguments OtherRaised {R} slept.
Arguments NoResponse {R} slept.

(** The loop over the indices [indices]; [attempt_at i] is what the
    attempt in iteration [i] does. *)
Fixpoint request_loop {R : Type} (attempt_at : nat -> attempt R)
    (indices : list nat) (slept : nat) : fetched R :=
  match indices with
  | [] => NoResponse slept
  | i :: rest =>
      match attempt_at i with
      | Responds r => Response r slept
      | RaisesConnectionError =>
          if (i <? 2)%nat then request_loop attempt_at rest (S slept)
          else ConnectionErrorRaised slept
      | RaisesOther => OtherRaised slept
      end
  end.

(** The request of [collect_data]: [for i in range(3)]. *)
Definition request {R : Type} (attempt_at : nat -> attempt R) : fetched R :=
  request_loop attempt_at [0; 1; 2]%nat 0.

End Request.

(* ================================================================== *)
(** ** Vocabulary for statements about readings *)

(** The fields that the sanity check asks for are there. *)
Definition complete (r : Reading) : Prop :=
  data_structure_type r = Some 6
  /\ name r <> None /\ ts r <> None
  /\ temp r <> None /\ hum r <> None /\ dew_point r <> None
  /\ wet_bulb r <> None /\ heat_index r <> None.

(** The keys of [conditions[0]] that hold the PM10 values of a type 5
    payload. *)
Definition legacy_keys : list string :=
  ["pm_10p0"; "pm_10p0_last_1_hour"; "pm_10p0_last_3_hours";
   "pm_10p0_last_24_hours"; "pm_10p0_nowcast"].

(** The sample response with a number where the device id is expected. *)
Definition sample_payload_numeric_did : json :=
  JDict [("data", JDict [("did", JInt 214);
                         ("name", JStr "paloaltoweather.com");
                         ("ts", JInt 1600657321);
                         ("conditions", JList [sample_conditions])]);
         ("error", JNull)].

(** The sample response without its [error] member. *)
Definition sample_payload_without_error : json :=
  JDict [("data", JDict [("did", JStr "001D0A100214");
                         ("name", JStr "paloaltoweather.com");
                         ("ts", JInt 1600657321);
                         ("conditions", JList [sample_conditions])])].

(** A type 5 response that lacks [pm_10p0_nowcast]. *)
Definition sample_legacy_conditions_short : list (string * json) :=
  [("lsid", JInt 347825); ("data_structure_type", JInt 5);
   ("temp", JFloat 74.1); ("hum", JFloat 62.8);
   ("dew_point", JFloat 60.6); ("wet_bulb", JFloat 64.2);
   ("heat_index", JFloat 74.7);
   ("pm_1_last", JInt 11); ("pm_2p5_last", JInt 14);
   ("pm_10_last", JInt 17); ("pm_1", JFloat 11.68);
   ("pm_2p5", JFloat 15.55);
   ("pm_2p5_last_1_hour", JFloat 19.35);
   ("pm_2p5_last_3_hours", JFloat 20.54);
   ("pm_2p5_last_24_hours", JFloat 18.59);
   ("pm_2p5_nowcast", JFloat 21.25);
   ("pm_10p0", JFloat 17.28);
   ("pm_10p0_last_1_hour", JFloat 23.30);
   ("pm_10p0_last_3_hours", JFloat 24.64);
   ("pm_10p0_last_24_hours", JNull);
   ("last_report_time", JInt 1600657321);
   ("pct_pm_data_last_1_hour", JInt 100);
   ("pct_pm_data_last_3_hours", JInt 100);
   ("pct_pm_data_nowcast", JInt 100);
   ("pct_pm_data_last_24_hours", JInt 100)].

Definition sample_legacy_data_short : list (string * json) :=
  [("did", JStr "001D0A100214"); ("name", JStr "paloaltoweather.com");
   ("ts", JInt 1600657321);
   ("conditions", JList [JDict sample_legacy_conditions_short])].

Definition sample_legacy_payload_short : list (string * json) :=
  [("data", JDict sample_legacy_data_short); ("error", JNull)].

(* ================================================================== *)
(** ** monitor/monitor.py: readings as JSON *)

Module Wire.
Import Sqlite.

(** The value of a field in a dictionary for [dumps]: [None] is null.  A
    float field holds a float in the readings that [collect_data] returns
    (the sanity check sees to it) and in those read from the store (the
    FLOAT columns do); a reading built by hand can hold an [int] there,
    which [dumps] writes without a point. *)
Definition of_str (o : option string) : json :=
  match o with Some s => JStr s | None => JNull end.

Definition of_int (o : option Z) : json :=
  match o with Some z => JInt z | None => JNull end.

Definition of_float (o : option Q) : json :=
  match o with Some q => JFloat q | None => JNull end.

(** The dictionary [reading_dict] that [Service.convert_to_json] builds
    and hands to [dumps]. *)
Definition reading_dict (reading : Reading) : json :=
  let data : list (string * json) :=
    [("did", of_str (did reading));
     ("name", of_str (name reading));
     ("ts", of_int (ts reading))] in
  let condition_0 : list (string * json) :=
    [("lsid", of_int (lsid reading));
     ("data_structure_type", of_int (data_structure_type reading));
     ("temp", of_float (temp reading));
     ("hum", of_float (hum reading));
     ("dew_point", of_float (dew_point reading));
     ("wet_bulb", of_float (wet_bulb reading));
     ("heat_index", of_float (heat_index reading));
     ("pm_1_last", of_int (pm_1_last reading));
     ("pm_2p5_last", of_int (pm_2p5_last reading));
     ("pm_10_last", of_int (pm_10_last reading));
     ("pm_1", of_float (pm_1 reading));
     ("pm_2p5", of_float (pm_2p5 reading));
     ("pm_2p5_last_1_hour", of_float (pm_2p5_last_1_hour reading));
     ("pm_2p5_last_3_hours", of_float (pm_2p5_last_3_hours reading));
     ("pm_2p5_last_24_hours", of_float (pm_2p5_last_24_hours reading));
     ("pm_2p5_nowcast", of_float (pm_2p5_nowcast reading));
     ("pm_10", of_float (pm_10 reading));
     ("pm_10_last_1_hour", of_float (pm_10_last_1_hour reading));
     ("pm_10_last_3_hours", of_float (pm_10_last_3_hours reading));
     ("pm_10_last_24_hours", of_float (pm_10_last_24_hours reading));
     ("pm_10_nowcast", of_float (pm_10_nowcast reading));
     ("last_report_time", of_int (last_report_time reading));
     ("pct_pm_data_last_1_hour", of_int (pct_pm_data_last_1_hour reading));
     ("pct_pm_data_last_3_hours", of_int (pct_pm_data_last_3_hours reading));
     ("pct_pm_data_nowcast", of_int (pct_pm_data_nowcast reading));
     ("pct_pm_data_last_24_hours",
      of_int (pct_pm_data_last_24_hours reading))] in
  let data := dict_set "conditions" (JList [JDict condition_0]) data in
  JDict [("data", JDict data); ("error", JNull)].

(** The rows of [SELECT timestamp FROM Reading WHERE record_type = 1
    ORDER BY timestamp LIMIT 1]. *)
Definition earliest_rows (db : Table) : list Row :=
  apply_limit (Some 1)
    (order_by_timestamp
       (filter (fun r => row_type r =? RecordType.ARCHIVE) db)).

Section WithDumps.

(** [json.dumps] *)
Variable dumps : json -> string.

(** [Service.convert_to_json] *)
Definition convert_to_json (reading : Reading) : string :=
  dumps (reading_dict reading).


(** [Database.get_earliest_timestamp_as_json] *)
Definition get_earliest_timestamp_as_json (db : Table) : string :=
  let resp : list (string * json) :=
    match earliest_rows db with
    | [] => []
    | row :: _ => dict_set "timestamp" (JInt (row_timestamp row)) []
    end in
  dumps (JDict resp).

(** The body of the loop of [fetch_archive_readings_as_json]. *)
Definition add_reading (contents : string) (reading : Reading) : string :=
  let contents :=
    if negb (String.eqb contents "") then contents ++ "," else contents in
  contents ++ convert_to_json reading.

(** [Database.fetch_archive_readings_as_json] *)
Definition fetch_archive_readings_as_json (db : Table) (since_ts : Z)
    (max_ts limit : option Z) : result string :=
  readings <- Database.fetch_archive_readings db since_ts max_ts limit ;;
  Ok ("[  " ++ fold_left add_reading readings "" ++ " ]").

End WithDumps.

(** A [dumps] for examples: every value as an empty object. *)
Definition sample_dumps (j : json) : string := "{}".


End Wire.

(* ================================================================== *)
(** * Properties *)

(** Closed side conditions: conjunctions and lists of facts that hold by
    computation. *)
Ltac holds :=
  repeat first
    [ exact I
    | reflexivity
    | split
    | constructor
    | progress (vm_compute; try discriminate) ].

Example parse_requestline_commas :
  Server.parse_requestline "GET /fetch-archive-records?since_ts=1,max_ts=9 HTTP/1.1"
  = Ok (Server.mkRequest Server.FETCH_ARCHIVE_RECORDS (Some 1) (Some 9) None None
          "/fetch-archive-records?since_ts=1,max_ts=9").
Proof. reflexivity. Qed.

Example parse_requestline_ampersand :
  Server.parse_requestline "GET /fetch-archive-records?since_ts=1&max_ts=9 HTTP/1.1"
  = Ok (Server.mkRequest Server.ERROR None None None
          (Some "The since_ts argument must be an integer, found: '1&max_ts'.")
          "/fetch-archive-records?since_ts=1&max_ts=9").
Proof. reflexivity. Qed.

(* ------------------------------------------------------------------ *)
(** ** Strings *)

Lemma has_char_app c a b :
  has_char c (a ++ b) = has_char c a || has_char c b.
Proof.
  induction a as [|x a IH]; simpl; [reflexivity|].
  rewrite IH. now rewrite orb_assoc.
Qed.

Lemma split_without_sep sep s :
  has_char sep s = false -> split sep s = [s].
Proof.
  induction s as [|c s IH]; simpl; [reflexivity|].
  intros H. apply orb_false_iff in H. destruct H as [Hc Hs].
  rewrite Hc, (IH Hs). reflexivity.
Qed.

Lemma split_at_sep sep a b :
  has_char sep a = false ->
  split sep (a ++ String sep b) = a :: split sep b.
Proof.
  induction a as [|c a IH]; simpl.
  - intros _. now rewrite Ascii.eqb_refl.
  - intros H. apply orb_false_iff in H. destruct H as [Hc Ha].
    rewrite Hc, (IH Ha). reflexivity.
Qed.

Lemma append_assoc (a b c : string) : (a ++ b) ++ c = a ++ (b ++ c).
Proof. induction a as [|x a IH]; simpl; [reflexivity | now rewrite IH]. Qed.

Lemma append_empty_r (a : string) : a ++ "" = a.
Proof. induction a as [|x a IH]; simpl; [reflexivity | now rewrite IH]. Qed.

Lemma int_digits_foreign c s acc b :
  has_char c s = true -> is_digit c = false -> c <> "_"%char ->
  int_digits s acc b = None.
Proof.
  intros Hin Hd Hu. revert acc b.
  induction s as [|x s IH]; simpl in *; intros acc b; [discriminate|].
  destruct (Ascii.eqb_spec x c) as [->|Hx].
  - rewrite Hd. apply Ascii.eqb_neq in Hu. now rewrite Hu.
  - simpl in Hin. destruct (is_digit x); [now apply IH|].
    destruct (Ascii.eqb x "_" && b); [now apply IH | reflexivity].
Qed.

Lemma lstrip_keeps blank c s :
  has_char c s = true -> blank c = false ->
  has_char c (lstrip_by blank s) = true.
Proof.
  intros Hin Hsp. induction s as [|x s IH]; simpl in *; [discriminate|].
  destruct (blank x) eqn:Hx; simpl.
  - destruct (Ascii.eqb_spec x c) as [->|_]; [congruence | now apply IH].
  - exact Hin.
Qed.

Lemma rstrip_keeps blank c s :
  has_char c s = true -> blank c = false ->
  has_char c (rstrip_by blank s) = true.
Proof.
  intros Hin Hsp. induction s as [|x s IH]; simpl in *; [discriminate|].
  destruct (Ascii.eqb_spec x c) as [->|Hx]; simpl in Hin.
  - rewrite Hsp. destruct (rstrip_by blank s); simpl;
      now rewrite Ascii.eqb_refl.
  - specialize (IH Hin). destruct (rstrip_by blank s); simpl in *;
      [discriminate|].
    now rewrite IH, orb_true_r.
Qed.

Lemma strip_keeps blank c s :
  has_char c s = true -> blank c = false ->
  has_char c (strip_by blank s) = true.
Proof.
  intros Hin Hsp. unfold strip_by.
  apply rstrip_keeps; [apply lstrip_keeps|]; assumption.
Qed.

Lemma map_chars_keeps f c s :
  has_char c s = true -> f c = c -> has_char c (map_chars f s) = true.
Proof.
  intros Hin Hf. induction s as [|x s IH]; simpl in *; [discriminate|].
  destruct (Ascii.eqb_spec x c) as [->|Hx]; simpl in Hin.
  - now rewrite Hf, Ascii.eqb_refl.
  - now rewrite (IH Hin), orb_true_r.
Qed.

(** [int] rejects every text that holds an ampersand. *)
Lemma py_int_ampersand s :
  has_char "&" s = true -> py_int s = Raise ValueError.
Proof.
  intros H. unfold py_int.
  assert (Hs : has_char "&" (strip (map_chars ascii_space s)) = true)
    by (apply strip_keeps; [apply map_chars_keeps|]; auto).
  destruct (strip (map_chars ascii_space s)) as [|c r]; [reflexivity|].
  destruct (max_str_digits <? count_digits (String c r) 0); [reflexivity|].
  assert (G : forall t acc b, has_char "&" t = true -> int_digits t acc b = None)
    by (intros; eapply int_digits_foreign; eauto; discriminate).
  destruct (Ascii.eqb_spec c "-") as [->|]; simpl in Hs.
  - now rewrite (G r).
  - destruct (Ascii.eqb_spec c "+") as [->|]; simpl in Hs.
    + now rewrite (G r).
    + rewrite (G (String c r)); [reflexivity | exact Hs].
Qed.

(* ------------------------------------------------------------------ *)
(** ** The query server *)

Module ServerFacts.
Import Server.

Lemma url_token_chars s :
  url_token s = true ->
  has_char " " s = false /\ has_char "?" s = false /\ has_char "," s = false
  /\ has_char "=" s = false /\ has_char "&" s = false.
Proof.
  unfold url_token. intros H. apply negb_true_iff in H.
  repeat (apply orb_false_iff in H; destruct H as [H ?]). auto.
Qed.

Lemma ampersand_query_cons k v rest :
  ampersand_query ((k, v) :: rest)
  = k ++ "=" ++ v ++ match rest with
                     | [] => ""
                     | _ => "&" ++ ampersand_query rest
                     end.
Proof.
  destruct rest as [|p rest]; simpl.
  - now rewrite append_empty_r.
  - reflexivity.
Qed.

(** The delimiters of the request line do not occur in such a query. *)
Lemma ampersand_query_chars c params :
  Forall token_pair params ->
  c = " "%char \/ c = "?"%char \/ c = ","%char ->
  has_char c (ampersand_query params) = false.
Proof.
  intros Hall Hc. induction Hall as [|[k v] rest [Hk Hv] _ IH];
    [reflexivity|].
  rewrite ampersand_query_cons. simpl in Hk, Hv.
  apply url_token_chars in Hk, Hv.
  assert (has_char c k = false /\ has_char c v = false) as [Ck Cv]
    by (destruct Hc as [->|[->| ->]]; intuition).
  assert (Ascii.eqb "="%char c = false /\ Ascii.eqb "&"%char c = false)
    as [Ce Ca] by (destruct Hc as [->|[->| ->]]; split; reflexivity).
  rewrite !has_char_app, Ck, Cv. cbn [has_char append orb]. rewrite Ce.
  destruct rest; [reflexivity|].
  cbn [has_char append orb]. rewrite Ca. exact IH.
Qed.

(** Splitting an ampersand query at ['=']: the first piece is the first
    key, the second runs across the ['&'] into the second key. *)
Lemma split_eq_ampersand_query k1 v1 k2 v2 rest :
  Forall token_pair ((k1, v1) :: (k2, v2) :: rest) ->
  exists more,
    split "=" (ampersand_query ((k1, v1) :: (k2, v2) :: rest))
    = k1 :: (v1 ++ "&" ++ k2) :: more.
Proof.
  intros Hall.
  inversion Hall as [|? ? [Hk1 Hv1] Hall']; subst.
  inversion Hall' as [|? ? [Hk2 Hv2] _]; subst.
  cbn [fst snd] in Hk1, Hv1, Hk2.
  apply url_token_chars in Hk1, Hv1, Hk2.
  set (T := v2 ++ match rest with [] => "" | _ => "&" ++ ampersand_query rest end).
  assert (E : ampersand_query ((k1, v1) :: (k2, v2) :: rest)
              = k1 ++ String "=" ((v1 ++ "&" ++ k2) ++ String "=" T)).
  { rewrite ampersand_query_cons. cbv iota.
    rewrite (ampersand_query_cons k2 v2 rest). fold T.
    rewrite !append_assoc. reflexivity. }
  rewrite E, split_at_sep by tauto.
  rewrite split_at_sep.
  - eexists; reflexivity.
  - rewrite !has_char_app. cbn [has_char append orb].
    destruct Hv1 as (_ & _ & _ & -> & _). destruct Hk2 as (_ & _ & _ & -> & _).
    reflexivity.
Qed.

Lemma ampersand_query_has_eq k v rest :
  has_char "=" (ampersand_query ((k, v) :: rest)) = true.
Proof.
  rewrite ampersand_query_cons, has_char_app. simpl. apply orb_true_r.
Qed.

Lemma parse_args_ampersand k1 v1 k2 v2 rest :
  Forall token_pair ((k1, v1) :: (k2, v2) :: rest) ->
  parse_args (ampersand_query ((k1, v1) :: (k2, v2) :: rest))
  = Ok (if String.eqb k1 "" then [] else [(k1, v1 ++ "&" ++ k2)]).
Proof.
  intros Hall. unfold parse_args.
  rewrite split_without_sep by (apply ampersand_query_chars; auto).
  destruct (split_eq_ampersand_query _ _ _ _ _ Hall) as [more E].
  unfold parse_args_loop.
  rewrite ampersand_query_has_eq, E. simpl.
  destruct (String.eqb k1 ""); reflexivity.
Qed.

(** The request line of a fetch of archive records reaches [parse_args]
    with the text after the question mark. *)
Lemma parse_requestline_fetch q :
  has_char " " q = false -> has_char "?" q = false ->
  parse_requestline ("GET /fetch-archive-records?" ++ q ++ " HTTP/1.1")
  = (args_dict <- parse_args q ;;
     let v0 := mkVars FETCH_ARCHIVE_RECORDS None None None None in
     let v :=
       match dict_get "since_ts" args_dict with
       | Some a =>
           on_key "limit" args_dict parse_limit
             (on_key "max_ts" args_dict parse_max (parse_since a v0))
       | None =>
           mkVars ERROR None None None
             (Some "fetch-archive-records requires since_ts argument")
       end in
     Ok (mkRequest (v_type v) (v_since v) (v_max v) (v_limit v) (v_error v)
           ("/fetch-archive-records?" ++ q))).
Proof.
  intros Hsp Hq. unfold parse_requestline.
  set (R := "/fetch-archive-records?" ++ q).
  assert (ER : split " " ("GET /fetch-archive-records?" ++ q ++ " HTTP/1.1")
               = ["GET"; R; "HTTP/1.1"]).
  { change ("GET /fetch-archive-records?" ++ q ++ " HTTP/1.1")
      with ("GET" ++ String " " (R ++ String " " "HTTP/1.1")).
    rewrite split_at_sep by reflexivity.
    rewrite split_at_sep; [reflexivity|].
    unfold R. rewrite has_char_app, Hsp. reflexivity. }
  rewrite ER. cbn [item nth_error of_option bind].
  assert (HR : has_char "?" R = true) by (unfold R; rewrite has_char_app; reflexivity).
  assert (SR : split "?" R = ["/fetch-archive-records"; q]).
  { unfold R.
    change ("/fetch-archive-records?" ++ q)
      with ("/fetch-archive-records" ++ String "?" q).
    rewrite split_at_sep by reflexivity.
    now rewrite split_without_sep. }
  rewrite HR, SR. cbn [item nth_error of_option bind].
  reflexivity.
Qed.

End ServerFacts.

(** C10. A [/fetch-archive-records] request whose parameters are separated
    by ['&'] (at least two [key=value] pairs, as in [?since_ts=1&max_ts=9])
    reaches [parse_args] as one comma-free piece: the dictionary holds a
    single pair, the first key bound to the text up to the second ['='].
    [parse_requestline] then classifies the request as an error, never as a
    fetch of archive records; when the first key is [since_ts], the error is
    the failed integer parsing of its value. *)
Theorem ampersand_separated_query_is_error :
  forall k1 v1 k2 v2 rest,
    Forall Server.token_pair ((k1, v1) :: (k2, v2) :: rest) ->
    let q := Server.ampersand_query ((k1, v1) :: (k2, v2) :: rest) in
    Server.parse_args q
      = Ok (if String.eqb k1 "" then [] else [(k1, v1 ++ "&" ++ k2)])
    /\ py_int (v1 ++ "&" ++ k2) = Raise ValueError
    /\ exists r,
        Server.parse_requestline ("GET /fetch-archive-records?" ++ q ++ " HTTP/1.1")
          = Ok r
        /\ Server.request_type r = Server.ERROR
        /\ Server.since_ts r = None
        /\ (k1 = "since_ts" ->
            Server.error r
            = Some ("The since_ts argument must be an integer, found: '"
                    ++ (v1 ++ "&" ++ k2) ++ "'.")).
Proof.
  intros k1 v1 k2 v2 rest Hall q.
  assert (Hint : py_int (v1 ++ "&" ++ k2) = Raise ValueError).
  { apply py_int_ampersand. rewrite has_char_app. simpl. apply orb_true_r. }
  pose proof (ServerFacts.parse_args_ampersand _ _ _ _ _ Hall) as Hargs.
  fold q in Hargs. split; [exact Hargs|]. split; [exact Hint|].
  rewrite ServerFacts.parse_requestline_fetch
    by (apply ServerFacts.ampersand_query_chars; auto).
  rewrite Hargs. cbn [bind].
  destruct (String.eqb_spec k1 "") as [->|Hk1].
  - eexists. split; [reflexivity|]. cbn. repeat split. discriminate.
  - cbn [dict_get].
    destruct (String.eqb_spec k1 "since_ts") as [->|Hs].
    + unfold Server.on_key. cbn [dict_get String.eqb Ascii.eqb Bool.eqb].
      unfold Server.parse_since. rewrite Hint.
      eexists. split; [reflexivity|]. cbn. repeat split.
    + eexists. split; [reflexivity|]. cbn. repeat split. congruence.
Qed.

Lemma ampersand_separated_query_is_error_witness :
  exists r,
    Server.parse_requestline
      "GET /fetch-archive-records?since_ts=1&max_ts=9 HTTP/1.1" = Ok r
    /\ Server.request_type r = Server.ERROR.
Proof.
  destruct (ampersand_separated_query_is_error "since_ts" "1" "max_ts" "9" [])
    as (_ & _ & r & Hr & Ht & _).
  - repeat constructor.
  - exists r. split; [exact Hr | exact Ht].
Defined.

(* ------------------------------------------------------------------ *)
(** ** The scheduler *)

Module SchedulerFacts.
Import Scheduler.

Example tick_62 :
  compute_next_event (Service_init "airlink" 80 15 "db") 62 = Ok (ARCHIVE, 3%Q).
Proof. reflexivity. Qed.

Example tick_66 :
  next_arc_event (Service_init "airlink" 80 15 "db") 66 = Ok 125.
Proof. reflexivity. Qed.

(** On a time that is not negative, [int] rounds down. *)
Lemma py_trunc_floor x : (0 <= x)%Q -> py_trunc x = Qfloor x.
Proof.
  destruct x as [n d]. unfold Qle, py_trunc, Qfloor. simpl. intros H.
  apply Z.quot_div_nonneg; lia.
Qed.

Lemma py_div_pos x d : 0 < d -> py_div x d = Ok (x / inject_Z d)%Q.
Proof.
  intros H. unfold py_div. destruct (Z.eqb_spec d 0); [lia | reflexivity].
Qed.

Lemma inject_Z_pos d : 0 < d -> (0 < inject_Z d)%Q.
Proof. intros H. unfold Qlt. simpl. lia. Qed.

(** The floor of [x / d] brackets [x] between two multiples of [d]. *)
Lemma floor_div_bracket x d :
  0 < d ->
  (inject_Z (Qfloor (x / inject_Z d) * d) <= x
   /\ x < inject_Z ((Qfloor (x / inject_Z d) + 1) * d))%Q.
Proof.
  intros Hd.
  assert (HD : (0 < inject_Z d)%Q) by (apply inject_Z_pos; exact Hd).
  assert (HD0 : ~ (inject_Z d == 0)%Q)
    by (intros E; rewrite E in HD; discriminate).
  assert (E : (x / inject_Z d * inject_Z d == x)%Q)
    by (rewrite Qmult_comm; apply Qmult_div_r; exact HD0).
  rewrite !inject_Z_mult. split.
  - rewrite <- E at 2. apply Qmult_le_compat_r.
    + apply Qfloor_le.
    + apply Qlt_le_weak, HD.
  - rewrite <- E at 1. apply Qmult_lt_compat_r; [exact HD|].
    apply Qlt_floor.
Qed.

(** The poll tick on the same footing: the smallest multiple of the poll
    interval strictly greater than [now]. *)
Lemma next_poll_event_smallest self now :
  0 < pollfreq_secs self -> (0 <= now)%Q ->
  exists v, next_poll_event self now = Ok v
            /\ smallest_boundary_above (pollfreq_secs self) 0 now v.
Proof.
  intros Hp Hnow. unfold next_poll_event. rewrite (py_div_pos _ _ Hp).
  cbn [bind]. eexists. split; [reflexivity|].
  set (p := pollfreq_secs self) in *.
  assert (Hx : (0 <= now / inject_Z p)%Q).
  { apply Qle_shift_div_l; [apply inject_Z_pos; exact Hp|].
    rewrite Qmult_0_l. exact Hnow. }
  rewrite (py_trunc_floor _ Hx).
  destruct (floor_div_bracket now p Hp) as [Hlo Hhi].
  set (q := Qfloor (now / inject_Z p)) in *.
  split; [exists (q + 1); ring|]. split.
  - replace (q * p + p) with ((q + 1) * p) by ring. exact Hhi.
  - intros k Hk.
    assert (Hlt : (inject_Z (q * p) < inject_Z (k * p + 0))%Q)
      by (eapply Qle_lt_trans; eassumption).
    rewrite <- Zlt_Qlt in Hlt.
    assert (q < k) by nia. nia.
Qed.

End SchedulerFacts.

(** C4 (as stated, refuted).  With the constructor's timing (poll 5 s,
    archive 60 s, offset 5 s) and [now = 66], the archive tick the code
    computes is 125, while 65 is a value [k*60 + 5] that is strictly greater
    than [now - pollInterval = 61] and smaller than 125: the computed tick is
    not the smallest boundary above [now - pollInterval]. *)
Lemma next_arc_event_not_above_now_minus_poll :
  Scheduler.next_arc_event sample_service 66 = Ok 125
  /\ ~ Scheduler.smallest_boundary_above
         (Scheduler.arcint_secs sample_service)
         (Scheduler.pollfreq_offset sample_service)
         (66 - inject_Z (Scheduler.pollfreq_secs sample_service))%Q 125.
Proof.
  split; [reflexivity|].
  intros (_ & _ & Hmin). specialize (Hmin 1).
  cbn in Hmin. assert (H : 125 <= 65) by (apply Hmin; reflexivity). lia.
Qed.

(** C4 (amended).  For a positive archive interval and a wall-clock time
    not before the offset, the archive tick is the smallest value
    [k * archiveInterval + offset] strictly greater than [now] itself, and
    the event is Archive exactly when the poll tick equals the archive
    tick, Poll otherwise. *)
Theorem next_arc_event_smallest_above_now :
  forall (self : Scheduler.Service) (now : Q),
    0 < Scheduler.pollfreq_secs self ->
    0 < Scheduler.arcint_secs self ->
    (inject_Z (Scheduler.pollfreq_offset self) <= now)%Q ->
    exists next_poll next_arc secs,
      Scheduler.next_poll_event self now = Ok next_poll
      /\ Scheduler.next_arc_event self now = Ok next_arc
      /\ Scheduler.smallest_boundary_above
           (Scheduler.arcint_secs self) (Scheduler.pollfreq_offset self)
           now next_arc
      /\ Scheduler.compute_next_event self now
         = Ok (if next_poll =? next_arc then ARCHIVE else POLL, secs)
      /\ (fst (if next_poll =? next_arc then ARCHIVE else POLL, secs) = ARCHIVE
          <-> next_poll = next_arc).
Proof.
  intros self now Hp Ha Hnow.
  unfold Scheduler.compute_next_event, Scheduler.next_poll_event,
    Scheduler.next_arc_event.
  rewrite (SchedulerFacts.py_div_pos _ _ Hp), (SchedulerFacts.py_div_pos _ _ Ha).
  cbn [bind].
  set (a := Scheduler.arcint_secs self) in *.
  set (off := Scheduler.pollfreq_offset self) in *.
  set (x := (now - inject_Z off)%Q).
  assert (Hx0 : (0 <= x)%Q)
    by (unfold x; apply (Qplus_le_l _ _ (inject_Z off)); ring_simplify; exact Hnow).
  assert (Hx : (0 <= x / inject_Z a)%Q).
  { apply Qle_shift_div_l; [apply SchedulerFacts.inject_Z_pos; exact Ha|].
    rewrite Qmult_0_l. exact Hx0. }
  rewrite (SchedulerFacts.py_trunc_floor _ Hx).
  destruct (SchedulerFacts.floor_div_bracket x a Ha) as [Hlo Hhi].
  set (q := Qfloor (x / inject_Z a)) in *.
  do 3 eexists. split; [reflexivity|]. split; [reflexivity|].
  split; [|split; [reflexivity|]].
  - split; [exists (q + 1); ring|]. split.
    + replace (q * a + a + off) with ((q + 1) * a + off) by ring.
      rewrite inject_Z_plus. apply (Qplus_lt_l _ _ (- inject_Z off)).
      ring_simplify. unfold x in Hhi.
      eapply Qlt_le_trans; [|apply Qle_refl].
      eapply Qle_lt_trans; [|exact Hhi]. ring_simplify. apply Qle_refl.
    + intros k Hk.
      assert (Hlt : (inject_Z (q * a) < inject_Z (k * a))%Q).
      { eapply Qle_lt_trans; [exact Hlo|]. unfold x.
        rewrite inject_Z_plus in Hk.
        apply (Qplus_lt_l _ _ (inject_Z off)). ring_simplify.
        eapply Qle_lt_trans; [|eapply Qlt_le_trans; [exact Hk|]];
          ring_simplify; apply Qle_refl. }
      rewrite <- Zlt_Qlt in Hlt.
      assert (q < k) by nia. nia.
  - cbn [fst]. destruct (Z.eqb_spec
      (py_trunc (now / inject_Z (Scheduler.pollfreq_secs self))
       * Scheduler.pollfreq_secs self + Scheduler.pollfreq_secs self)
      (q * a + a + off)); split; intros; try congruence; discriminate.
Qed.

Lemma next_arc_event_smallest_above_now_witness :
  exists next_arc,
    Scheduler.next_arc_event (Scheduler.Service_init "airlink" 80 15 "db") 66
      = Ok next_arc
    /\ Scheduler.smallest_boundary_above 60 5 66 next_arc.
Proof.
  destruct (next_arc_event_smallest_above_now
              (Scheduler.Service_init "airlink" 80 15 "db") 66)
    as (np & na & secs & _ & Ha & Hs & _).
  - reflexivity.
  - reflexivity.
  - discriminate.
  - exists na. split; [exact Ha | exact Hs].
Defined.

(** C9 (as stated, refuted at its example).  65 is a multiple of 5: with
    [archive-interval-secs = 65] and [poll-freq-secs = 5] the test
    [arcint_secs % pollfreq_secs != 0] is false, [start] raises no error,
    constructs the service and enters the loop. *)
Lemma interval_65_poll_5_is_accepted :
  (5 | 65)
  /\ Scheduler.start
       (Scheduler.mkConfig false false (Some "airlink") 80 15 5 5 65
          (Some "/home/airlinkproxy/archive/airlinkproxy.sdb"))
     = Scheduler.EnteredLoop
         (Scheduler.Service_init "airlink" 80 15
            "/home/airlinkproxy/archive/airlinkproxy.sdb").
Proof. split; [exists 13; reflexivity | reflexivity]. Qed.

(** C9 (amended).  A configuration whose archive interval is not an exact
    multiple of the poll interval (62 and 5, say) never reaches the polling
    loop: [start] ends before [Service] is constructed, and with the other
    required options present it ends in the [parser.error] about the
    multiple (a zero poll interval crashes on the modulus instead).  Every
    service that [start] does hand to the loop has an archive interval that
    is a multiple of its poll interval, and its scheduler does not raise. *)
Theorem non_multiple_interval_is_fatal_at_startup :
  forall c : Scheduler.Config,
    ~ (Scheduler.cfg_pollfreq_secs c | Scheduler.cfg_arcint_secs c) ->
    (forall svc, Scheduler.start c <> Scheduler.EnteredLoop svc)
    /\ (Scheduler.opt_test c = false -> Scheduler.opt_dump c = false ->
        Scheduler.falsy (Scheduler.cfg_hostname c) = false ->
        Scheduler.falsy (Scheduler.cfg_db_file c) = false ->
        Scheduler.cfg_pollfreq_secs c <> 0 ->
        Scheduler.start c
        = Scheduler.ParserError
            "archive-interval-secs must be a multiple of poll-frequency-secs")
    /\ (forall c' svc now,
          Scheduler.start c' = Scheduler.EnteredLoop svc ->
          (Scheduler.pollfreq_secs svc | Scheduler.arcint_secs svc)
          /\ exists ev, Scheduler.compute_next_event svc now = Ok ev).
Proof.
  intros c Hnot.
  assert (Hmod : Scheduler.cfg_pollfreq_secs c <> 0 ->
                 (Scheduler.cfg_arcint_secs c mod Scheduler.cfg_pollfreq_secs c
                  =? 0) = false).
  { intros Hp. apply Z.eqb_neq. intros E. apply Hnot.
    apply Z.mod_divide; assumption. }
  split; [|split].
  - intros svc. unfold Scheduler.start.
    destruct (Scheduler.opt_test c), (Scheduler.opt_dump c);
      cbn [andb]; try discriminate;
      try (destruct (Scheduler.falsy _); discriminate).
    destruct (Scheduler.falsy (Scheduler.cfg_hostname c)); [discriminate|].
    destruct (Scheduler.falsy (Scheduler.cfg_db_file c)); [discriminate|].
    destruct (Z.eqb_spec (Scheduler.cfg_pollfreq_secs c) 0); [discriminate|].
    rewrite Hmod by assumption. discriminate.
  - intros Ht Hd Hh Hf Hp. unfold Scheduler.start.
    rewrite Ht, Hd, Hh, Hf. cbn [andb].
    destruct (Z.eqb_spec (Scheduler.cfg_pollfreq_secs c) 0); [contradiction|].
    rewrite Hmod by assumption. reflexivity.
  - intros c' svc now. unfold Scheduler.start.
    destruct (Scheduler.opt_test c'), (Scheduler.opt_dump c');
      cbn [andb]; try discriminate;
      try (destruct (Scheduler.falsy _); discriminate).
    destruct (Scheduler.falsy (Scheduler.cfg_hostname c')); [discriminate|].
    destruct (Scheduler.falsy (Scheduler.cfg_db_file c')); [discriminate|].
    destruct (Scheduler.cfg_pollfreq_secs c' =? 0); [discriminate|].
    destruct (negb _); [discriminate|].
    destruct (Scheduler.cfg_hostname c'), (Scheduler.cfg_db_file c');
      try discriminate.
    intros [= <-]. split.
    + exists 12. reflexivity.
    + unfold Scheduler.compute_next_event, Scheduler.next_poll_event,
        Scheduler.next_arc_event. cbn. eexists. reflexivity.
Qed.

Lemma non_multiple_interval_is_fatal_at_startup_witness :
  Scheduler.start
    (Scheduler.mkConfig false false (Some "airlink") 80 15 5 5 62
       (Some "/home/airlinkproxy/archive/airlinkproxy.sdb"))
  = Scheduler.ParserError
      "archive-interval-secs must be a multiple of poll-frequency-secs".
Proof.
  apply (non_multiple_interval_is_fatal_at_startup
           (Scheduler.mkConfig false false (Some "airlink") 80 15 5 5 62
              (Some "/home/airlinkproxy/archive/airlinkproxy.sdb"))).
  - intros [k Hk]. cbn [Scheduler.cfg_pollfreq_secs Scheduler.cfg_arcint_secs] in Hk.
    lia.
  - reflexivity.
  - reflexivity.
  - reflexivity.
  - reflexivity.
  - discriminate.
Defined.

(* ------------------------------------------------------------------ *)
(** ** The sensor pipeline *)

Module PipelineFacts.
Import Pipeline.

Lemma subscript_dict x k v :
  subscript x k = Ok v -> exists d, x = JDict d /\ dict_get k d = Some v.
Proof.
  destruct x; try discriminate. cbn.
  destruct (dict_get k d) eqn:E; [|discriminate].
  intros [= ->]. eauto.
Qed.

Lemma is_type_true c t name none_ok :
  is_type c t name none_ok = true ->
  exists x, subscript c name = Ok x
            /\ ((none_ok = true /\ x = JNull) \/ isinstance x t = true).
Proof.
  unfold is_type. destruct (subscript c name) as [x|]; [|discriminate].
  intros H. exists x. split; [reflexivity|].
  destruct (is_none x) eqn:En, none_ok; cbn [andb] in H; auto.
  left. split; [reflexivity|]. destruct x; try discriminate; reflexivity.
Qed.

Lemma first_not_type_cons c t none_ok name rest :
  first_not_type c t none_ok (name :: rest) = None ->
  is_type c t name none_ok = true /\ first_not_type c t none_ok rest = None.
Proof.
  cbn [first_not_type]. destruct (is_type c t name none_ok); [auto|discriminate].
Qed.


Lemma is_none_true x : is_none x = true -> x = JNull.
Proof. destruct x; try discriminate; reflexivity. Qed.

Ltac sane_step :=
  lazymatch goal with
  | |- bind ?m _ = _ -> _ =>
      destruct m eqn:?; cbn [bind]; [|discriminate]
  | |- (if negb ?b then _ else _) = _ -> _ =>
      destruct b eqn:?; cbn [negb]; [|discriminate]
  | |- (if ?b then _ else _) = _ -> _ =>
      destruct b eqn:?; [discriminate|]
  | |- match ?o with Some _ => _ | None => _ end = _ -> _ =>
      destruct o eqn:?; [discriminate|]
  end.

(** What a payload that passes [is_sane] holds. *)
Lemma is_sane_true py_str j m :
  is_sane py_str j = Ok (true, m) ->
  subscript j "error" = Ok JNull
  /\ exists data conditions c dst,
      subscript j "data" = Ok data
      /\ is_type data Tstr "name" false = true
      /\ is_type data Tint "ts" false = true
      /\ subscript data "conditions" = Ok conditions
      /\ subscript_int conditions 0 = Ok c
      /\ subscript c "data_structure_type" = Ok dst
      /\ eq_int dst 6 = true
      /\ first_not_type c Tint true
           ["pm_1_last"; "pm_2p5_last"; "pm_10_last"; "last_report_time";
            "pct_pm_data_last_1_hour"; "pct_pm_data_last_3_hours";
            "pct_pm_data_nowcast"; "pct_pm_data_last_24_hours"] = None
      /\ is_type c Tint "lsid" true = true
      /\ first_not_type c Tfloat false
           ["temp"; "hum"; "dew_point"; "wet_bulb"; "heat_index"] = None
      /\ first_not_type c Tfloat true
           ["pm_1"; "pm_2p5"; "pm_2p5_last_1_hour"; "pm_2p5_last_3_hours";
            "pm_2p5_last_24_hours"; "pm_2p5_nowcast";
            "pm_10"; "pm_10_last_1_hour"; "pm_10_last_3_hours";
            "pm_10_last_24_hours"; "pm_10_nowcast"] = None.
Proof.
  unfold is_sane. do 18 sane_step. intros _.
  match goal with H : is_none _ = true |- _ => apply is_none_true in H; subst end.
  split; [reflexivity|]. do 4 eexists. repeat split; eassumption.
Qed.

Lemma cond0_of j data conditions c :
  subscript j "data" = Ok data ->
  subscript data "conditions" = Ok conditions ->
  subscript_int conditions 0 = Ok c ->
  cond0 j = Ok c.
Proof.
  intros H1 H2 H3. unfold cond0.
  rewrite H1. cbn [bind]. rewrite H2. cbn [bind]. exact H3.
Qed.

End PipelineFacts.

Module PipelineProofs.
Import Pipeline PipelineFacts.

(** Whatever the [try] body does, [collect_data] returns; it returns no
    reading unless the body left a fresh payload. *)
Lemma collect_data_discarded py_str j now :
  (forall t j', collect_data_try py_str j now <> Ok (Fresh t j')) ->
  collect_data py_str (Ok j) now = Ok None.
Proof.
  intros H. unfold collect_data. cbn [bind try_except].
  destruct (collect_data_try py_str j now) as [[why|t j']|e] eqn:E;
    cbn [bind try_except]; try reflexivity.
  exfalso. apply (H t j'). reflexivity.
Qed.

Lemma error_branch py_str j e now :
  subscript j "error" = Ok e -> is_none e = false ->
  collect_data_try py_str j now = Ok (Discarded LogReturnedError)
  \/ exists x, collect_data_try py_str j now = Raise x.
Proof.
  intros Hs He. destruct (subscript_dict _ _ _ Hs) as (d & -> & Hd).
  unfold collect_data_try. cbn [contains bind]. unfold dict_mem.
  rewrite Hd. cbn [subscript of_option bind]. rewrite Hd.
  cbn [of_option bind andb negb]. rewrite He. cbn [negb].
  destruct (subscript e "code") as [code|x]; cbn [bind]; [|eauto].
  destruct (subscript e "message") as [message|x]; cbn [bind]; [|eauto].
  destruct (as_number code) as [n|x]; cbn [bind]; eauto.
Qed.

End PipelineProofs.

(** C6. A payload whose top-level [error] field is present and not null
    yields no reading, and [collect_data] returns (it does not raise),
    whatever the error value is: with a [code] that formats under ['%d'] and
    a [message] the body returns [None] itself, and every other shape raises
    inside the [try], where the handler clears the payload. *)
Theorem device_error_yields_no_reading :
  forall (py_str : json -> string) (j e : json) (now : Q),
    subscript j "error" = Ok e ->
    is_none e = false ->
    Pipeline.collect_data py_str (Ok j) now = Ok None.
Proof.
  intros py_str j e now Hs He.
  apply PipelineProofs.collect_data_discarded. intros t j' E.
  destruct (PipelineProofs.error_branch py_str j e now Hs He) as [H|[x H]];
    rewrite H in E; discriminate.
Qed.

Lemma device_error_yields_no_reading_witness :
  Pipeline.collect_data (fun _ => "")
    (Ok (JDict [("data", JNull); ("error", JStr "sensor offline")])) 1600657321
  = Ok None
  /\ Pipeline.collect_data (fun _ => "")
       (Ok (JDict [("data", JNull);
                   ("error", JDict [("code", JInt 409);
                                    ("message", JStr "busy")])])) 1600657321
     = Ok None.
Proof.
  split.
  - apply (device_error_yields_no_reading _ _ (JStr "sensor offline"));
      reflexivity.
  - apply (device_error_yields_no_reading _ _
             (JDict [("code", JInt 409); ("message", JStr "busy")]));
      reflexivity.
Defined.



(* ------------------------------------------------------------------ *)
(** ** The upgrade of type 5 payloads *)

Section DictFacts.
Context {V : Type}.
Implicit Types (d : list (string * V)) (k : string) (v : V).

Lemma dict_get_set k0 v d k :
  dict_get k (dict_set k0 v d)
  = if String.eqb k0 k then Some v else dict_get k d.
Proof.
  induction d as [|[a b] d IH]; cbn [dict_set dict_get].
  - destruct (String.eqb k0 k); reflexivity.
  - destruct (String.eqb_spec a k0) as [->|Hak0]; cbn [dict_get].
    + destruct (String.eqb k0 k); reflexivity.
    + rewrite IH. destruct (String.eqb_spec a k) as [->|Hak].
      * apply String.eqb_neq in Hak0. rewrite String.eqb_sym in Hak0.
        now rewrite Hak0.
      * reflexivity.
Qed.

Lemma dict_get_set_same k v d : dict_get k (dict_set k v d) = Some v.
Proof. now rewrite dict_get_set, String.eqb_refl. Qed.

Lemma dict_get_set_other k0 v d k :
  k0 <> k -> dict_get k (dict_set k0 v d) = dict_get k d.
Proof.
  intros H. rewrite dict_get_set. apply String.eqb_neq in H. now rewrite H.
Qed.

(** A second assignment to a key overwrites the first. *)
Lemma dict_set_set k v1 v2 d :
  dict_set k v2 (dict_set k v1 d) = dict_set k v2 d.
Proof.
  induction d as [|[a b] d IH]; cbn [dict_set].
  - now rewrite String.eqb_refl.
  - destruct (String.eqb a k) eqn:E; cbn [dict_set]; rewrite E.
    + reflexivity.
    + now rewrite IH.
Qed.

(** Assigning the value a key already has changes nothing. *)
Lemma dict_set_same k v d : dict_get k d = Some v -> dict_set k v d = d.
Proof.
  induction d as [|[a b] d IH]; cbn [dict_set dict_get]; [discriminate|].
  destruct (String.eqb a k).
  - now intros [= ->].
  - intros H. now rewrite IH.
Qed.
End DictFacts.

Module UpgradeFacts.
Import Pipeline PipelineFacts.

Lemma with_cond0_id jd dd rest cd :
  dict_get "data" jd = Some (JDict dd) ->
  dict_get "conditions" dd = Some (JList (JDict cd :: rest)) ->
  with_cond0 jd dd rest cd = JDict jd.
Proof.
  intros Hd Hc. unfold with_cond0.
  rewrite (dict_set_same _ _ _ Hc), (dict_set_same _ _ _ Hd). reflexivity.
Qed.

Lemma cond0_with jd dd rest cd :
  cond0 (with_cond0 jd dd rest cd) = Ok (JDict cd).
Proof.
  unfold cond0, with_cond0. cbn [subscript].
  rewrite dict_get_set_same. cbn [of_option bind subscript].
  rewrite dict_get_set_same. reflexivity.
Qed.

Lemma set_cond0_with jd dd rest cd k v :
  set_cond0 (with_cond0 jd dd rest cd) k v
  = Ok (with_cond0 jd dd rest (dict_set k v cd)).
Proof.
  unfold set_cond0, with_cond0. cbn [subscript].
  rewrite dict_get_set_same. cbn [of_option bind subscript].
  rewrite dict_get_set_same. cbn [of_option bind subscript_int item nth_error tl].
  now rewrite !dict_set_set.
Qed.

(** Moving one legacy key, when it is there. *)
Lemma run_move_key jd dd rest cd legacy canonical v more :
  dict_get legacy cd = Some v ->
  run_until_exception (move_key legacy canonical ++ more)
    (with_cond0 jd dd rest cd)
  = run_until_exception more
      (with_cond0 jd dd rest
         (dict_set legacy JNull (dict_set canonical v cd))).
Proof.
  intros Hv. unfold move_key. cbn [app run_until_exception].
  rewrite cond0_with. cbn [bind subscript]. rewrite Hv.
  cbn [of_option bind]. now rewrite !set_cond0_with.
Qed.

Ltac other_key := rewrite !dict_get_set_other by discriminate.




Lemma is_type_dict d t name none_ok :
  is_type (JDict d) t name none_ok
  = match dict_get name d with
    | Some x => if is_none x && none_ok then true else isinstance x t
    | None => false
    end.
Proof.
  unfold is_type. cbn [subscript]. now destruct (dict_get name d).
Qed.









(** *** [populate_record] on a typed payload *)

Lemma get_data j dd key :
  subscript j "data" = Ok (JDict dd) ->
  get_and_update_missed_data j key = Ok (lookup_or_null dd key).
Proof.
  intros H. unfold get_and_update_missed_data, lookup_or_null, dict_mem.
  rewrite H. cbn [bind contains subscript]. unfold dict_mem.
  destruct (dict_get key dd); reflexivity.
Qed.

Lemma get_conditions j cd key :
  cond0 j = Ok (JDict cd) ->
  get_and_update_missed_data_conditions j key = Ok (lookup_or_null cd key).
Proof.
  intros H.
  unfold get_and_update_missed_data_conditions, lookup_or_null, dict_mem.
  rewrite H. cbn [bind contains subscript]. unfold dict_mem.
  destruct (dict_get key cd); reflexivity.
Qed.

Lemma as_str_typed field x :
  is_none x || isinstance x Tstr = true -> as_str field x = Ok (str_field x).
Proof. destruct x; try discriminate; reflexivity. Qed.

Lemma as_int_typed field x :
  is_none x || isinstance x Tint = true -> as_int field x = Ok (int_field x).
Proof. destruct x; try discriminate; reflexivity. Qed.

Lemma as_float_typed field x :
  is_none x || isinstance x Tfloat = true ->
  as_float field x = Ok (float_field x).
Proof. destruct x; try discriminate; reflexivity. Qed.

Lemma populate_record_typed ts j dd cd :
  subscript j "data" = Ok (JDict dd) ->
  cond0 j = Ok (JDict cd) ->
  Forall (fun nt => typed_at dd (fst nt) (snd nt)) data_schema ->
  Forall (fun nt => typed_at cd (fst nt) (snd nt)) conditions_schema ->
  populate_record ts j = Ok (reading_of dd cd).
Proof.
  intros Hd Hc HD HC. unfold data_schema in HD. unfold conditions_schema in HC.
  repeat match goal with
         | H : Forall _ (_ :: _) |- _ =>
             apply Forall_cons_iff in H; destruct H as [? H]
         end.
  cbn [fst snd] in *. unfold typed_at in *.
  unfold populate_record.
  rewrite !(get_data _ _ _ Hd), !(get_conditions _ _ _ Hc). cbn [bind].
  repeat first [ rewrite as_str_typed by assumption
               | rewrite as_int_typed by assumption
               | rewrite as_float_typed by assumption
               | progress cbn [bind] ].
  reflexivity.
Qed.

Lemma is_type_typed_at d t name none_ok :
  is_type (JDict d) t name none_ok = true -> typed_at d name t.
Proof.
  rewrite is_type_dict. unfold typed_at, lookup_or_null.
  destruct (dict_get name d) as [x|]; [|discriminate].
  destruct (is_none x); cbn [andb orb]; [reflexivity|].
  destruct none_ok; auto.
Qed.


Lemma typed_at_value d name t v :
  dict_get name d = Some v -> is_none v || isinstance v t = true ->
  typed_at d name t.
Proof.
  intros Hd Hv. unfold typed_at, lookup_or_null. now rewrite Hd.
Qed.

Ltac split_first_not_type :=
  repeat match goal with
         | H : first_not_type _ _ _ (_ :: _) = None |- _ =>
             apply first_not_type_cons in H; destruct H as [? H]
         end.


End UpgradeFacts.



Example legacy_payload_reading :
  option_map (option_map (fun r => (data_structure_type r, pm_10 r,
                                    pm_10_last_24_hours r)))
    match Pipeline.collect_data (fun _ => "") (Ok sample_legacy_payload)
            (inject_Z (1600657321 + 3)) with
    | Ok r => Some r
    | Raise _ => None
    end
  = Some (Some (Some 6, Some 17.28%Q, None)).
Proof. reflexivity. Qed.

(* ------------------------------------------------------------------ *)
(** ** Numerals: what is printed reads back *)

Module NumeralFacts.

Lemma all_chars_app p a b :
  all_chars p (a ++ b) = all_chars p a && all_chars p b.
Proof.
  induction a as [|x a IH]; cbn [append all_chars]; [reflexivity|].
  now rewrite IH, andb_assoc.
Qed.

Lemma all_chars_has_char p c s :
  all_chars p s = true -> p c = false -> has_char c s = false.
Proof.
  intros Hs Hc. induction s as [|x s IH]; cbn [has_char all_chars] in *;
    [reflexivity|].
  apply andb_true_iff in Hs. destruct Hs as [Hx Hs].
  rewrite (IH Hs). destruct (Ascii.eqb_spec x c) as [->|_]; [congruence|].
  reflexivity.
Qed.

Lemma all_chars_weaken (p q : ascii -> bool) s :
  (forall c, p c = true -> q c = true) ->
  all_chars p s = true -> all_chars q s = true.
Proof.
  intros Hpq. induction s as [|x s IH]; cbn [all_chars]; [reflexivity|].
  intros H. apply andb_true_iff in H. destruct H as [Hx Hs].
  now rewrite (Hpq _ Hx), (IH Hs).
Qed.

Lemma length_app a b :
  String.length (a ++ b) = (String.length a + String.length b)%nat.
Proof.
  induction a as [|x a IH]; cbn [append String.length]; [reflexivity|].
  now rewrite IH.
Qed.

Lemma string_of_uint_digits d :
  all_chars is_digit (NilEmpty.string_of_uint d) = true.
Proof. induction d; cbn; auto. Qed.

Lemma digits_value_uint d acc :
  digits_value (NilEmpty.string_of_uint d) acc = Some (uint_val d acc).
Proof.
  revert acc. induction d; intros acc; cbn [NilEmpty.string_of_uint];
    try reflexivity; apply IHd.
Qed.

Lemma of_uint_acc_val d acc :
  Z.pos (Pos.of_uint_acc d acc) = uint_val d (Z.pos acc).
Proof.
  revert acc. induction d; intros acc; cbn [Pos.of_uint_acc uint_val];
    try reflexivity; rewrite IHd; f_equal; lia.
Qed.

Lemma of_uint_val d : Z.of_N (Pos.of_uint d) = uint_val d 0.
Proof.
  induction d; cbn [Pos.of_uint uint_val]; try reflexivity;
    try (rewrite IHd; reflexivity);
    cbn [Z.of_N]; rewrite of_uint_acc_val; reflexivity.
Qed.

Lemma uint_val_to_uint p : uint_val (Pos.to_uint p) 0 = Z.pos p.
Proof.
  rewrite <- of_uint_val, DecimalPos.Unsigned.of_to. reflexivity.
Qed.

Lemma nilzero_nonnil d :
  d <> Decimal.Nil -> NilZero.string_of_uint d = NilEmpty.string_of_uint d.
Proof. destruct d; try reflexivity. now intros []. Qed.

(** ['%d'] of a natural number: digits only, at least one, and they read
    back as the number. *)
Lemma fmt_d_nonneg z :
  0 <= z ->
  all_chars is_digit (fmt_d z) = true
  /\ fmt_d z <> ""
  /\ digits_value (fmt_d z) 0 = Some z.
Proof.
  intros Hz. destruct z as [|p|p]; [| |lia].
  - repeat split. discriminate.
  - unfold fmt_d. cbn [Z.to_int NilZero.string_of_int].
    rewrite nilzero_nonnil by apply DecimalPos.Unsigned.to_uint_nonnil.
    split; [apply string_of_uint_digits|]. split.
    + pose proof (DecimalPos.Unsigned.to_uint_nonnil p) as H.
      destruct (Pos.to_uint p); try discriminate. now destruct H.
    + now rewrite digits_value_uint, uint_val_to_uint.
Qed.

Lemma fmt_d_neg z : z < 0 -> fmt_d z = String "-" (fmt_d (- z)).
Proof. destruct z as [|p|p]; try lia. reflexivity. Qed.

Lemma digit_char_spec d :
  0 <= d < 10 ->
  is_digit (digit_char d) = true /\ digit_val (digit_char d) = d.
Proof.
  intros H.
  assert (d = 0 \/ d = 1 \/ d = 2 \/ d = 3 \/ d = 4 \/ d = 5 \/ d = 6
          \/ d = 7 \/ d = 8 \/ d = 9) as E by lia.
  repeat (destruct E as [->|E]; [split; reflexivity|]).
  subst. split; reflexivity.
Qed.

Lemma digits_value_app a b acc :
  digits_value (a ++ b) acc
  = match digits_value a acc with
    | Some v => digits_value b v
    | None => None
    end.
Proof.
  revert acc. induction a as [|c a IH]; intros acc;
    cbn [append digits_value]; [reflexivity|].
  destruct (is_digit c); [apply IH | reflexivity].
Qed.

Lemma digits_value_acc s acc v :
  digits_value s 0 = Some v ->
  digits_value s acc = Some (acc * 10 ^ Z.of_nat (String.length s) + v).
Proof.
  assert (G : forall s a b va,
             digits_value s a = Some va ->
             digits_value s (a + b)
             = Some (va + b * 10 ^ Z.of_nat (String.length s))).
  { clear. induction s as [|c s IH]; intros a b va; cbn [digits_value String.length].
    - intros [= <-]. f_equal. cbn. lia.
    - destruct (is_digit c); [|discriminate]. intros H.
      replace (10 * (a + b) + digit_val c)
        with ((10 * a + digit_val c) + 10 * b) by ring.
      rewrite (IH _ (10 * b) _ H). f_equal.
      rewrite Nat2Z.inj_succ, Z.pow_succ_r by lia. ring. }
  intros H. rewrite <- (Z.add_0_l acc). rewrite (G _ _ acc _ H).
  f_equal. ring.
Qed.

(** Exactly [k] digits, which read back as [n mod 10^k]. *)
Lemma digits_fixed_spec k n :
  String.length (digits_fixed k n) = k
  /\ all_chars is_digit (digits_fixed k n) = true
  /\ digits_value (digits_fixed k n) 0 = Some (n mod 10 ^ Z.of_nat k).
Proof.
  revert n. induction k as [|k IH]; intros n; cbn [digits_fixed].
  - repeat split. cbn. now rewrite Z.mod_1_r.
  - destruct (IH (n / 10)) as (Hl & Hd & Hv).
    assert (Hm : 0 <= n mod 10 < 10) by (apply Z.mod_pos_bound; lia).
    destruct (digit_char_spec _ Hm) as [Hc1 Hc2].
    split; [|split].
    + rewrite length_app, Hl. cbn. lia.
    + rewrite all_chars_app, Hd. cbn [all_chars]. now rewrite Hc1.
    + rewrite digits_value_app, Hv. cbn [digits_value]. rewrite Hc1, Hc2.
      f_equal. rewrite Nat2Z.inj_succ, Z.pow_succ_r by lia.
      rewrite (Z.mul_comm 10), Z.rem_mul_r by lia. lia.
Qed.

Lemma digit_numeral s :
  all_chars is_digit s = true -> all_chars numeral_char s = true.
Proof.
  apply all_chars_weaken. intros c H. unfold numeral_char. now rewrite H.
Qed.

Lemma fmt_d_chars z : all_chars numeral_char (fmt_d z) = true.
Proof.
  destruct (Z.lt_ge_cases z 0) as [Hn|Hp].
  - rewrite (fmt_d_neg z Hn). cbn [all_chars].
    destruct (fmt_d_nonneg (- z)) as (H & _); [lia|].
    now rewrite (digit_numeral _ H).
  - destruct (fmt_d_nonneg z Hp) as (H & _). now apply digit_numeral.
Qed.

Lemma round_nonneg x : (0 <= x)%Q -> 0 <= round_half_even x.
Proof.
  intros H. unfold round_half_even.
  assert (0 <= Qfloor x)
    by (rewrite <- (Qfloor_Z 0); apply Qfloor_resp_le; exact H).
  destruct (x - inject_Z (Qfloor x) ?= 1 # 2)%Q; [destruct Z.even| |]; lia.
Qed.

(** The parts of ['%f' % q]: the sign, the integer digits, the six
    digits of the fraction. *)
Lemma fmt_f_parts q :
  exists n,
    n = round_half_even (Qabs q * 1000000) /\ 0 <= n
    /\ fmt_f q = (match (q ?= 0)%Q with Lt => "-" | _ => "" end)
                 ++ fmt_d (n / 1000000) ++ "."
                 ++ digits_fixed 6 (n mod 1000000).
Proof.
  eexists. split; [reflexivity|]. split; [|reflexivity].
  apply round_nonneg.
  apply Qmult_le_0_compat; [apply Qabs_nonneg | discriminate].
Qed.

Lemma fmt_f_chars q : all_chars numeral_char (fmt_f q) = true.
Proof.
  destruct (fmt_f_parts q) as (n & _ & Hn & ->).
  destruct (fmt_d_nonneg (n / 1000000)) as (Hi & _);
    [apply Z.div_pos; lia|].
  destruct (digits_fixed_spec 6 (n mod 1000000)) as (_ & Hf & _).
  rewrite !all_chars_app, (digit_numeral _ Hi), (digit_numeral _ Hf).
  destruct (q ?= 0)%Q; reflexivity.
Qed.

Lemma numeral_no_char c s :
  all_chars numeral_char s = true -> numeral_char c = false ->
  has_char c s = false.
Proof. apply all_chars_has_char. Qed.

Lemma digits_no_char c s :
  all_chars is_digit s = true -> is_digit c = false -> has_char c s = false.
Proof. apply all_chars_has_char. Qed.

(** An unsigned integer numeral reads as its value. *)
Lemma unsigned_literal_int sign z :
  0 <= z -> Sqlite.int64 (sign * z) = true ->
  Sqlite.unsigned_literal sign (fmt_d z) = Some (Sqlite.SInt (sign * z)).
Proof.
  intros Hz H64. destruct (fmt_d_nonneg z Hz) as (Hd & Hne & Hv).
  unfold Sqlite.unsigned_literal.
  rewrite split_without_sep by (apply (digits_no_char _ _ Hd); reflexivity).
  destruct (fmt_d z) as [|c r] eqn:E; [contradiction|].
  cbn [Sqlite.nonempty]. rewrite Hv, H64. reflexivity.
Qed.

Lemma first_digit_not_minus z c r :
  0 <= z -> fmt_d z = String c r -> Ascii.eqb c "-" = false.
Proof.
  intros Hz E. destruct (fmt_d_nonneg z Hz) as (Hd & _).
  rewrite E in Hd. cbn [all_chars] in Hd. apply andb_true_iff in Hd.
  destruct Hd as [Hc _]. destruct (Ascii.eqb_spec c "-") as [->|]; auto.
Qed.

Lemma number_literal_int z :
  Sqlite.int64 z = true ->
  Sqlite.number_literal (fmt_d z) = Some (Sqlite.SInt z).
Proof.
  intros H64. destruct (Z.lt_ge_cases z 0) as [Hn|Hp].
  - rewrite (fmt_d_neg z Hn). cbn [Sqlite.number_literal Ascii.eqb Bool.eqb].
    assert (E : -1 * - z = z) by lia.
    rewrite unsigned_literal_int; [now rewrite E | lia | now rewrite E].
  - destruct (fmt_d_nonneg z Hp) as (_ & Hne & _).
    unfold Sqlite.number_literal.
    destruct (fmt_d z) as [|c r] eqn:E; [contradiction|].
    rewrite (first_digit_not_minus z c r Hp E), <- E.
    assert (E1 : 1 * z = z) by lia.
    rewrite unsigned_literal_int; [now rewrite E1 | assumption | now rewrite E1].
Qed.

(** An unsigned decimal numeral with six digits after the point. *)
Lemma unsigned_literal_real sign n :
  0 <= n ->
  Sqlite.unsigned_literal sign
    (fmt_d (n / 1000000) ++ "." ++ digits_fixed 6 (n mod 1000000))
  = Some (Sqlite.SReal (Qmake (sign * n) 1000000)).
Proof.
  intros Hn.
  assert (Hi0 : 0 <= n / 1000000) by (apply Z.div_pos; lia).
  destruct (fmt_d_nonneg _ Hi0) as (Hid & Hine & Hiv).
  destruct (digits_fixed_spec 6 (n mod 1000000)) as (Hfl & Hfd & Hfv).
  unfold Sqlite.unsigned_literal.
  change (fmt_d (n / 1000000) ++ "." ++ digits_fixed 6 (n mod 1000000))
    with (fmt_d (n / 1000000)
          ++ String "." (digits_fixed 6 (n mod 1000000))).
  rewrite split_at_sep by (apply (digits_no_char _ _ Hid); reflexivity).
  rewrite split_without_sep by (apply (digits_no_char _ _ Hfd); reflexivity).
  rewrite Hiv, Hfv, Hfl.
  destruct (fmt_d (n / 1000000)) as [|c r]; [contradiction|].
  destruct (digits_fixed 6 (n mod 1000000)) as [|c' r'] eqn:E;
    [discriminate|].
  cbn [Sqlite.nonempty andb].
  change (10 ^ Z.of_nat 6) with 1000000.
  rewrite Z.mod_mod by lia.
  do 2 f_equal. f_equal. f_equal.
  pose proof (Z.div_mod n 1000000). lia.
Qed.

Lemma number_literal_unsigned z rest :
  0 <= z ->
  Sqlite.number_literal (fmt_d z ++ rest)
  = Sqlite.unsigned_literal 1 (fmt_d z ++ rest).
Proof.
  intros Hz. destruct (fmt_d_nonneg z Hz) as (_ & Hne & _).
  destruct (fmt_d z) as [|c r] eqn:E; [contradiction|].
  cbn [append Sqlite.number_literal].
  now rewrite (first_digit_not_minus z c r Hz E).
Qed.

(** Whatever [q] is, the numeral of ['%f' % q] reads as [rounded_6 q]. *)
Lemma number_literal_real q :
  Sqlite.number_literal (fmt_f q) = Some (Sqlite.SReal (rounded_6 q)).
Proof.
  destruct (fmt_f_parts q) as (n & En & Hn & ->).
  unfold rounded_6. rewrite <- En.
  assert (Hi0 : 0 <= n / 1000000) by (apply Z.div_pos; lia).
  destruct (q ?= 0)%Q.
  - cbn [append]. rewrite number_literal_unsigned by exact Hi0.
    apply unsigned_literal_real. exact Hn.
  - cbn [append Sqlite.number_literal Ascii.eqb Bool.eqb].
    apply unsigned_literal_real. exact Hn.
  - cbn [append]. rewrite number_literal_unsigned by exact Hi0.
    apply unsigned_literal_real. exact Hn.
Qed.

Lemma round_half_even_Z x k :
  (x == inject_Z k)%Q -> round_half_even x = k.
Proof.
  intros E. unfold round_half_even.
  rewrite (Qfloor_comp _ _ E), Qfloor_Z.
  assert (C : (x - inject_Z k ?= 1 # 2)%Q = Lt).
  { assert (H0 : (x - inject_Z k == 0)%Q) by (rewrite E; ring).
    rewrite H0. reflexivity. }
  now rewrite C.
Qed.

(** A value with at most six decimals is printed exactly. *)
Lemma rounded_6_exact q : six_decimals q -> (rounded_6 q == q)%Q.
Proof.
  intros [m Hm]. unfold rounded_6.
  assert (Habs : (Qabs q * 1000000 == inject_Z (Z.abs m))%Q).
  { destruct q as [a b]. unfold Qeq in *. cbn in *.
    rewrite Pos.mul_1_r. apply (f_equal Z.abs) in Hm.
    rewrite !Z.abs_mul in Hm. cbn in Hm. lia. }
  rewrite (round_half_even_Z _ _ Habs).
  destruct q as [a b]. unfold Qeq, Qcompare in *. cbn in *.
  rewrite Z.mul_1_r.
  destruct (Z.compare_spec a 0); nia.
Qed.

End NumeralFacts.

(* ------------------------------------------------------------------ *)
(** ** Literals and the list of values *)

Module LiteralFacts.
Import Sqlite Store NumeralFacts.

Lemma rstrip_nonspace_end blank s c :
  blank c = false ->
  rstrip_by blank (s ++ String c "") = s ++ String c "".
Proof.
  intros Hc. induction s as [|x s IH]; cbn [append rstrip_by].
  - now rewrite Hc.
  - rewrite IH. destruct s; reflexivity.
Qed.

Lemma rstrip_no_space blank s :
  all_chars (fun c => negb (blank c)) s = true -> rstrip_by blank s = s.
Proof.
  induction s as [|x s IH]; cbn [all_chars rstrip_by]; [reflexivity|].
  intros H. apply andb_true_iff in H. destruct H as [Hx Hs].
  rewrite (IH Hs). apply negb_true_iff in Hx. rewrite Hx.
  destruct s; reflexivity.
Qed.

Lemma strip_no_space blank s :
  all_chars (fun c => negb (blank c)) s = true -> strip_by blank s = s.
Proof.
  intros H. unfold strip_by.
  assert (E : lstrip_by blank s = s).
  { destruct s as [|x s]; [reflexivity|]. cbn [all_chars lstrip_by] in *.
    apply andb_true_iff in H. destruct H as [Hx _].
    apply negb_true_iff in Hx. now rewrite Hx. }
  rewrite E. now apply rstrip_no_space.
Qed.

Lemma numeral_no_space s :
  all_chars numeral_char s = true ->
  all_chars (fun c => negb (is_space c)) s = true.
Proof.
  apply all_chars_weaken. intros c.
  destruct c as [[] [] [] [] [] [] [] []]; vm_compute; auto.
Qed.

Lemma numeral_no_blank s :
  all_chars numeral_char s = true ->
  all_chars (fun c => negb (is_blank c)) s = true.
Proof.
  apply all_chars_weaken. intros c.
  destruct c as [[] [] [] [] [] [] [] []]; vm_compute; auto.
Qed.

Lemma trim_space_first s : trim (String " " s) = trim s.
Proof. reflexivity. Qed.

Lemma trim_quoted s : trim (dq ++ s ++ dq) = dq ++ s ++ dq.
Proof.
  assert (Hq : is_blank dquote = false) by reflexivity.
  unfold trim, strip_by.
  change (dq ++ s ++ dq) with (String dquote (s ++ String dquote "")).
  cbn [lstrip_by]. rewrite Hq.
  change (String dquote (s ++ String dquote ""))
    with (String dquote s ++ String dquote "").
  now apply rstrip_nonspace_end.
Qed.

Lemma unquote_body_plain s :
  has_char dquote s = false -> unquote_body (s ++ dq) = Some s.
Proof.
  induction s as [|c s IH]; cbn [has_char append dq].
  - intros _. cbn. reflexivity.
  - intros H. apply orb_false_iff in H. destruct H as [Hc Hs].
    cbn [unquote_body]. rewrite Hc. fold dq. now rewrite (IH Hs).
Qed.

Lemma literal_space piece : literal (String " " piece) = literal piece.
Proof. reflexivity. Qed.

Lemma literal_text s :
  has_char dquote s = false -> literal (dq ++ s ++ dq) = Some (SText s).
Proof.
  intros H. unfold literal. rewrite trim_quoted.
  cbn [dq append]. rewrite Ascii.eqb_refl. fold dq.
  now rewrite (unquote_body_plain s H).
Qed.

(** A numeral is itself once stripped, and does not start with a quote. *)
Lemma literal_numeral s :
  all_chars numeral_char s = true ->
  literal s = number_literal s.
Proof.
  intros H. unfold literal, trim.
  rewrite (strip_no_space _ _ (numeral_no_blank _ H)).
  destruct s as [|c r]; [reflexivity|].
  cbn [all_chars] in H. apply andb_true_iff in H. destruct H as [Hc _].
  destruct (Ascii.eqb_spec c dquote) as [->|]; [discriminate | reflexivity].
Qed.

Lemma literal_int z : int64 z = true -> literal (fmt_d z) = Some (SInt z).
Proof.
  intros H. rewrite (literal_numeral _ (fmt_d_chars z)).
  now apply number_literal_int.
Qed.

Lemma literal_real q : literal (fmt_f q) = Some (SReal (rounded_6 q)).
Proof.
  rewrite (literal_numeral _ (fmt_f_chars q)). apply number_literal_real.
Qed.

(** *** Closed literals and the split at top-level commas *)

Lemma split_top_closed lit in_quotes rest :
  closed lit in_quotes = true ->
  split_top (lit ++ String "," rest) in_quotes = lit :: split_top rest false.
Proof.
  revert in_quotes. induction lit as [|c lit IH]; intros q;
    cbn [closed append split_top].
  - intros H. apply negb_true_iff in H. subst q. reflexivity.
  - destruct (Ascii.eqb c "," && negb q); [discriminate|].
    intros H. now rewrite (IH _ H).
Qed.

Lemma split_top_last lit in_quotes :
  closed lit in_quotes = true -> split_top lit in_quotes = [lit].
Proof.
  revert in_quotes. induction lit as [|c lit IH]; intros q;
    cbn [closed split_top]; [reflexivity|].
  destruct (Ascii.eqb c "," && negb q); [discriminate|].
  intros H. now rewrite (IH _ H).
Qed.

Lemma closed_plain s :
  has_char "," s = false -> has_char dquote s = false ->
  closed s false = true.
Proof.
  induction s as [|c s IH]; cbn [has_char closed]; [reflexivity|].
  intros H1 H2. apply orb_false_iff in H1, H2.
  destruct H1 as [Hc1 Hs1], H2 as [Hc2 Hs2].
  rewrite Hc1, Hc2. cbn [andb]. now apply IH.
Qed.

Lemma closed_in_quotes s :
  has_char dquote s = false -> closed (s ++ dq) true = true.
Proof.
  induction s as [|c s IH]; cbn [has_char append closed dq].
  - intros _. rewrite Ascii.eqb_refl. reflexivity.
  - intros H. apply orb_false_iff in H. destruct H as [Hc Hs].
    rewrite Hc, andb_false_r. fold dq. now apply IH.
Qed.

Lemma closed_quoted s :
  has_char dquote s = false -> closed (dq ++ s ++ dq) false = true.
Proof.
  intros H. cbn [dq append closed]. rewrite Ascii.eqb_refl.
  change (Ascii.eqb dquote "," && negb false) with false.
  cbn [negb]. fold dq. now apply closed_in_quotes.
Qed.

Lemma closed_numeral s :
  all_chars numeral_char s = true -> closed s false = true.
Proof.
  intros H. apply closed_plain; apply (numeral_no_char _ _ H); reflexivity.
Qed.

Lemma closed_space lit :
  closed lit false = true -> closed (String " " lit) false = true.
Proof. intros H. exact H. Qed.

(** The pieces of a list of values. *)
Lemma split_top_join first items :
  closed first false = true ->
  Forall (fun item => closed item false = true) items ->
  split_top (first ++ join_tail items) false
  = first :: map (String " ") items.
Proof.
  intros Hf Hall. revert first Hf.
  induction Hall as [|item items Hi _ IH]; intros first Hf;
    cbn [join_tail fold_right map].
  - rewrite append_empty_r. now apply split_top_last.
  - change (first ++ ", " ++ item ++ fold_right
              (fun item0 acc => ", " ++ item0 ++ acc) "" items)
      with (first ++ String "," (String " " item ++ join_tail items)).
    rewrite (split_top_closed _ _ _ Hf).
    now rewrite (IH (String " " item) (closed_space _ Hi)).
Qed.

Lemma traverse_literal_spaced items vs :
  traverse literal items = Some vs ->
  traverse literal (map (String " ") items) = Some vs.
Proof.
  revert vs. induction items as [|item items IH]; intros vs;
    cbn [map traverse]; [auto|].
  rewrite literal_space. destruct (literal item); [|discriminate].
  destruct (traverse literal items) as [bs|]; [|discriminate].
  intros [= <-]. now rewrite (IH bs eq_refl).
Qed.

End LiteralFacts.

(* ------------------------------------------------------------------ *)
(** ** The INSERT statement and its reading by sqlite *)

Module StatementFacts.
Import Sqlite Store Database NumeralFacts LiteralFacts.

(** *** The text that [build_insert_statement] builds *)

Lemma join_tail_app a b : join_tail (a ++ b) = join_tail a ++ join_tail b.
Proof.
  induction a as [|x a IH]; cbn [app join_tail fold_right]; [reflexivity|].
  fold (join_tail (a ++ b)). fold (join_tail a).
  rewrite IH. cbn [append]. now rewrite !append_assoc.
Qed.

Lemma added_nil fv : added [] fv = fv.
Proof.
  destruct fv. unfold added. cbn [map join_tail fold_right fst snd].
  now rewrite !append_empty_r.
Qed.

Lemma added_one es fv field text v :
  (fst (added es fv) ++ ", " ++ field, snd (added es fv) ++ ", " ++ text)
  = added (es ++ [(field, (text, v))]) fv.
Proof.
  unfold added. cbn [fst snd]. rewrite !map_app, !join_tail_app.
  cbn [map join_tail fold_right fst snd entry_text].
  now rewrite !append_assoc, !append_empty_r.
Qed.

Lemma add_str es fv field o :
  if_not_none o add_string field (added es fv)
  = added (es ++ str_entry field o) fv.
Proof.
  destruct o as [s|]; cbn [if_not_none str_entry].
  - unfold add_string. apply added_one.
  - now rewrite app_nil_r.
Qed.

Lemma add_z es fv field o :
  if_not_none o add_int field (added es fv)
  = added (es ++ int_entry field o) fv.
Proof.
  destruct o as [z|]; cbn [if_not_none int_entry].
  - unfold add_int. apply added_one.
  - now rewrite app_nil_r.
Qed.

Lemma add_q es fv field o :
  if_not_none o add_float field (added es fv)
  = added (es ++ float_entry field o) fv.
Proof.
  destruct o as [q|]; cbn [if_not_none float_entry].
  - unfold add_float. apply added_one.
  - now rewrite app_nil_r.
Qed.

(** The statement, as the fixed frame around the two lists. *)
Lemma build_insert_statement_text record_type timestamp r :
  build_insert_statement record_type timestamp r
  = "INSERT INTO Reading ("
    ++ ("record_type" ++ join_tail ("timestamp" :: map fst (entries r)))
    ++ ") VALUES("
    ++ (fmt_d record_type
        ++ join_tail (fmt_d timestamp :: map entry_text (entries r)))
    ++ ");".
Proof.
  unfold build_insert_statement. cbv zeta.
  rewrite <- (added_nil ("record_type, timestamp",
                         fmt_d record_type ++ ", " ++ fmt_d timestamp)).
  repeat first [rewrite add_str | rewrite add_z | rewrite add_q].
  rewrite <- !app_assoc. rewrite app_nil_l. fold (entries r).
  unfold added. cbn [fst snd].
  assert (Hv : (fmt_d record_type ++ ", " ++ fmt_d timestamp)
               ++ join_tail (map entry_text (entries r))
               = fmt_d record_type
                 ++ join_tail (fmt_d timestamp
                               :: map entry_text (entries r)))
    by (rewrite append_assoc; reflexivity).
  rewrite Hv. reflexivity.
Qed.

(** *** The frame of the statement *)

Lemma strip_prefix_app p s : strip_prefix p (p ++ s) = Some s.
Proof.
  induction p as [|c p IH]; cbn [append strip_prefix].
  - now destruct s.
  - now rewrite Ascii.eqb_refl.
Qed.

Lemma split_first_app c a b :
  has_char c a = false -> split_first c (a ++ String c b) = Some (a, b).
Proof.
  induction a as [|x a IH]; cbn [has_char append split_first].
  - intros _. now rewrite Ascii.eqb_refl.
  - intros H. apply orb_false_iff in H. destruct H as [Hx Ha].
    now rewrite Hx, (IH Ha).
Qed.

Lemma strip_suffix_app suffix v :
  strip_suffix suffix (v ++ suffix) = Some v.
Proof.
  induction v as [|c v IH]; cbn [append].
  - destruct suffix; cbn [strip_suffix]; now rewrite String.eqb_refl.
  - cbn [strip_suffix].
    destruct (String.eqb_spec (String c (v ++ suffix)) suffix) as [E|_].
    + apply (f_equal String.length) in E. cbn [String.length] in E.
      rewrite length_app in E. lia.
    + now rewrite IH.
Qed.

(** *** The column list *)

Lemma clean_name_chars n :
  clean_name n = true ->
  has_char "," n = false /\ has_char ")" n = false /\ trim n = n
  /\ has_char Ascii.zero n = false.
Proof.
  unfold clean_name. intros H. apply andb_true_iff in H.
  destruct H as [H _]. repeat split.
  - apply (all_chars_has_char _ _ _ H). reflexivity.
  - apply (all_chars_has_char _ _ _ H). reflexivity.
  - apply strip_no_space. revert H. apply all_chars_weaken.
    intros c. destruct c as [[] [] [] [] [] [] [] []]; vm_compute; auto.
  - apply (all_chars_has_char _ _ _ H). reflexivity.
Qed.

Lemma entries_names r :
  Forall (fun e => clean_name (fst e) = true) (entries r).
Proof.
  unfold entries.
  repeat (apply Forall_app; split);
    match goal with
    | |- Forall _ (str_entry _ ?o) => destruct o
    | |- Forall _ (int_entry _ ?o) => destruct o
    | |- Forall _ (float_entry _ ?o) => destruct o
    end; constructor; try constructor; reflexivity.
Qed.

Lemma split_join first items :
  has_char "," first = false ->
  Forall (fun item => has_char "," item = false) items ->
  split "," (first ++ join_tail items) = first :: map (String " ") items.
Proof.
  intros Hf Hall. revert first Hf.
  induction Hall as [|item items Hi _ IH]; intros first Hf;
    cbn [join_tail fold_right map].
  - rewrite append_empty_r. now apply split_without_sep.
  - change (first ++ ", " ++ item ++ fold_right
              (fun item0 acc => ", " ++ item0 ++ acc) "" items)
      with (first ++ String "," (String " " item ++ join_tail items)).
    rewrite (split_at_sep _ _ _ Hf). now rewrite (IH (String " " item)).
Qed.

Lemma has_char_join_tail c items :
  Ascii.eqb "," c = false -> Ascii.eqb " " c = false ->
  Forall (fun item => has_char c item = false) items ->
  has_char c (join_tail items) = false.
Proof.
  intros H1 H2 Hall. induction Hall as [|item items Hi _ IH];
    cbn [join_tail fold_right]; [reflexivity|].
  fold (join_tail items). cbn [append has_char].
  now rewrite H1, H2, has_char_app, Hi, IH.
Qed.

Lemma names_split names :
  Forall (fun n => clean_name n = true) names ->
  has_char ")" ("record_type" ++ join_tail ("timestamp" :: names)) = false
  /\ map trim
       (split "," ("record_type" ++ join_tail ("timestamp" :: names)))
     = "record_type" :: "timestamp" :: names.
Proof.
  intros Hall. split.
  - rewrite has_char_app. cbn [has_char orb].
    apply has_char_join_tail; try reflexivity.
    constructor; [reflexivity|].
    eapply Forall_impl; [|exact Hall]. intros n Hn.
    now destruct (clean_name_chars n Hn) as (_ & ? & _).
  - rewrite split_join.
    + cbn [map]. rewrite trim_space_first. f_equal. f_equal.
      rewrite map_map. clear -Hall.
      induction Hall as [|n names Hn _ IH]; cbn [map]; [reflexivity|].
      rewrite trim_space_first, IH.
      now destruct (clean_name_chars n Hn) as (_ & _ & -> & _).
    + reflexivity.
    + constructor; [reflexivity|].
      eapply Forall_impl; [|exact Hall]. intros n Hn.
      now destruct (clean_name_chars n Hn) as (? & _ & _).
Qed.

Lemma names_no_nul names :
  Forall (fun n => clean_name n = true) names ->
  has_char Ascii.zero ("record_type" ++ join_tail ("timestamp" :: names))
  = false.
Proof.
  intros Hall. rewrite has_char_app. cbn [has_char orb].
  apply has_char_join_tail; try reflexivity.
  constructor; [reflexivity|].
  eapply Forall_impl; [|exact Hall]. intros n Hn.
  now destruct (clean_name_chars n Hn) as (_ & _ & _ & ?).
Qed.

(** *** The list of values *)

Lemma str_entry_reads field o :
  opt_holds quotable o -> Forall entry_reads (str_entry field o).
Proof.
  destruct o as [s|]; cbn [opt_holds str_entry]; constructor; auto.
  destruct H as [Hq Hz].
  split; [now apply closed_quoted|]. split; [now apply literal_text|].
  cbn [entry_text fst snd]. rewrite !has_char_app, Hz. reflexivity.
Qed.

Lemma int_entry_reads field o :
  opt_holds in_int64 o -> Forall entry_reads (int_entry field o).
Proof.
  destruct o as [z|]; cbn [opt_holds int_entry]; constructor; auto.
  split; [apply closed_numeral, fmt_d_chars|].
  split; [now apply literal_int|].
  apply (numeral_no_char _ _ (fmt_d_chars z)). reflexivity.
Qed.

Lemma float_entry_reads field o : Forall entry_reads (float_entry field o).
Proof.
  destruct o as [q|]; cbn [float_entry]; constructor; auto.
  split; [apply closed_numeral, fmt_f_chars|].
  split; [apply literal_real|].
  apply (numeral_no_char _ _ (fmt_f_chars q)). reflexivity.
Qed.

Lemma entries_read r : writable r -> Forall entry_reads (entries r).
Proof.
  intros [Ht Hi]. unfold texts in Ht. unfold ints in Hi.
  repeat match goal with
         | H : Forall _ (_ :: _) |- _ =>
             apply Forall_cons_iff in H; destruct H as [? H]
         end.
  unfold entries.
  repeat (apply Forall_app; split);
    first [ now apply str_entry_reads
          | now apply int_entry_reads
          | apply float_entry_reads ].
Qed.

Lemma traverse_entries es :
  Forall entry_reads es ->
  traverse literal (map entry_text es) = Some (map entry_value es).
Proof.
  induction 1 as [|e es (_ & He & _) _ IH]; cbn [map traverse];
    [reflexivity|].
  now rewrite He, IH.
Qed.

(** The statement built for a writable reading holds no NUL character. *)
Lemma statement_no_nul record_type timestamp r :
  writable r ->
  has_char Ascii.zero (build_insert_statement record_type timestamp r)
  = false.
Proof.
  intros Hw. rewrite build_insert_statement_text.
  pose proof (entries_read r Hw) as Hread.
  set (N := "record_type" ++ join_tail ("timestamp" :: map fst (entries r))).
  set (V := fmt_d record_type
            ++ join_tail (fmt_d timestamp :: map entry_text (entries r))).
  assert (HN : has_char Ascii.zero N = false)
    by (apply names_no_nul, Forall_map, entries_names).
  assert (HV : has_char Ascii.zero V = false).
  { unfold V. rewrite has_char_app.
    rewrite (numeral_no_char _ _ (fmt_d_chars record_type)) by reflexivity.
    cbn [orb]. apply has_char_join_tail; try reflexivity.
    constructor;
      [apply (numeral_no_char _ _ (fmt_d_chars timestamp)); reflexivity|].
    apply Forall_map. eapply Forall_impl; [|exact Hread].
    now intros e (_ & _ & He). }
  rewrite (has_char_app _ "INSERT INTO Reading (" _), (has_char_app _ N _),
    (has_char_app _ ") VALUES(" _), (has_char_app _ V _), HN, HV.
  reflexivity.
Qed.

(** What sqlite reads in the statement built for a writable reading under
    a key within 64 bits. *)
Lemma parse_insert_built record_type timestamp r :
  int64 record_type = true -> int64 timestamp = true -> writable r ->
  parse_insert (build_insert_statement record_type timestamp r)
  = Some ("record_type" :: "timestamp" :: map fst (entries r),
          SInt record_type :: SInt timestamp
            :: map entry_value (entries r)).
Proof.
  intros Hrt Hts Hw. rewrite build_insert_statement_text.
  pose proof (entries_read r Hw) as Hread.
  assert (Hnames : Forall (fun n => clean_name n = true)
                     (map fst (entries r)))
    by (apply Forall_map, entries_names).
  destruct (names_split _ Hnames) as [Hparen Hsplit].
  unfold parse_insert. rewrite strip_prefix_app.
  change (("record_type" ++ join_tail ("timestamp" :: map fst (entries r)))
          ++ ") VALUES("
          ++ (fmt_d record_type
              ++ join_tail (fmt_d timestamp :: map entry_text (entries r)))
          ++ ");")
    with (("record_type" ++ join_tail ("timestamp" :: map fst (entries r)))
          ++ String ")"
               (" VALUES("
                ++ (fmt_d record_type
                    ++ join_tail (fmt_d timestamp
                                  :: map entry_text (entries r)))
                ++ ");")).
  rewrite (split_first_app _ _ _ Hparen), strip_prefix_app,
    strip_suffix_app.
  rewrite split_top_join.
  - rewrite Hsplit. cbn [map traverse].
    rewrite (literal_int _ Hrt), literal_space, (literal_int _ Hts).
    rewrite traverse_literal_spaced with (vs := map entry_value (entries r))
      by now apply traverse_entries.
    reflexivity.
  - apply closed_numeral, fmt_d_chars.
  - constructor; [apply closed_numeral, fmt_d_chars|].
    apply Forall_map. eapply Forall_impl; [|exact Hread].
    now intros e [He _].
Qed.

End StatementFacts.

(* ------------------------------------------------------------------ *)
(** ** The stored row *)

Module RowFacts.
Import Sqlite Store Database NumeralFacts LiteralFacts StatementFacts.

Lemma dict_get_app {V : Type} k (a b : list (string * V)) :
  dict_get k (a ++ b)
  = match dict_get k a with
    | Some v => Some v
    | None => dict_get k b
    end.
Proof.
  induction a as [|[k' v] a IH]; cbn [app dict_get]; [reflexivity|].
  destruct (String.eqb k' k); [reflexivity | exact IH].
Qed.

Lemma lookup_str c field o :
  dict_get c (map pair_of (str_entry field o))
  = if String.eqb field c then option_map SText o else None.
Proof.
  destruct o; cbn [str_entry map pair_of dict_get fst option_map];
    destruct (String.eqb field c); reflexivity.
Qed.

Lemma lookup_int c field o :
  dict_get c (map pair_of (int_entry field o))
  = if String.eqb field c then option_map SInt o else None.
Proof.
  destruct o; cbn [int_entry map pair_of dict_get fst option_map];
    destruct (String.eqb field c); reflexivity.
Qed.

Lemma lookup_float c field o :
  dict_get c (map pair_of (float_entry field o))
  = if String.eqb field c
    then option_map (fun q => SReal (rounded_6 q)) o else None.
Proof.
  destruct o; cbn [float_entry map pair_of dict_get fst option_map];
    destruct (String.eqb field c); reflexivity.
Qed.

Ltac lookup_column :=
  unfold value_of, bound_of; cbn [dict_get String.eqb Ascii.eqb Bool.eqb];
  fold pair_of; unfold entries;
  rewrite !map_app, !dict_get_app, !lookup_str, !lookup_int, !lookup_float;
  cbn [String.eqb Ascii.eqb Bool.eqb];
  match goal with
  | |- context [option_map _ ?o] => destruct o
  end; reflexivity.

(** The row that the statement built for [r] stores, column by column. *)
Lemma cells_built record_type timestamp r :
  map (fun ca => apply_affinity (snd ca)
                   (value_of (bound_of record_type timestamp r) (fst ca)))
      columns
  = stored_cells r.
Proof.
  unfold columns, stored_cells. cbn [map fst snd].
  repeat (f_equal; [f_equal; lookup_column|]).
  do 2 f_equal. lookup_column.
Qed.

Lemma combine_entries es :
  combine (map fst es) (map entry_value es)
  = map (fun e => (fst e, entry_value e)) es.
Proof. induction es as [|e es IH]; cbn [map combine]; now rewrite ?IH. Qed.

Lemma names_known names :
  Forall (fun n => clean_name n = true) names ->
  forallb known_column names = true.
Proof.
  induction 1 as [|n names Hn _ IH]; cbn [forallb]; [reflexivity|].
  unfold clean_name in Hn. apply andb_true_iff in Hn.
  destruct Hn as [_ Hk]. now rewrite Hk, IH.
Qed.

(** The row of the statement built for [r]. *)
Lemma new_row_built record_type timestamp r :
  new_row ("record_type" :: "timestamp" :: map fst (entries r))
          (SInt record_type :: SInt timestamp :: map entry_value (entries r))
  = Ok (mkRow record_type timestamp (stored_cells r)).
Proof.
  unfold new_row.
  cbn [List.length]. rewrite !length_map, Nat.eqb_refl. cbn [negb].
  cbn [forallb]. rewrite names_known by (apply Forall_map, entries_names).
  cbn [known_column String.eqb Ascii.eqb Bool.eqb orb andb negb combine].
  rewrite combine_entries. fold (bound_of record_type timestamp r).
  assert (K1 : apply_affinity AInteger
                 (value_of (bound_of record_type timestamp r) "record_type")
               = SInt record_type) by reflexivity.
  assert (K2 : apply_affinity AInteger
                 (value_of (bound_of record_type timestamp r) "timestamp")
               = SInt timestamp) by reflexivity.
  rewrite K1, K2, cells_built. reflexivity.
Qed.

(** [cursor.execute] of the statement built for a writable reading [r]
    under a key within 64 bits: the statement must not be too long and the
    key must be new, and then the row is appended. *)
Lemma exec_insert_built t record_type timestamp r :
  int64 record_type = true -> int64 timestamp = true -> writable r ->
  exec_insert t (build_insert_statement record_type timestamp r)
  = if max_sql_length
       <? utf8_length (build_insert_statement record_type timestamp r)
    then Raise (DataError "query string is too large")
    else if has_key record_type timestamp t then
      Raise (IntegrityError
        "UNIQUE constraint failed: Reading.record_type, Reading.timestamp")
    else Ok (t ++ [mkRow record_type timestamp (stored_cells r)])%list.
Proof.
  intros Hrt Hts Hw. unfold exec_insert.
  rewrite (statement_no_nul _ _ _ Hw).
  rewrite (parse_insert_built _ _ _ Hrt Hts Hw), new_row_built.
  reflexivity.
Qed.

(** The same for a statement within the length. *)
Lemma exec_insert_fits t record_type timestamp r :
  int64 record_type = true -> int64 timestamp = true -> writable r ->
  fits record_type timestamp r ->
  exec_insert t (build_insert_statement record_type timestamp r)
  = if has_key record_type timestamp t then
      Raise (IntegrityError
        "UNIQUE constraint failed: Reading.record_type, Reading.timestamp")
    else Ok (t ++ [mkRow record_type timestamp (stored_cells r)])%list.
Proof.
  intros Hrt Hts Hw Hfit.
  rewrite (exec_insert_built _ _ _ _ Hrt Hts Hw).
  unfold fits in Hfit. apply Z.ltb_ge in Hfit. now rewrite Hfit.
Qed.

(** *** Reading the row back *)

Lemma digits_value_foreign c s acc :
  has_char c s = true -> is_digit c = false -> digits_value s acc = None.
Proof.
  intros Hin Hc. revert acc.
  induction s as [|x s IH]; intros acc; cbn [has_char digits_value] in *;
    [discriminate|].
  destruct (Ascii.eqb_spec x c) as [->|_].
  - now rewrite Hc.
  - destruct (is_digit x); [now apply IH | reflexivity].
Qed.

Lemma unsplit_split sep s : unsplit sep (split sep s) = s.
Proof.
  induction s as [|c s IH]; cbn [split]; [reflexivity|].
  destruct (Ascii.eqb_spec c sep) as [->|_].
  - cbn [unsplit]. destruct (split sep s) eqn:E.
    + destruct s; cbn in E; [discriminate|].
      destruct (Ascii.eqb a sep); [discriminate|].
      destruct (split sep s); discriminate.
    + now rewrite IH.
  - destruct (split sep s) as [|h t] eqn:E.
    + destruct s; cbn in E; [discriminate|].
      destruct (Ascii.eqb a sep); [discriminate|].
      destruct (split sep s); discriminate.
    + cbn [unsplit] in *. destruct t; cbn [append]; now rewrite IH.
Qed.

Lemma unsigned_literal_foreign c sign s :
  has_char c s = true -> is_digit c = false -> c <> "."%char ->
  unsigned_literal sign s = None.
Proof.
  intros Hin Hc Hdot. unfold unsigned_literal.
  pose proof (unsplit_split "." s) as E.
  destruct (split "." s) as [|i [|f [|g rest]]]; try reflexivity.
  - cbn [unsplit] in E. subst i.
    rewrite (digits_value_foreign c s 0 Hin Hc).
    now destruct (nonempty s).
  - cbn [unsplit] in E. subst s. rewrite has_char_app in Hin.
    cbn [has_char] in Hin. apply Ascii.eqb_neq in Hdot.
    rewrite Ascii.eqb_sym in Hdot. rewrite Hdot in Hin. cbn [orb] in Hin.
    destruct (nonempty i && nonempty f); [|reflexivity].
    apply orb_true_iff in Hin. destruct Hin as [Hi|Hf].
    + now rewrite (digits_value_foreign c i 0 Hi Hc).
    + rewrite (digits_value_foreign c f 0 Hf Hc).
      now destruct (digits_value i 0).
Qed.

Lemma number_literal_foreign c s :
  has_char c s = true -> numeral_char c = false ->
  number_literal s = None.
Proof.
  intros Hin Hc. unfold numeral_char in Hc.
  apply orb_false_iff in Hc. destruct Hc as [Hc Hdot].
  apply orb_false_iff in Hc. destruct Hc as [Hdig Hminus].
  apply Ascii.eqb_neq in Hdot, Hminus.
  destruct s as [|a r]; [reflexivity|]. cbn [number_literal].
  destruct (Ascii.eqb_spec a "-") as [->|_].
  - cbn [has_char] in Hin.
    assert (E : Ascii.eqb "-" c = false)
      by (apply Ascii.eqb_neq; congruence).
    rewrite E in Hin. cbn [orb] in Hin.
    now apply (unsigned_literal_foreign c).
  - now apply (unsigned_literal_foreign c).
Qed.

Lemma some_char_fails p s :
  all_chars p s = false -> exists c, has_char c s = true /\ p c = false.
Proof.
  induction s as [|x s IH]; cbn [all_chars]; [discriminate|].
  destruct (p x) eqn:Hx; cbn [andb].
  - intros H. destruct (IH H) as (c & Hc & Hp). exists c. split; auto.
    cbn [has_char]. now rewrite Hc, orb_true_r.
  - intros _. exists x. split; auto. cbn [has_char].
    now rewrite Ascii.eqb_refl.
Qed.

(** Plain text is not taken for a number. *)
Lemma text_to_number_plain s : plain_text s -> text_to_number s = None.
Proof.
  intros [_ H]. unfold text_to_number.
  apply orb_true_iff in H. destruct H as [H|H].
  - apply String.eqb_eq in H. now subst.
  - apply negb_true_iff in H.
    destruct (some_char_fails _ _ H) as (c & Hin & Hc).
    unfold number_char in Hc.
    repeat (apply orb_false_iff in Hc; destruct Hc as [Hc ?]).
    rewrite (number_literal_foreign c); [reflexivity| |].
    + unfold strip. now apply strip_keeps.
    + unfold numeral_char.
      repeat match goal with H : _ = false |- _ => rewrite H end.
      reflexivity.
Qed.

Lemma number_like_plain s : plain_text s -> number_like s = false.
Proof.
  intros [_ H]. unfold number_like.
  apply orb_true_iff in H. destruct H as [H|H].
  - apply String.eqb_eq in H. now subst.
  - apply negb_true_iff in H. rewrite H. apply andb_false_r.
Qed.

Lemma cell_str_plain field o :
  opt_holds plain_text o ->
  cell_str field (apply_affinity ANumeric (str_cell o)) = Ok o.
Proof.
  destruct o as [s|]; cbn [opt_holds str_cell]; [|reflexivity].
  intros H. cbn [apply_affinity].
  now rewrite (text_to_number_plain s H), (number_like_plain s H).
Qed.

Lemma cell_int_back field o :
  cell_int field (apply_affinity AInteger (int_cell o)) = Ok o.
Proof. destruct o; reflexivity. Qed.

Lemma cell_float_back field o :
  cell_float field (apply_affinity AReal (float_cell o))
  = Ok (option_map rounded_6 o).
Proof. destruct o; reflexivity. Qed.

Lemma create_reading_from_stored r :
  Forall (opt_holds plain_text) (texts r) ->
  create_reading_from_row (stored_cells r) = Ok (read_back r).
Proof.
  unfold texts. intros H.
  apply Forall_cons_iff in H. destruct H as [Hd H].
  apply Forall_cons_iff in H. destruct H as [Hn _].
  unfold create_reading_from_row, stored_cells.
  cbn [item nth_error of_option bind].
  rewrite (cell_str_plain _ _ Hd), (cell_str_plain _ _ Hn).
  rewrite !cell_int_back, !cell_float_back. reflexivity.
Qed.

Lemma opt_Qeq_rounded o :
  opt_holds exact_float o -> opt_Qeq (option_map rounded_6 o) o.
Proof.
  destruct o as [q|]; cbn [opt_holds option_map opt_Qeq]; [|auto].
  intros [H _]. now apply rounded_6_exact.
Qed.

Lemma read_back_eq r : exact_floats r -> reading_eq (read_back r) r.
Proof.
  unfold exact_floats, floats. intros H.
  repeat match goal with
         | H : Forall _ (_ :: _) |- _ =>
             apply Forall_cons_iff in H; destruct H as [? H]
         end.
  unfold reading_eq, read_back. cbn.
  repeat split; try reflexivity; now apply opt_Qeq_rounded.
Qed.

Lemma plain_quotable o : opt_holds plain_text o -> opt_holds quotable o.
Proof. destruct o as [s|]; cbn [opt_holds]; [now intros [H _] | auto]. Qed.

Lemma storable_writable r : storable r -> writable r.
Proof.
  intros (Ht & Hi & _). split; [|exact Hi].
  eapply Forall_impl; [|exact Ht]. apply plain_quotable.
Qed.

Lemma storable_texts r : storable r -> Forall (opt_holds plain_text) (texts r).
Proof. now intros (Ht & _). Qed.

Lemma writable_ts r t : writable r -> ts r = Some t -> int64 t = true.
Proof.
  intros [_ Hi] Hts. unfold ints in Hi.
  apply Forall_cons_iff in Hi. destruct Hi as [H _].
  rewrite Hts in H. exact H.
Qed.

End RowFacts.

(* ------------------------------------------------------------------ *)
(** ** Saving a writable reading *)

Module SaveFacts.
Import Sqlite Store Database NumeralFacts LiteralFacts StatementFacts
  RowFacts.

(** [cursor.execute] of the statement of a writable reading either raises,
    or appends one row under the key of the statement, which was not in the
    table. *)
Lemma exec_insert_any t record_type timestamp r :
  int64 record_type = true -> int64 timestamp = true -> writable r ->
  (exists e,
     exec_insert t (build_insert_statement record_type timestamp r)
     = Raise e)
  \/ (has_key record_type timestamp t = false
      /\ exists cs,
          exec_insert t (build_insert_statement record_type timestamp r)
          = Ok (t ++ [mkRow record_type timestamp cs])%list).
Proof.
  intros Hrt Hts Hw. rewrite (exec_insert_built _ _ _ _ Hrt Hts Hw).
  destruct (max_sql_length <? _); [left; eexists; reflexivity|].
  destruct (has_key record_type timestamp t);
    [left; eexists; reflexivity | right].
  split; [reflexivity|]. eexists; reflexivity.
Qed.

Lemma archive_rows_delete_current t :
  archive_rows (exec_delete t RecordType.CURRENT) = archive_rows t.
Proof.
  unfold archive_rows, exec_delete.
  induction t as [|x t IH]; cbn [filter]; [reflexivity|].
  destruct (Z.eqb_spec (row_type x) RecordType.CURRENT) as [E|E];
    cbn [negb filter].
  - rewrite IH, E. reflexivity.
  - now rewrite IH.
Qed.

Lemma current_rows_delete_current t :
  current_rows (exec_delete t RecordType.CURRENT) = [].
Proof.
  unfold current_rows, exec_delete.
  induction t as [|x t IH]; cbn [filter]; [reflexivity|].
  destruct (Z.eqb_spec (row_type x) RecordType.CURRENT) as [E|E];
    cbn [negb filter]; [exact IH|].
  apply Z.eqb_neq in E. now rewrite E.
Qed.


End SaveFacts.

(* ------------------------------------------------------------------ *)
(** ** The rounding of stored floats *)

Module RoundingFacts.
Import Lqa.

Lemma round_half_even_close x :
  (inject_Z (round_half_even x) - (1 # 2) <= x
   /\ x <= inject_Z (round_half_even x) + (1 # 2))%Q.
Proof.
  unfold round_half_even.
  pose proof (Qfloor_le x) as Hlo. pose proof (Qlt_floor x) as Hhi.
  rewrite inject_Z_plus in Hhi. change (inject_Z 1) with 1%Q in Hhi.
  destruct (x - inject_Z (Qfloor x) ?= 1 # 2)%Q eqn:C.
  - apply Qeq_alt in C.
    destruct (Z.even (Qfloor x)); [|rewrite inject_Z_plus;
      change (inject_Z 1) with 1%Q]; split; lra.
  - apply Qlt_alt in C. split; lra.
  - apply Qgt_alt in C. rewrite inject_Z_plus.
    change (inject_Z 1) with 1%Q. split; lra.
Qed.

Lemma Qmake_inject n : (n # 1000000 == inject_Z n * (1 # 1000000))%Q.
Proof.
  unfold Qeq, Qmult, inject_Z. cbn. lia.
Qed.

(** The numeral of ['%f'] is within half a millionth of the float. *)
Lemma rounded_6_close q : (Qabs (rounded_6 q - q) <= 1 # 2000000)%Q.
Proof.
  unfold rounded_6.
  destruct (round_half_even_close (Qabs q * 1000000)) as [Hlo Hhi].
  set (n := round_half_even (Qabs q * 1000000)) in *. clearbody n.
  apply Qabs_Qle_condition.
  rewrite Qmake_inject.
  assert (Hcase : (q ?= 0)%Q = Lt /\ (Qabs q == - q)%Q
                  \/ (q ?= 0)%Q <> Lt /\ (Qabs q == q)%Q).
  { clear. destruct (q ?= 0)%Q eqn:C.
    - right. split; [discriminate|]. apply Qeq_alt in C.
      apply Qabs_pos. lra.
    - left. split; [reflexivity|]. apply Qlt_alt in C.
      apply Qabs_neg. lra.
    - right. split; [discriminate|]. apply Qgt_alt in C.
      apply Qabs_pos. lra. }
  destruct Hcase as [[C Ha]|[C Ha]]; rewrite Ha in Hlo, Hhi; clear Ha.
  - rewrite C. replace (-1 * n) with (- n) by lia. rewrite inject_Z_opp.
    generalize dependent (inject_Z n). intros a Hlo Hhi. split; lra.
  - assert (E : (match (q ?= 0)%Q with Lt => -1 | _ => 1 end) = 1)
      by (destruct (q ?= 0)%Q; congruence).
    rewrite E, Z.mul_1_l.
    generalize dependent (inject_Z n). intros a Hlo Hhi. split; lra.
Qed.

Lemma near_rounded o : near o (option_map rounded_6 o).
Proof.
  destruct o as [q|]; cbn [near option_map]; [|exact I].
  eapply Qle_trans; [apply rounded_6_close|]. discriminate.
Qed.

Lemma read_back_near r : within_rounding r (Store.read_back r).
Proof.
  unfold within_rounding, Store.read_back. cbn.
  repeat split; apply near_rounded.
Qed.

End RoundingFacts.

(* ------------------------------------------------------------------ *)
(** ** The store *)

Module StoreProofs.
Import Sqlite Store Database StatementFacts RowFacts SaveFacts.

Lemma save_reading_any db record_type timestamp r :
  int64 record_type = true -> int64 timestamp = true -> writable r ->
  (exists e, save_reading db record_type timestamp r = (db, Raise e))
  \/ exists cs,
      save_reading db record_type timestamp r
      = ((if record_type =? RecordType.CURRENT
          then exec_delete db RecordType.CURRENT else db)
         ++ [mkRow record_type timestamp cs], Ok tt)%list
      /\ has_key record_type timestamp
           (if record_type =? RecordType.CURRENT
            then exec_delete db RecordType.CURRENT else db) = false.
Proof.
  intros Hrt Hts Hw. unfold save_reading.
  destruct (exec_insert_any
              (if record_type =? RecordType.CURRENT
               then exec_delete db RecordType.CURRENT else db)
              record_type timestamp r Hrt Hts Hw) as [[e ->]|[Hk [cs ->]]].
  - left. eexists; reflexivity.
  - right. exists cs. split; [reflexivity | exact Hk].
Qed.

(** A save of a storable reading within the length, under a free key. *)
Lemma save_reading_stored db record_type timestamp r :
  int64 record_type = true -> int64 timestamp = true -> writable r ->
  fits record_type timestamp r ->
  has_key record_type timestamp
    (if record_type =? RecordType.CURRENT
     then exec_delete db RecordType.CURRENT else db) = false ->
  save_reading db record_type timestamp r
  = ((if record_type =? RecordType.CURRENT
      then exec_delete db RecordType.CURRENT else db)
     ++ [mkRow record_type timestamp (stored_cells r)], Ok tt)%list.
Proof.
  intros Hrt Hts Hw Hfit Hfree. unfold save_reading.
  now rewrite (exec_insert_fits _ _ _ _ Hrt Hts Hw Hfit), Hfree.
Qed.

Lemma archive_rows_app (a b : Table) :
  archive_rows (a ++ b)%list = (archive_rows a ++ archive_rows b)%list.
Proof. apply filter_app. Qed.



End StoreProofs.










(* ------------------------------------------------------------------ *)
(** ** Selecting *)

Module SelectFacts.
Import Sqlite Store.

Lemma insert_perm r l : Permutation (insert_by_timestamp r l) (r :: l).
Proof.
  induction l as [|x l IH]; cbn [insert_by_timestamp]; [reflexivity|].
  destruct (row_timestamp r <? row_timestamp x); [reflexivity|].
  rewrite IH. apply perm_swap.
Qed.

Lemma order_perm l : Permutation (order_by_timestamp l) l.
Proof.
  induction l as [|x l IH]; cbn [order_by_timestamp fold_right];
    [reflexivity|].
  fold (order_by_timestamp l). rewrite insert_perm. now constructor.
Qed.

Lemma insert_sorted r l :
  StronglySorted by_timestamp l ->
  StronglySorted by_timestamp (insert_by_timestamp r l).
Proof.
  induction 1 as [|x l Hs IH Hx]; cbn [insert_by_timestamp].
  - repeat constructor.
  - destruct (Z.ltb_spec (row_timestamp r) (row_timestamp x)) as [Hlt|Hge].
    + constructor; [now constructor|].
      constructor; [unfold by_timestamp; lia|].
      eapply Forall_impl; [|exact Hx]. unfold by_timestamp. intros; lia.
    + constructor; [exact IH|].
      eapply Permutation_Forall; [symmetry; apply insert_perm|].
      constructor; [exact Hge | exact Hx].
Qed.

Lemma order_sorted l : StronglySorted by_timestamp (order_by_timestamp l).
Proof.
  induction l as [|x l IH]; cbn [order_by_timestamp fold_right];
    [constructor|].
  now apply insert_sorted.
Qed.

Lemma insert_front r l :
  Forall (fun x => row_timestamp r < row_timestamp x) l ->
  insert_by_timestamp r l = r :: l.
Proof.
  destruct 1 as [|x l Hx _]; cbn [insert_by_timestamp]; [reflexivity|].
  apply Z.ltb_lt in Hx. now rewrite Hx.
Qed.

(** Filtering a sorted list and inserting commute. *)
Lemma filter_insert p r l :
  StronglySorted by_timestamp l ->
  filter p (insert_by_timestamp r l)
  = if p r then insert_by_timestamp r (filter p l) else filter p l.
Proof.
  induction 1 as [|x l Hs IH Hx]; cbn [insert_by_timestamp filter].
  - destruct (p r); reflexivity.
  - destruct (Z.ltb_spec (row_timestamp r) (row_timestamp x)) as [Hlt|Hge];
      cbn [filter].
    + destruct (p r); [|reflexivity].
      symmetry. apply insert_front.
      assert (Hall : Forall (fun y => row_timestamp r < row_timestamp y)
                       (x :: l)).
      { constructor; [exact Hlt|].
        eapply Forall_impl; [|exact Hx]. unfold by_timestamp. intros; lia. }
      apply Forall_forall. intros y Hy.
      change (In y (filter p (x :: l))) in Hy.
      rewrite Forall_forall in Hall. apply Hall.
      now apply filter_In in Hy.
    + rewrite IH. destruct (p x), (p r); cbn [insert_by_timestamp];
        try reflexivity.
      apply Z.ltb_ge in Hge. now rewrite Hge.
Qed.

(** The order of selecting and sorting does not matter. *)
Lemma order_filter p l :
  order_by_timestamp (filter p l) = filter p (order_by_timestamp l).
Proof.
  induction l as [|x l IH]; cbn [filter order_by_timestamp fold_right];
    [reflexivity|].
  fold (order_by_timestamp l).
  rewrite (filter_insert p x _ (order_sorted l)).
  destruct (p x); cbn [order_by_timestamp fold_right]; now rewrite <- IH.
Qed.

Lemma filter_and {A : Type} (p q : A -> bool) l :
  filter (fun x => p x && q x) l = filter q (filter p l).
Proof.
  induction l as [|x l IH]; cbn [filter]; [reflexivity|].
  destruct (p x); cbn [andb filter]; [|exact IH].
  destruct (q x); now rewrite IH.
Qed.

Lemma filter_all {A : Type} (p : A -> bool) l :
  Forall (fun x => p x = true) l -> filter p l = l.
Proof.
  induction 1 as [|x l Hx _ IH]; cbn [filter]; [reflexivity|].
  now rewrite Hx, IH.
Qed.

End SelectFacts.

(* ------------------------------------------------------------------ *)
(** ** The window of a fetch *)

Module WindowFacts.
Import Sqlite Store Database SelectFacts.

Lemma has_key_append rt ts (a b : Table) :
  has_key rt ts (a ++ b)%list = has_key rt ts a || has_key rt ts b.
Proof. unfold has_key. apply existsb_app. Qed.

(** Saves under distinct free keys append their rows. *)
Lemma archived_from saved :
  forall base,
    Forall (savable RecordType.ARCHIVE) saved ->
    NoDup (map fst saved) ->
    (forall tr, In tr saved ->
       has_key RecordType.ARCHIVE (fst tr) base = false) ->
    fold_left
      (fun db tr => fst (save_archive_reading db (fst tr) (snd tr)))
      saved base
    = (base ++ map archive_row saved)%list.
Proof.
  induction saved as [|[t r] rest IH]; intros base Hall Hnd Hfree;
    cbn [fold_left map].
  - now rewrite app_nil_r.
  - inversion Hall as [|? ? (H64 & Hr & Hfit) Hrest]; subst.
    inversion Hnd as [|? ? Hnot Hnd']; subst.
    cbn [fst snd] in *.
    assert (E : save_archive_reading base t r
                = ((base ++ [archive_row (t, r)])%list, Ok tt)).
    { unfold save_archive_reading.
      now rewrite (StoreProofs.save_reading_stored base RecordType.ARCHIVE
                     t r eq_refl H64 (RowFacts.storable_writable r Hr) Hfit
                     (Hfree (t, r) (or_introl eq_refl))). }
    rewrite E. cbn [fst]. rewrite IH; [|exact Hrest | exact Hnd'|].
    + now rewrite <- app_assoc.
    + intros tr Hin. rewrite has_key_append, (Hfree tr (or_intror Hin)).
      cbn [orb has_key existsb archive_row row_type row_timestamp fst].
      rewrite Z.eqb_refl, orb_false_r. cbn [andb]. apply Z.eqb_neq.
      intros ->. apply Hnot. now apply in_map.
Qed.

Lemma ascending_NoDup sorted : ascending sorted -> NoDup (map fst sorted).
Proof.
  induction 1 as [|a rest Hs IH Ha]; cbn [map]; constructor; [|exact IH].
  intros Hin. apply in_map_iff in Hin. destruct Hin as (tr & E & Hin).
  rewrite Forall_forall in Ha. specialize (Ha _ Hin). lia.
Qed.

Lemma archived_rows saved sorted :
  Forall (savable RecordType.ARCHIVE) saved ->
  Permutation saved sorted -> ascending sorted ->
  archived saved = map archive_row saved.
Proof.
  intros Hall HP Hs. unfold archived.
  rewrite archived_from; [reflexivity | exact Hall | | reflexivity].
  eapply Permutation_NoDup;
    [apply Permutation_map, Permutation_sym, HP | now apply ascending_NoDup].
Qed.

(** There is one list in order of timestamp for rows of distinct
    timestamps. *)
Lemma sorted_unique (l1 l2 : list Row) :
  StronglySorted by_timestamp l1 ->
  StronglySorted (fun a b => row_timestamp a < row_timestamp b) l2 ->
  Permutation l1 l2 -> l1 = l2.
Proof.
  revert l2. induction l1 as [|a l1 IH]; intros l2 H1 H2 HP.
  - apply Permutation_nil in HP. now subst.
  - destruct l2 as [|b l2];
      [apply Permutation_sym, Permutation_nil in HP; discriminate|].
    inversion H1 as [|? ? H1' Ha]; inversion H2 as [|? ? H2' Hb]; subst.
    assert (E : a = b).
    { assert (Ia : In a (b :: l2))
        by (eapply Permutation_in; [exact HP | left; reflexivity]).
      assert (Ib : In b (a :: l1))
        by (eapply Permutation_in;
            [apply Permutation_sym; exact HP | left; reflexivity]).
      destruct Ia as [->|Ia]; [reflexivity|].
      destruct Ib as [->|Ib]; [reflexivity|].
      rewrite Forall_forall in Ha, Hb.
      specialize (Ha _ Ib). specialize (Hb _ Ia).
      unfold by_timestamp in Ha. lia. }
    subst b. f_equal. apply IH; [assumption | assumption|].
    eapply Permutation_cons_inv. exact HP.
Qed.

Lemma rows_ascending sorted :
  ascending sorted ->
  StronglySorted (fun a b => row_timestamp a < row_timestamp b)
    (map archive_row sorted).
Proof.
  induction 1 as [|a rest Hs IH Ha]; cbn [map]; constructor; [exact IH|].
  rewrite Forall_map. eapply Forall_impl; [|exact Ha].
  intros tr Htr. exact Htr.
Qed.

Lemma order_archived saved sorted :
  Permutation saved sorted -> ascending sorted ->
  order_by_timestamp (map archive_row saved) = map archive_row sorted.
Proof.
  intros HP Hs. apply sorted_unique;
    [apply order_sorted | now apply rows_ascending|].
  eapply perm_trans; [apply order_perm | now apply Permutation_map].
Qed.

Lemma filter_rows since max xs :
  filter (fun r =>
            (row_type r =? RecordType.ARCHIVE) && (since <? row_timestamp r)
            && match max with
               | Some m => row_timestamp r <=? m
               | None => true
               end) (map archive_row xs)
  = map archive_row (filter (fun tr => in_window since max (fst tr)) xs).
Proof.
  induction xs as [|[t r] xs IH];
    cbn [map filter archive_row row_type row_timestamp fst];
    [reflexivity|].
  rewrite Z.eqb_refl. unfold in_window at 1. cbn [andb].
  destruct ((since <? t)
            && match max with Some m => t <=? m | None => true end);
    cbn [map]; now rewrite IH.
Qed.

Lemma limit_rows limit xs :
  apply_limit limit (map archive_row xs) = map archive_row (cap limit xs).
Proof.
  destruct limit as [n|]; cbn [apply_limit cap]; [|reflexivity].
  destruct (n <? 0); [reflexivity | apply firstn_map].
Qed.

(** The rows that a fetch selects in a store of saved records. *)
Lemma select_archived saved sorted since max limit :
  Forall (savable RecordType.ARCHIVE) saved ->
  Permutation saved sorted -> ascending sorted ->
  exec_select (archived saved) RecordType.ARCHIVE since max limit
  = map archive_row (window since max limit sorted).
Proof.
  intros Hall HP Hs. rewrite (archived_rows saved sorted Hall HP Hs).
  unfold exec_select, window.
  now rewrite order_filter, (order_archived saved sorted HP Hs), filter_rows,
    limit_rows.
Qed.

Lemma readings_of_archived xs :
  (forall tr, In tr xs -> storable (snd tr)) ->
  readings_of_rows (map archive_row xs)
  = Ok (map (fun tr => read_back (snd tr)) xs).
Proof.
  induction xs as [|tr xs IH]; intros Hall;
    cbn [map readings_of_rows archive_row cells]; [reflexivity|].
  rewrite (RowFacts.create_reading_from_stored (snd tr)
             (RowFacts.storable_texts _ (Hall tr (or_introl eq_refl)))).
  cbn [bind]. fold (archive_row). rewrite IH; [reflexivity|].
  intros tr' Hin. apply Hall. now right.
Qed.

Lemma in_cap {A : Type} limit (x : A) l : In x (cap limit l) -> In x l.
Proof.
  destruct limit as [n|]; cbn [cap]; [|auto].
  destruct (n <? 0); [auto|].
  generalize (Z.to_nat n). clear n. intros n. revert l.
  induction n as [|n IH]; intros l; destruct l as [|y l];
    cbn [firstn In]; try tauto.
  intros [E|H]; [now left | right; now apply IH].
Qed.

Lemma in_window_sorted since max limit sorted tr :
  In tr (window since max limit sorted) -> In tr sorted.
Proof.
  unfold window. intros H. apply in_cap in H. now apply filter_In in H.
Qed.

Lemma rounded_records xs :
  Forall2 within_rounding (map snd xs)
    (map (fun tr : Z * Reading => read_back (snd tr)) xs).
Proof.
  induction xs as [|tr xs IH]; cbn [map]; constructor; [|exact IH].
  apply RoundingFacts.read_back_near.
Qed.

Lemma exact_records xs :
  (forall tr, In tr xs -> exact_floats (snd tr)) ->
  Forall2 (fun r r' => reading_eq r' r) (map snd xs)
    (map (fun tr : Z * Reading => read_back (snd tr)) xs).
Proof.
  induction xs as [|tr xs IH]; intros Hall; cbn [map]; constructor.
  - apply RowFacts.read_back_eq, Hall. now left.
  - apply IH. intros tr' Hin. apply Hall. now right.
Qed.

Lemma filter_after_saved (sorted : list (Z * Reading)) k :
  ascending sorted -> (k < List.length sorted)%nat ->
  filter (fun tr => nth k (map fst sorted) 0 <? fst tr) sorted
  = skipn (S k) sorted.
Proof.
  intros Hs. revert k.
  induction Hs as [|a rest Hs IH Ha]; intros k Hk; cbn [List.length] in Hk;
    [lia|].
  destruct k as [|k]; cbn [map nth filter skipn].
  - rewrite Z.ltb_irrefl. apply filter_all.
    eapply Forall_impl; [|exact Ha]. intros tr Ht. now apply Z.ltb_lt.
  - assert (Hin : In (nth k (map fst rest) 0) (map fst rest))
      by (apply nth_In; rewrite length_map; lia).
    apply in_map_iff in Hin. destruct Hin as (tr & Etr & Hin).
    rewrite Forall_forall in Ha. specialize (Ha _ Hin).
    assert (E : (nth k (map fst rest) 0 <? fst a) = false)
      by (apply Z.ltb_ge; lia).
    rewrite E. apply IH. lia.
Qed.

End WindowFacts.

(** C5 (as stated, refuted).  A limit does not always cap the count at
    [min(L, remaining)]: a negative limit is no limit to sqlite, and all
    three records of the sample store come back for [limit = -1]; a limit
    beyond 64 bits is a float to sqlite, which refuses it, and the fetch
    raises. *)
Lemma limit_is_not_always_a_cap :
  option_map (map ts)
    match Database.fetch_archive_readings sample_store 0 None (Some (-1)) with
    | Ok l => Some l
    | Raise _ => None
    end
  = Some [Some 1600657261; Some 1600657321; Some 1600657381]
  /\ Database.fetch_archive_readings sample_store 0 None
       (Some 9223372036854775808)
     = Raise (IntegrityError "datatype mismatch").
Proof. split; vm_compute; reflexivity. Qed.

(** C5 (amended).  Let records be saved by [saveArchive], in any order, at
    distinct timestamps within 64 bits, each storable and with a statement
    within the length that sqlite accepts; [sorted] lists them in ascending
    order of timestamp.  For a limit that is absent or within 64 bits,
    [fetchArchive(since, max, limit)] returns the records of the window, in
    ascending order of timestamp: those with [since < timestamp], with
    [timestamp <= max] when [max] is given, and of them the first [limit]
    when the limit is not negative, all of them when it is negative or
    absent.  Each record comes back with its text and integer fields and
    with floats within [10^-6] of those saved, and equal to the one saved
    when its floats are binary fractions of at most six decimals.  For a
    limit beyond 64 bits the fetch raises.  The window for
    [since = t_(k+1)] holds exactly the records at the later timestamps;
    [max] keeps of a window the records up to it; a limit [L >= 0] leaves
    [min(L, remaining)] records. *)
Theorem fetch_archive_window :
  forall (saved sorted : list (Z * Reading)),
    Permutation saved sorted ->
    Store.ascending sorted ->
    Forall (Store.savable RecordType.ARCHIVE) saved ->
    (forall since max limit,
        Store.in_int64 since ->
        Store.opt_holds Store.in_int64 max ->
        Store.opt_holds Store.in_int64 limit ->
        exists readings,
          Database.fetch_archive_readings (Store.archived saved)
            since max limit = Ok readings
          /\ Forall2 within_rounding
               (map snd (Store.window since max limit sorted)) readings
          /\ ((forall tr, In tr sorted -> Store.exact_floats (snd tr)) ->
              Forall2 (fun r r' => reading_eq r' r)
                (map snd (Store.window since max limit sorted)) readings))
    /\ (forall since max L,
          Sqlite.int64 L = false ->
          Database.fetch_archive_readings (Store.archived saved)
            since max (Some L)
          = Raise (IntegrityError "datatype mismatch"))
    /\ (forall k, (k < List.length sorted)%nat ->
          Store.window (nth k (map fst sorted) 0) None None sorted
          = skipn (S k) sorted)
    /\ (forall since m,
          Store.window since (Some m) None sorted
          = filter (fun tr => fst tr <=? m)
              (Store.window since None None sorted))
    /\ (forall since max L, 0 <= L ->
          Store.window since max (Some L) sorted
          = firstn (Z.to_nat L) (Store.window since max None sorted)
          /\ List.length (Store.window since max (Some L) sorted)
             = Nat.min (Z.to_nat L)
                 (List.length (Store.window since max None sorted))).
Proof.
  intros saved sorted HP Hs Hall.
  assert (Hsorted : Forall (Store.savable RecordType.ARCHIVE) sorted)
    by (eapply Permutation_Forall; [exact HP | exact Hall]).
  rewrite Forall_forall in Hsorted.
  split; [|split; [|split; [|split]]].
  - intros since max limit _ _ Hl.
    exists (map (fun tr => Store.read_back (snd tr))
              (Store.window since max limit sorted)).
    split; [|split].
    + unfold Database.fetch_archive_readings, Database.fetch_readings.
      assert (E : Database.readings_of_rows
                    (Sqlite.exec_select (Store.archived saved)
                       RecordType.ARCHIVE since max limit)
                  = Ok (map (fun tr => Store.read_back (snd tr))
                          (Store.window since max limit sorted))).
      { rewrite (WindowFacts.select_archived saved sorted _ _ _ Hall HP Hs).
        apply WindowFacts.readings_of_archived.
        intros tr Hin. apply WindowFacts.in_window_sorted in Hin.
        now destruct (Hsorted tr Hin) as (_ & Hr & _). }
      destruct limit as [n|]; [|exact E].
      cbn [Store.opt_holds] in Hl. unfold Store.in_int64 in Hl.
      now rewrite Hl.
    + apply WindowFacts.rounded_records.
    + intros He. apply WindowFacts.exact_records.
      intros tr Hin. apply He.
      now apply WindowFacts.in_window_sorted in Hin.
  - intros since max L HL.
    unfold Database.fetch_archive_readings, Database.fetch_readings.
    now rewrite HL.
  - intros k Hk. unfold Store.window, Store.cap, Store.in_window.
    rewrite <- (WindowFacts.filter_after_saved sorted k Hs Hk).
    apply filter_ext. intros tr. apply andb_true_r.
  - intros since m. unfold Store.window, Store.cap, Store.in_window.
    rewrite <- SelectFacts.filter_and. apply filter_ext.
    intros tr. now rewrite andb_true_r.
  - intros since max L HL. unfold Store.window, Store.cap.
    destruct (Z.ltb_spec L 0); [lia|].
    split; [reflexivity | apply length_firstn].
Qed.

Lemma fetch_archive_window_witness :
  exists readings,
    Database.fetch_archive_readings (Store.archived sample_saved)
      1600657260 None (Some 5) = Ok readings
    /\ Forall2 within_rounding
         [named_reading "airlink" 1600657321 74.1;
          named_reading "airlink" 1600657381 74.2] readings.
Proof.
  destruct (fetch_archive_window sample_saved sample_sorted) as (H & _).
  - apply perm_swap.
  - unfold Store.ascending, sample_sorted. holds.
  - unfold sample_saved, Store.savable, Store.storable, Store.texts,
      Store.ints, Store.floats, Store.fits, Store.in_int64.
    repeat constructor; cbn [fst snd];
      first [ reflexivity
            | apply Z.leb_le; vm_compute; reflexivity
            | holds ].
  - destruct (H 1600657260 None (Some 5)) as (readings & Hf & Hw & _);
      [reflexivity | exact I | reflexivity|].
    exists readings. split; [exact Hf | exact Hw].
Defined.

(* ================================================================== *)
(** * Further properties of the code *)

(* ------------------------------------------------------------------ *)
(** ** The query server: the requests it accepts *)

Module RequestFacts.
Import Server Requests ServerFacts.

Lemma split_nonempty sep s : exists h t, split sep s = h :: t.
Proof.
  induction s as [|c s (h & t & IH)]; cbn [split]; [eauto|].
  destruct (Ascii.eqb c sep); [eauto|]. rewrite IH. eauto.
Qed.

(** A text that holds the separator splits in at least two pieces. *)
Lemma split_two sep s :
  has_char sep s = true -> exists a b rest, split sep s = a :: b :: rest.
Proof.
  induction s as [|c s IH]; cbn [has_char split]; [discriminate|].
  destruct (Ascii.eqb c sep); cbn [orb].
  - intros _. destruct (split_nonempty sep s) as (h & t & ->). eauto.
  - intros H. destruct (IH H) as (a & b & rest & ->). eauto.
Qed.

Lemma parse_args_loop_returns args acc :
  exists d, parse_args_loop args acc = Ok d.
Proof.
  revert acc. induction args as [|arg args IH]; intros acc;
    cbn [parse_args_loop]; [eauto|].
  destruct (has_char "=" arg) eqn:E; [|apply IH].
  destruct (split_two _ _ E) as (a & b & rest & ->).
  cbn [item nth_error of_option bind].
  destruct (negb (String.eqb a "")); apply IH.
Qed.

Lemma argument_chars c kv :
  token_pair kv -> c = " "%char \/ c = "?"%char \/ c = ","%char ->
  has_char c (argument kv) = false.
Proof.
  intros [Hk Hv] Hc. apply url_token_chars in Hk, Hv. unfold argument.
  assert (has_char c (fst kv) = false /\ has_char c (snd kv) = false)
    as [Ck Cv] by (destruct Hc as [->|[->| ->]]; intuition).
  assert (Ascii.eqb "="%char c = false) as Ce
    by (destruct Hc as [->|[->| ->]]; reflexivity).
  rewrite !has_char_app, Ck, Cv. cbn [has_char append orb]. now rewrite Ce.
Qed.

Lemma comma_query_cons kv rest :
  comma_query (kv :: rest)
  = argument kv ++ match rest with
                   | [] => ""
                   | _ => "," ++ comma_query rest
                   end.
Proof.
  destruct rest as [|p rest]; cbn [comma_query].
  - now rewrite append_empty_r.
  - reflexivity.
Qed.

(** Neither a blank nor a question mark occurs in such a query. *)
Lemma comma_query_chars c params :
  Forall token_pair params -> c = " "%char \/ c = "?"%char ->
  has_char c (comma_query params) = false.
Proof.
  intros Hall Hc. induction Hall as [|kv rest Hkv _ IH]; [reflexivity|].
  rewrite comma_query_cons, has_char_app.
  rewrite (argument_chars c kv Hkv) by tauto.
  destruct rest; [reflexivity|].
  cbn [has_char append orb].
  assert (Ascii.eqb ","%char c = false) as ->
    by (destruct Hc as [->| ->]; reflexivity).
  exact IH.
Qed.

(** The pieces of a comma query are its arguments. *)
Lemma split_comma_query kv rest :
  Forall token_pair (kv :: rest) ->
  split "," (comma_query (kv :: rest)) = map argument (kv :: rest).
Proof.
  revert kv. induction rest as [|kv' rest IH]; intros kv Hall;
    inversion Hall as [|? ? Hkv Hrest]; subst.
  - cbn [comma_query map]. apply split_without_sep.
    apply argument_chars; auto.
  - rewrite comma_query_cons.
    change (argument kv ++ "," ++ comma_query (kv' :: rest))
      with (argument kv ++ String "," (comma_query (kv' :: rest))).
    rewrite split_at_sep by (apply argument_chars; auto).
    rewrite (IH kv' Hrest). reflexivity.
Qed.

Lemma split_argument kv :
  token_pair kv ->
  has_char "=" (argument kv) = true
  /\ split "=" (argument kv) = [fst kv; snd kv].
Proof.
  intros [Hk Hv]. apply url_token_chars in Hk, Hv. unfold argument. split.
  - rewrite has_char_app. cbn. apply orb_true_r.
  - change (fst kv ++ "=" ++ snd kv) with (fst kv ++ String "=" (snd kv)).
    rewrite split_at_sep by tauto. now rewrite split_without_sep by tauto.
Qed.

Lemma parse_args_loop_kept params acc :
  Forall kept_pair params ->
  parse_args_loop (map argument params) acc = Ok (assigned params acc).
Proof.
  intros Hall. revert acc.
  induction Hall as [|kv rest [Hkv Hne] _ IH]; intros acc; [reflexivity|].
  cbn [map parse_args_loop].
  destruct (split_argument kv Hkv) as [-> ->].
  cbn [item nth_error of_option bind].
  apply String.eqb_neq in Hne. rewrite Hne. cbn [negb].
  rewrite IH. reflexivity.
Qed.

Lemma dict_set_new {V : Type} k (v : V) d :
  dict_get k d = None -> dict_set k v d = (d ++ [(k, v)])%list.
Proof.
  induction d as [|[a b] d IH]; cbn [dict_get dict_set app]; [reflexivity|].
  destruct (String.eqb a k); [discriminate|]. intros H. now rewrite IH.
Qed.

Lemma dict_get_absent {V : Type} k (d : list (string * V)) :
  ~ In k (map fst d) -> dict_get k d = None.
Proof.
  induction d as [|[a b] d IH]; cbn [dict_get map fst In]; [reflexivity|].
  intros H. destruct (String.eqb_spec a k) as [->|_]; [tauto|].
  apply IH. tauto.
Qed.

(** Assignments under distinct new keys append the pairs in order. *)
Lemma assigned_distinct params acc :
  NoDup (map fst (acc ++ params)%list) ->
  assigned params acc = (acc ++ params)%list.
Proof.
  revert acc. induction params as [|[k v] params IH]; intros acc Hnd;
    cbn [assigned fold_left fst snd].
  - now rewrite app_nil_r.
  - assert (Hk : dict_get k acc = None).
    { apply dict_get_absent. rewrite map_app in Hnd. cbn [map fst] in Hnd.
      apply NoDup_remove_2 in Hnd. intros Hin. apply Hnd.
      apply in_or_app. now left. }
    rewrite (dict_set_new _ _ _ Hk).
    change (fold_left (fun d kv => dict_set (fst kv) (snd kv) d) params
              (acc ++ [(k, v)])%list)
      with (assigned params (acc ++ [(k, v)])%list).
    rewrite IH; rewrite <- app_assoc; [reflexivity | exact Hnd].
Qed.

Lemma split_get_line request :
  has_char " " request = false ->
  split " " (get_line request) = ["GET"; request; "HTTP/1.1"].
Proof.
  intros H. unfold get_line.
  change ("GET " ++ request ++ " HTTP/1.1")
    with ("GET" ++ String " " (request ++ String " " "HTTP/1.1")).
  rewrite split_at_sep by reflexivity.
  now rewrite split_at_sep by exact H.
Qed.

Lemma split_query cmd q :
  has_char "?" cmd = false -> has_char "?" q = false ->
  has_char "?" (cmd ++ "?" ++ q) = true
  /\ split "?" (cmd ++ "?" ++ q) = [cmd; q].
Proof.
  intros Hc Hq. split.
  - rewrite has_char_app. cbn. apply orb_true_r.
  - change (cmd ++ "?" ++ q) with (cmd ++ String "?" q).
    rewrite split_at_sep by exact Hc. now rewrite split_without_sep.
Qed.

(** [int] reads a run of digits as [digits_value] does. *)
Lemma int_digits_digits s acc :
  all_chars is_digit s = true -> int_digits s acc true = digits_value s acc.
Proof.
  revert acc. induction s as [|c s IH]; intros acc;
    cbn [all_chars int_digits digits_value]; [reflexivity|].
  intros H. apply andb_true_iff in H. destruct H as [Hc Hs].
  rewrite Hc. now apply IH.
Qed.

Lemma int_digits_numeral z :
  0 <= z -> int_digits (fmt_d z) 0 false = Some z.
Proof.
  intros Hz. destruct (NumeralFacts.fmt_d_nonneg z Hz) as (Hd & Hne & Hv).
  destruct (fmt_d z) as [|c r]; [contradiction|].
  cbn [all_chars int_digits digits_value] in *.
  apply andb_true_iff in Hd. destruct Hd as [Hc Hr].
  rewrite Hc in *. now rewrite int_digits_digits.
Qed.

Lemma map_chars_numeral s :
  all_chars numeral_char s = true -> map_chars ascii_space s = s.
Proof.
  induction s as [|c s IH]; cbn [all_chars map_chars]; [reflexivity|].
  intros H. apply andb_true_iff in H. destruct H as [Hc Hs].
  rewrite (IH Hs). f_equal. revert Hc.
  destruct c as [[] [] [] [] [] [] [] []]; vm_compute; congruence.
Qed.

Lemma count_digits_bound s acc :
  count_digits s acc <= acc + Z.of_nat (String.length s).
Proof.
  revert acc. induction s as [|c s IH]; intros acc;
    cbn [count_digits String.length]; [lia|].
  specialize (IH (if is_digit c then acc + 1 else acc)).
  destruct (is_digit c); lia.
Qed.

(** What ['%d'] prints, [int] reads back, up to the length that [int]
    accepts. *)
Lemma py_int_fmt_d z : Requests.printable z -> py_int (fmt_d z) = Ok z.
Proof.
  intros Hlen. unfold py_int.
  rewrite (map_chars_numeral _ (NumeralFacts.fmt_d_chars z)).
  unfold strip.
  rewrite (LiteralFacts.strip_no_space _ _
             (LiteralFacts.numeral_no_space _ (NumeralFacts.fmt_d_chars z))).
  assert (Hmax : (max_str_digits <? count_digits (fmt_d z) 0) = false).
  { apply Z.ltb_ge. pose proof (count_digits_bound (fmt_d z) 0).
    unfold Requests.printable in Hlen. lia. }
  destruct (Z.lt_ge_cases z 0) as [Hn|Hp].
  - rewrite (NumeralFacts.fmt_d_neg z Hn) in *. rewrite Hmax.
    cbn [Ascii.eqb Bool.eqb].
    rewrite int_digits_numeral by lia. cbn [option_map of_option].
    f_equal. lia.
  - pose proof (int_digits_numeral z Hp) as Hv.
    destruct (NumeralFacts.fmt_d_nonneg z Hp) as (Hd & Hne & _).
    destruct (fmt_d z) as [|c r] eqn:E; [contradiction|].
    rewrite Hmax.
    cbn [all_chars] in Hd. apply andb_true_iff in Hd. destruct Hd as [Hc _].
    assert (Ascii.eqb c "-" = false) as ->
      by (destruct (Ascii.eqb_spec c "-") as [->|]; [discriminate|reflexivity]).
    assert (Ascii.eqb c "+" = false) as ->
      by (destruct (Ascii.eqb_spec c "+") as [->|]; [discriminate|reflexivity]).
    now rewrite Hv.
Qed.

Lemma fmt_d_token z : url_token (fmt_d z) = true.
Proof.
  unfold url_token.
  pose proof (NumeralFacts.fmt_d_chars z) as H.
  rewrite !(NumeralFacts.numeral_no_char _ _ H) by reflexivity. reflexivity.
Qed.

Lemma parse_args_kept params :
  Forall kept_pair params ->
  parse_args (comma_query params) = Ok (assigned params []).
Proof.
  intros Hall. unfold parse_args. destruct params as [|kv rest]; [reflexivity|].
  rewrite split_comma_query
    by (eapply Forall_impl; [|exact Hall]; intros ? [H _]; exact H).
  now apply parse_args_loop_kept.
Qed.

Lemma parse_args_returns args_in : exists d, parse_args args_in = Ok d.
Proof. apply parse_args_loop_returns. Qed.

(** The request line of a command with a query reaches the dispatch with
    the command and the text after the question mark. *)
Lemma get_line_query cmd q :
  has_char " " cmd = false -> has_char "?" cmd = false ->
  has_char " " q = false -> has_char "?" q = false ->
  item (split " " (get_line (cmd ++ "?" ++ q))) 1 = Ok (cmd ++ "?" ++ q)
  /\ has_char "?" (cmd ++ "?" ++ q) = true
  /\ split "?" (cmd ++ "?" ++ q) = [cmd; q].
Proof.
  intros Hcs Hcq Hqs Hqq.
  rewrite split_get_line.
  - split; [reflexivity|]. now apply split_query.
  - rewrite !has_char_app, Hcs, Hqs. reflexivity.
Qed.

Lemma get_line_plain cmd :
  has_char " " cmd = false ->
  item (split " " (get_line cmd)) 1 = Ok cmd.
Proof.
  intros H. now rewrite split_get_line.
Qed.

End RequestFacts.

(** X1. [parse_args] on a comma-separated query [k1=v1,k2=v2,...] whose
    keys and values hold no delimiter and whose keys are not empty returns
    the dictionary of the assignments in order: a key given twice keeps its
    first position and takes its last value.  With distinct keys the
    dictionary is the list of pairs itself. *)
Theorem parse_args_of_comma_query :
  forall params : list (string * string),
    Forall Requests.kept_pair params ->
    Server.parse_args (Requests.comma_query params)
      = Ok (Requests.assigned params [])
    /\ (NoDup (map fst params) ->
        Server.parse_args (Requests.comma_query params) = Ok params).
Proof.
  intros params Hall.
  pose proof (RequestFacts.parse_args_kept params Hall) as E.
  split; [exact E|].
  intros Hnd. rewrite E. f_equal.
  now apply (RequestFacts.assigned_distinct params []).
Qed.

Lemma parse_args_of_comma_query_witness :
  Server.parse_args "since_ts=1,limit=3,since_ts=7"
  = Ok [("since_ts", "7"); ("limit", "3")].
Proof.
  apply (parse_args_of_comma_query
           [("since_ts", "1"); ("limit", "3"); ("since_ts", "7")]).
  repeat constructor; cbn; discriminate.
Defined.

(** X2. [parse_requestline] raises exactly on a request line without a
    blank, where [requestline.split(' ')[1]] is out of range; on every other
    line it returns a request.  [parse_args] never raises: [key_value[1]] is
    looked up only where ['='] occurs in the argument. *)
Theorem parse_requestline_raises_without_blank :
  (forall args_in, exists d, Server.parse_args args_in = Ok d)
  /\ (forall requestline,
        has_char " " requestline = false ->
        Server.parse_requestline requestline = Raise IndexError)
  /\ (forall requestline,
        has_char " " requestline = true ->
        exists r, Server.parse_requestline requestline = Ok r).
Proof.
  split; [|split].
  - apply RequestFacts.parse_args_returns.
  - intros line H. unfold Server.parse_requestline.
    now rewrite (split_without_sep _ _ H).
  - intros line H. unfold Server.parse_requestline.
    destruct (RequestFacts.split_two _ _ H) as (a & request & rest & ->).
    cbn [item nth_error of_option bind].
    destruct (has_char "?" request) eqn:Hq.
    + destruct (RequestFacts.split_two _ _ Hq) as (cmd & args & more & ->).
      cbn [item nth_error of_option bind].
      destruct (RequestFacts.parse_args_returns args) as [d ->].
      cbn [bind]. eauto.
    + cbn [bind].
      destruct (RequestFacts.parse_args_returns "") as [d ->].
      cbn [bind]. eauto.
Qed.

Lemma parse_requestline_raises_without_blank_witness :
  Server.parse_requestline "GET/get-version" = Raise IndexError
  /\ exists r, Server.parse_requestline "GET /get-version" = Ok r.
Proof.
  destruct parse_requestline_raises_without_blank as (_ & H & H').
  split; [apply H | apply H']; reflexivity.
Defined.

(** X3. A fetch of archive records whose [since_ts], [max_ts] and [limit]
    are integers as ['%d'] prints them, separated by commas, is parsed into a
    FETCH_ARCHIVE_RECORDS request with exactly these integers and no error,
    whatever their sign, as long as none of the numerals is longer than the
    4300 digits that [int] accepts. *)
Theorem fetch_archive_records_request :
  forall since max limit : Z,
    Requests.printable since ->
    Requests.printable max ->
    Requests.printable limit ->
    Server.parse_requestline
      (Requests.get_line
         ("/fetch-archive-records?" ++ Requests.fetch_query since max limit))
    = Ok (Server.mkRequest Server.FETCH_ARCHIVE_RECORDS
            (Some since) (Some max) (Some limit) None
            ("/fetch-archive-records?"
             ++ Requests.fetch_query since max limit)).
Proof.
  intros since max limit Hs Hm Hl.
  assert (Hkept : Forall Requests.kept_pair
                    [("since_ts", fmt_d since); ("max_ts", fmt_d max);
                     ("limit", fmt_d limit)]).
  { repeat constructor; cbn [fst snd]; try discriminate;
      apply RequestFacts.fmt_d_token. }
  assert (Htok : Forall Server.token_pair
                   [("since_ts", fmt_d since); ("max_ts", fmt_d max);
                    ("limit", fmt_d limit)])
    by (eapply Forall_impl; [|exact Hkept]; intros ? [H _]; exact H).
  unfold Requests.get_line, Requests.fetch_query.
  set (q := Requests.comma_query _).
  change ("GET " ++ ("/fetch-archive-records?" ++ q) ++ " HTTP/1.1")
    with ("GET /fetch-archive-records?" ++ q ++ " HTTP/1.1").
  rewrite ServerFacts.parse_requestline_fetch
    by (apply RequestFacts.comma_query_chars; auto).
  unfold q. rewrite (RequestFacts.parse_args_kept _ Hkept).
  cbn [Requests.assigned fold_left fst snd dict_set String.eqb Ascii.eqb
       Bool.eqb bind dict_get].
  unfold Server.on_key.
  cbn [dict_get String.eqb Ascii.eqb Bool.eqb].
  unfold Server.parse_since, Server.parse_max, Server.parse_limit.
  rewrite (RequestFacts.py_int_fmt_d _ Hs), (RequestFacts.py_int_fmt_d _ Hm),
    (RequestFacts.py_int_fmt_d _ Hl).
  reflexivity.
Qed.

Lemma fetch_archive_records_request_witness :
  Server.parse_requestline
    "GET /fetch-archive-records?since_ts=1600657260,max_ts=1600657380,limit=-1 HTTP/1.1"
  = Ok (Server.mkRequest Server.FETCH_ARCHIVE_RECORDS
          (Some 1600657260) (Some 1600657380) (Some (-1)) None
          "/fetch-archive-records?since_ts=1600657260,max_ts=1600657380,limit=-1").
Proof.
  apply (fetch_archive_records_request 1600657260 1600657380 (-1));
    apply Z.leb_le; reflexivity.
Defined.

(** X4. A fetch of archive records whose query has no [since_ts] argument
    is an error with the message that names the missing argument; a
    [max_ts] and a [limit] in the query are not looked at, so they are
    absent from the request and a malformed one is not reported. *)
Theorem fetch_without_since_ts_is_error :
  forall (q : string) (args_dict : list (string * string)),
    has_char " " q = false ->
    has_char "?" q = false ->
    Server.parse_args q = Ok args_dict ->
    dict_get "since_ts" args_dict = None ->
    Server.parse_requestline
      (Requests.get_line ("/fetch-archive-records?" ++ q))
    = Ok (Server.mkRequest Server.ERROR None None None
            (Some "fetch-archive-records requires since_ts argument")
            ("/fetch-archive-records?" ++ q)).
Proof.
  intros q d Hs Hq Hd Hsince. unfold Requests.get_line.
  change ("GET " ++ ("/fetch-archive-records?" ++ q) ++ " HTTP/1.1")
    with ("GET /fetch-archive-records?" ++ q ++ " HTTP/1.1").
  rewrite ServerFacts.parse_requestline_fetch by assumption.
  rewrite Hd. cbn [bind]. rewrite Hsince. reflexivity.
Qed.

Lemma fetch_without_since_ts_is_error_witness :
  Server.parse_requestline
    "GET /fetch-archive-records?max_ts=abc,limit=3 HTTP/1.1"
  = Ok (Server.mkRequest Server.ERROR None None None
          (Some "fetch-archive-records requires since_ts argument")
          "/fetch-archive-records?max_ts=abc,limit=3").
Proof.
  apply (fetch_without_since_ts_is_error "max_ts=abc,limit=3"
           [("max_ts", "abc"); ("limit", "3")]); reflexivity.
Defined.

(** X5. The three commands without arguments are recognised whatever the
    query that follows them: the arguments are parsed and dropped, the
    request has no bound, no limit and no error. *)
Theorem commands_without_arguments :
  forall q : string,
    has_char " " q = false ->
    has_char "?" q = false ->
    Server.parse_requestline (Requests.get_line ("/get-version" ++ "?" ++ q))
    = Ok (Server.mkRequest Server.GET_VERSION None None None None
            ("/get-version" ++ "?" ++ q))
    /\ Server.parse_requestline
         (Requests.get_line ("/get-earliest-timestamp" ++ "?" ++ q))
       = Ok (Server.mkRequest Server.GET_EARLIEST_TIMESTAMP None None None
               None ("/get-earliest-timestamp" ++ "?" ++ q))
    /\ Server.parse_requestline
         (Requests.get_line ("/v1/current_conditions" ++ "?" ++ q))
       = Ok (Server.mkRequest Server.FETCH_CURRENT_RECORD None None None
               None ("/v1/current_conditions" ++ "?" ++ q)).
Proof.
  intros q Hs Hq.
  destruct (RequestFacts.parse_args_returns q) as [d Hd].
  repeat split; unfold Server.parse_requestline;
    match goal with
    | |- context [Requests.get_line (?cmd ++ "?" ++ q)] =>
        destruct (RequestFacts.get_line_query cmd q) as (E1 & E2 & E3);
          try reflexivity; try assumption;
          rewrite E1; cbn [bind]; rewrite E2, E3
    end;
    cbn [item nth_error of_option bind]; rewrite Hd; reflexivity.
Qed.

Lemma commands_without_arguments_witness :
  Server.parse_requestline "GET /v1/current_conditions?since_ts=x HTTP/1.1"
  = Ok (Server.mkRequest Server.FETCH_CURRENT_RECORD None None None None
          "/v1/current_conditions?since_ts=x").
Proof.
  apply (commands_without_arguments "since_ts=x"); reflexivity.
Defined.

(** X6. A path that is none of the four commands is an error: the message
    is 'A command must be specified.' for the bare ["/"] and names the path
    otherwise; the request carries no bound and no limit. *)
Theorem unknown_command_is_error :
  forall cmd : string,
    has_char " " cmd = false ->
    has_char "?" cmd = false ->
    Requests.known_command cmd = false ->
    Server.parse_requestline (Requests.get_line cmd)
    = Ok (Server.mkRequest Server.ERROR None None None
            (Some (if String.eqb cmd "/" then "A command must be specified."
                   else "Unknown command: " ++ cmd ++ "."))
            cmd).
Proof.
  intros cmd Hs Hq Hk. unfold Server.parse_requestline.
  rewrite (RequestFacts.get_line_plain cmd Hs). cbn [bind]. rewrite Hq.
  cbn [bind]. unfold Requests.known_command in Hk. cbn [existsb] in Hk.
  repeat (apply orb_false_iff in Hk; destruct Hk as [?E Hk]).
  rewrite E, E0, E1, E2. change (Server.parse_args "") with (Ok (@nil (string * string))).
  cbn [bind]. destruct (String.eqb cmd "/"); reflexivity.
Qed.

Lemma unknown_command_is_error_witness :
  Server.parse_requestline "GET /fetch-current-record HTTP/1.1"
  = Ok (Server.mkRequest Server.ERROR None None None
          (Some "Unknown command: /fetch-current-record.")
          "/fetch-current-record")
  /\ Server.parse_requestline "GET / HTTP/1.1"
     = Ok (Server.mkRequest Server.ERROR None None None
             (Some "A command must be specified.") "/").
Proof.
  split.
  - apply (unknown_command_is_error "/fetch-current-record"); reflexivity.
  - apply (unknown_command_is_error "/"); reflexivity.
Defined.

(** X7. Whatever the request line, a request that [parse_requestline]
    returns is an ERROR exactly when it carries an error message, and a
    FETCH_ARCHIVE_RECORDS request always has its [since_ts]; a request of
    another kind that is no error has no bound and no limit. *)
Theorem request_invariants :
  forall (requestline : string) (r : Server.Request),
    Server.parse_requestline requestline = Ok r ->
    (Server.request_type r = Server.ERROR
     <-> exists message, Server.error r = Some message)
    /\ (Server.request_type r = Server.FETCH_ARCHIVE_RECORDS ->
        exists since, Server.since_ts r = Some since)
    /\ (Server.request_type r <> Server.FETCH_ARCHIVE_RECORDS ->
        Server.request_type r <> Server.ERROR ->
        Server.since_ts r = None /\ Server.max_ts r = None
        /\ Server.limit r = None).
Proof.
  intros line r. unfold Server.parse_requestline.
  destruct (item (split " " line) 1) as [request|]; [|discriminate].
  cbn [bind].
  destruct (if has_char "?" request
            then cmd <- item (split "?" request) 0 ;;
                 args <- item (split "?" request) 1 ;; Ok (cmd, args)
            else Ok (request, "")) as [[cmd args]|]; [|discriminate].
  cbn [bind].
  destruct (Server.parse_args args) as [d|]; [|discriminate]. cbn [bind].
  destruct (String.eqb cmd "/get-version");
    [intros [= <-]; cbn; intuition (try discriminate; try congruence);
     destruct H as [? H]; discriminate|].
  destruct (String.eqb cmd "/get-earliest-timestamp");
    [intros [= <-]; cbn; intuition (try discriminate; try congruence);
     destruct H as [? H]; discriminate|].
  destruct (String.eqb cmd "/v1/current_conditions");
    [intros [= <-]; cbn; intuition (try discriminate; try congruence);
     destruct H as [? H]; discriminate|].
  destruct (String.eqb cmd "/fetch-archive-records").
  - cbn [Server.v_type]. unfold Server.on_key, Server.parse_since,
      Server.parse_max, Server.parse_limit.
    destruct (dict_get "since_ts" d) as [a|];
      [|intros [= <-]; cbn; intuition (try discriminate; eauto)].
    destruct (py_int a), (dict_get "max_ts" d) as [b|];
      try destruct (py_int b); destruct (dict_get "limit" d) as [c|];
      try destruct (py_int c);
      intros [= <-]; cbn;
      (split; [split; [intros; try discriminate; eauto
                      | intros [? H]; try discriminate; reflexivity]
              | split; [intros; try discriminate; eauto
                       | intros; congruence]]).
  - destruct (String.eqb cmd "/"); intros [= <-]; cbn;
      intuition (try discriminate; try congruence; eauto).
Qed.

Lemma request_invariants_witness :
  exists r,
    Server.parse_requestline
      "GET /fetch-archive-records?since_ts=5,limit=ten HTTP/1.1" = Ok r
    /\ (Server.request_type r = Server.ERROR
        <-> exists message, Server.error r = Some message).
Proof.
  eexists. split; [reflexivity|].
  apply (request_invariants
           "GET /fetch-archive-records?since_ts=5,limit=ten HTTP/1.1").
  reflexivity.
Defined.

(* ------------------------------------------------------------------ *)
(** ** The scheduler in integers *)

Module TickFacts.
Import Scheduler SchedulerFacts.

Lemma Qfloor_div_Z x d : 0 < d -> Qfloor (x / inject_Z d) = Qfloor x / d.
Proof.
  intros Hd. destruct x as [n m]. destruct d as [|p|p]; try lia.
  unfold Qdiv, Qmult, Qinv, inject_Z, Qfloor. cbn [Qnum Qden].
  rewrite Z.mul_1_r, Pos2Z.inj_mul, Z.div_div by lia. reflexivity.
Qed.

Lemma Qfloor_minus_Z x n : Qfloor (x - inject_Z n) = Qfloor x - n.
Proof.
  destruct x as [a d].
  unfold Qminus, Qplus, Qopp, inject_Z, Qfloor. cbn [Qnum Qden].
  rewrite Pos.mul_1_r, Z.mul_1_r, Z.div_add by lia. lia.
Qed.

Lemma Qfloor_plus_Z x n : Qfloor (x + inject_Z n) = Qfloor x + n.
Proof.
  destruct x as [a d].
  unfold Qplus, inject_Z, Qfloor. cbn [Qnum Qden].
  rewrite Pos.mul_1_r, Z.mul_1_r, Z.div_add by lia. lia.
Qed.

Lemma Qfloor_nonneg x : (0 <= x)%Q -> 0 <= Qfloor x.
Proof.
  intros H. rewrite <- (Qfloor_Z 0). now apply Qfloor_resp_le.
Qed.

Lemma div_nonneg x d : 0 < d -> (0 <= x)%Q -> (0 <= x / inject_Z d)%Q.
Proof.
  intros Hd Hx. apply Qle_shift_div_l; [now apply inject_Z_pos|].
  now rewrite Qmult_0_l.
Qed.

(** [int(x / d) ] for a time [x] that is not negative. *)
Lemma trunc_div x d :
  0 < d -> (0 <= x)%Q -> py_trunc (x / inject_Z d) = Qfloor x / d.
Proof.
  intros Hd Hx. rewrite py_trunc_floor by now apply div_nonneg.
  now apply Qfloor_div_Z.
Qed.

Lemma next_poll_event_Z self now :
  0 < pollfreq_secs self -> (0 <= now)%Q ->
  next_poll_event self now
  = Ok (Qfloor now / pollfreq_secs self * pollfreq_secs self
        + pollfreq_secs self).
Proof.
  intros Hp Hnow. unfold next_poll_event. rewrite (py_div_pos _ _ Hp).
  cbn [bind]. now rewrite trunc_div.
Qed.

Lemma next_arc_event_Z self now :
  0 < arcint_secs self -> (inject_Z (pollfreq_offset self) <= now)%Q ->
  next_arc_event self now
  = Ok ((Qfloor now - pollfreq_offset self) / arcint_secs self
        * arcint_secs self + arcint_secs self + pollfreq_offset self).
Proof.
  intros Ha Hnow. unfold next_arc_event. rewrite (py_div_pos _ _ Ha).
  cbn [bind]. rewrite trunc_div, Qfloor_minus_Z; [reflexivity | exact Ha |].
  apply (Qplus_le_l _ _ (inject_Z (pollfreq_offset self))). ring_simplify.
  exact Hnow.
Qed.

Lemma archive_ts_Z self now :
  0 < arcint_secs self -> (-5 <= now)%Q ->
  Loop.archive_ts self now
  = Ok ((Qfloor now + 5) / arcint_secs self * arcint_secs self).
Proof.
  intros Ha Hnow. unfold Loop.archive_ts. rewrite (py_div_pos _ _ Ha).
  cbn [bind]. rewrite trunc_div; [|exact Ha|].
  - change 5%Q with (inject_Z 5). now rewrite Qfloor_plus_Z.
  - apply (Qplus_le_l _ _ (-5)). ring_simplify. exact Hnow.
Qed.

(** A time lies between its floor and the next integer. *)
Lemma floor_bracket x :
  (inject_Z (Qfloor x) <= x /\ x < inject_Z (Qfloor x + 1))%Q.
Proof. split; [apply Qfloor_le | apply Qlt_floor]. Qed.

(** The multiple of [d] at or below [f] and the next one. *)
Lemma multiple_bracket f d :
  0 < d -> f / d * d <= f < f / d * d + d.
Proof.
  intros Hd. pose proof (Z.div_mod f d) as E.
  pose proof (Z.mod_pos_bound f d Hd). lia.
Qed.

(** The poll tick equals the archive tick exactly when it lies on an
    archive boundary. *)
Lemma ticks_meet f p a off :
  0 < p -> p <= a ->
  (f / p * p + p = (f - off) / a * a + a + off
   <-> (f / p * p + p - off) mod a = 0).
Proof.
  intros Hp Hpa.
  assert (Ha : 0 < a) by lia.
  pose proof (multiple_bracket f p Hp) as Bp.
  pose proof (multiple_bracket (f - off) a Ha) as Ba.
  split.
  - intros ->. replace ((f - off) / a * a + a + off - off)
      with (((f - off) / a + 1) * a) by ring.
    apply Z.mod_mul. lia.
  - intros Hm. apply Z.mod_divide in Hm; [|lia]. destruct Hm as [k Hk].
    set (qa := (f - off) / a) in *.
    assert (qa < k) by nia.
    assert (k < qa + 2) by nia.
    assert (k = qa + 1) by lia. subst k. lia.
Qed.

End TickFacts.

(** X8. For a positive poll interval and a time that is not negative,
    [compute_next_event] returns, and the sleep it asks for is positive and
    at most one poll interval: it ends at the smallest multiple of the poll
    interval that is strictly after [now].  [sleep] is never handed a
    negative number. *)
Theorem sleep_is_positive_and_bounded :
  forall (self : Scheduler.Service) (now : Q),
    0 < Scheduler.pollfreq_secs self ->
    Scheduler.arcint_secs self <> 0 ->
    (0 <= now)%Q ->
    exists event next_poll,
      Scheduler.compute_next_event self now
        = Ok (event, (inject_Z next_poll - now)%Q)
      /\ Scheduler.smallest_boundary_above
           (Scheduler.pollfreq_secs self) 0 now next_poll
      /\ (0 < inject_Z next_poll - now)%Q
      /\ (inject_Z next_poll - now <= inject_Z (Scheduler.pollfreq_secs self))%Q.
Proof.
  intros self now Hp Ha Hnow.
  destruct (SchedulerFacts.next_poll_event_smallest self now Hp Hnow)
    as (np & Hnp & Hsmall).
  assert (Hv : np = Qfloor now / Scheduler.pollfreq_secs self
                    * Scheduler.pollfreq_secs self
                    + Scheduler.pollfreq_secs self).
  { rewrite (TickFacts.next_poll_event_Z self now Hp Hnow) in Hnp.
    now injection Hnp. }
  unfold Scheduler.compute_next_event. rewrite Hnp. cbn [bind].
  unfold Scheduler.next_arc_event, py_div.
  destruct (Z.eqb_spec (Scheduler.arcint_secs self) 0); [contradiction|].
  cbn [bind]. do 2 eexists. split; [reflexivity|]. split; [exact Hsmall|].
  destruct Hsmall as (_ & Habove & _). split.
  - apply (Qplus_lt_l _ _ now). ring_simplify. exact Habove.
  - apply (Qplus_le_l _ _ (now - inject_Z (Scheduler.pollfreq_secs self))).
    ring_simplify.
    eapply Qle_trans; [|apply (Qfloor_le now)].
    rewrite <- inject_Z_opp, <- inject_Z_plus, <- Zle_Qle.
    pose proof (TickFacts.multiple_bracket (Qfloor now) _ Hp). lia.
Qed.

Lemma sleep_is_positive_and_bounded_witness :
  exists event next_poll,
    Scheduler.compute_next_event sample_service 1600657321.75
      = Ok (event, (inject_Z next_poll - 1600657321.75)%Q)
    /\ (0 < inject_Z next_poll - 1600657321.75)%Q.
Proof.
  destruct (sleep_is_positive_and_bounded sample_service 1600657321.75)
    as (event & np & H & _ & Hpos & _).
  - reflexivity.
  - discriminate.
  - discriminate.
  - exists event, np. split; [exact H | exact Hpos].
Defined.

(** X9. For a poll interval that is positive and not longer than the
    archive interval and a time not before the offset (nor negative), the
    event is Archive exactly when the coming poll tick lies on an archive
    boundary, a multiple of the archive interval plus the offset, and Poll
    otherwise. *)
Theorem archive_event_on_boundary :
  forall (self : Scheduler.Service) (now : Q),
    0 < Scheduler.pollfreq_secs self ->
    Scheduler.pollfreq_secs self <= Scheduler.arcint_secs self ->
    (inject_Z (Scheduler.pollfreq_offset self) <= now)%Q ->
    (0 <= now)%Q ->
    exists next_poll secs,
      Scheduler.next_poll_event self now = Ok next_poll
      /\ Scheduler.compute_next_event self now
         = Ok (if (next_poll - Scheduler.pollfreq_offset self)
                    mod Scheduler.arcint_secs self =? 0
               then ARCHIVE else POLL, secs).
Proof.
  intros self now Hp Hpa Hoff Hnow.
  assert (Ha : 0 < Scheduler.arcint_secs self) by lia.
  unfold Scheduler.compute_next_event.
  rewrite (TickFacts.next_poll_event_Z self now Hp Hnow),
    (TickFacts.next_arc_event_Z self now Ha Hoff).
  cbn [bind]. do 2 eexists. split; [reflexivity|].
  do 2 f_equal.
  pose proof (TickFacts.ticks_meet (Qfloor now) _ _
                (Scheduler.pollfreq_offset self) Hp Hpa) as M.
  destruct (Z.eqb_spec
              (Qfloor now / Scheduler.pollfreq_secs self
               * Scheduler.pollfreq_secs self + Scheduler.pollfreq_secs self)
              ((Qfloor now - Scheduler.pollfreq_offset self)
               / Scheduler.arcint_secs self * Scheduler.arcint_secs self
               + Scheduler.arcint_secs self + Scheduler.pollfreq_offset self))
    as [E|E];
    destruct (Z.eqb_spec
                ((Qfloor now / Scheduler.pollfreq_secs self
                  * Scheduler.pollfreq_secs self
                  + Scheduler.pollfreq_secs self
                  - Scheduler.pollfreq_offset self)
                 mod Scheduler.arcint_secs self) 0) as [F|F];
    try reflexivity; tauto.
Qed.

Lemma archive_event_on_boundary_witness :
  exists secs,
    Scheduler.compute_next_event sample_service 1600657331.5
    = Ok (POLL, secs).
Proof.
  destruct (archive_event_on_boundary sample_service 1600657331.5)
    as (np & secs & Hnp & H).
  - reflexivity.
  - cbn. lia.
  - discriminate.
  - discriminate.
  - exists secs. rewrite H. injection Hnp as <-. reflexivity.
Defined.

(** X10. With the timing that [Service.__init__] sets (poll 5 s, offset
    5 s, archive 60 s) and a time from 5 s on, the event is Archive exactly
    when [now] lies in the first five seconds of a minute, and Poll in the
    other eleven five-second windows: one tick in twelve is an archive
    tick. *)
Theorem one_tick_in_twelve_is_archive :
  forall (hostname : string) (port timeout_secs : Z) (database : string)
         (now : Q),
    (5 <= now)%Q ->
    exists secs,
      Scheduler.compute_next_event
        (Scheduler.Service_init hostname port timeout_secs database) now
      = Ok (if Qfloor now mod 60 <? 5 then ARCHIVE else POLL, secs).
Proof.
  intros hostname port timeout_secs database now Hnow.
  set (self := Scheduler.Service_init hostname port timeout_secs database).
  assert (H0 : (0 <= now)%Q) by (eapply Qle_trans; [|exact Hnow]; discriminate).
  unfold Scheduler.compute_next_event.
  rewrite (TickFacts.next_poll_event_Z self now) by (try reflexivity; assumption).
  rewrite (TickFacts.next_arc_event_Z self now) by (try reflexivity; assumption).
  cbn [bind self Scheduler.Service_init Scheduler.pollfreq_secs
       Scheduler.arcint_secs Scheduler.pollfreq_offset].
  eexists. do 2 f_equal.
  set (f := Qfloor now).
  destruct (Z.eqb_spec (f / 5 * 5 + 5) ((f - 5) / 60 * 60 + 60 + 5));
    destruct (Z.ltb_spec (f mod 60) 5); try reflexivity; exfalso;
    pose proof (Z.div_mod f 5); pose proof (Z.mod_pos_bound f 5);
    pose proof (Z.div_mod (f - 5) 60); pose proof (Z.mod_pos_bound (f - 5) 60);
    pose proof (Z.div_mod f 60); pose proof (Z.mod_pos_bound f 60); lia.
Qed.

Lemma one_tick_in_twelve_is_archive_witness :
  exists secs,
    Scheduler.compute_next_event sample_service 1600657324.5
    = Ok (ARCHIVE, secs).
Proof.
  destruct (one_tick_in_twelve_is_archive "airlink" 80 15
              "/home/airlinkproxy/archive/airlinkproxy.sdb" 1600657324.5)
    as [secs H].
  - discriminate.
  - exists secs. exact H.
Defined.

(** X11. The timestamp of the archive record.  When the archive tick that
    the scheduler computed is [next_arc] and the loop computes [archive_ts]
    at a time from [offset + 5] seconds before that tick up to less than one
    archive interval later, [archive_ts] is [next_arc - offset]: the
    multiple of the archive interval that the tick stands for. *)
Theorem archive_ts_is_the_boundary :
  forall (self : Scheduler.Service) (now saved_at : Q) (next_arc : Z),
    0 < Scheduler.arcint_secs self ->
    (inject_Z (Scheduler.pollfreq_offset self) <= now)%Q ->
    Scheduler.next_arc_event self now = Ok next_arc ->
    (inject_Z (next_arc - Scheduler.pollfreq_offset self - 5) <= saved_at)%Q ->
    (saved_at < inject_Z (next_arc - Scheduler.pollfreq_offset self - 5
                          + Scheduler.arcint_secs self))%Q ->
    Loop.archive_ts self saved_at
      = Ok (next_arc - Scheduler.pollfreq_offset self)
    /\ (Scheduler.arcint_secs self | next_arc - Scheduler.pollfreq_offset self).
Proof.
  intros self now w na Ha Hoff Hna Hlo Hhi.
  rewrite (TickFacts.next_arc_event_Z self now Ha Hoff) in Hna.
  injection Hna as <-.
  set (a := Scheduler.arcint_secs self) in *.
  set (off := Scheduler.pollfreq_offset self) in *.
  set (f := Qfloor now) in *.
  assert (Hf : off <= f).
  { unfold f. rewrite <- (Qfloor_Z off). now apply Qfloor_resp_le. }
  pose proof (TickFacts.multiple_bracket (f - off) a Ha) as Bf.
  assert (Hq : 0 <= (f - off) / a) by (apply Z.div_pos; lia).
  set (m := (f - off) / a) in *.
  replace (m * a + a + off - off) with ((m + 1) * a) in * by ring.
  assert (Glo : (m + 1) * a - 5 <= Qfloor w).
  { rewrite <- (Qfloor_Z ((m + 1) * a - 5)). now apply Qfloor_resp_le. }
  assert (Ghi : Qfloor w < (m + 1) * a - 5 + a).
  { rewrite Zlt_Qlt. eapply Qle_lt_trans; [apply Qfloor_le | exact Hhi]. }
  assert (Hw : (-5 <= w)%Q).
  { eapply Qle_trans; [|exact Hlo]. change (-5)%Q with (inject_Z (-5)).
    rewrite <- Zle_Qle. nia. }
  split; [|exists (m + 1); reflexivity].
  rewrite (TickFacts.archive_ts_Z self w Ha Hw). fold a. f_equal.
  assert (E : (Qfloor w + 5) / a = m + 1).
  { symmetry. apply (Z.div_unique_pos _ _ _ (Qfloor w + 5 - (m + 1) * a));
      lia. }
  now rewrite E.
Qed.

Lemma archive_ts_is_the_boundary_witness :
  Loop.archive_ts sample_service 1600657325.02 = Ok 1600657320.
Proof.
  apply (archive_ts_is_the_boundary sample_service 1600657321.75
           1600657325.02 1600657325).
  - reflexivity.
  - discriminate.
  - reflexivity.
  - discriminate.
  - reflexivity.
Defined.

(** X12. The service that [start] hands to the loop polls every 5 s with
    offset 5 s and archives every 60 s, whatever [poll-freq-secs],
    [poll-freq-offset] and [archive-interval-secs] the configuration file
    gives: [start] checks them and [Service.__init__] does not take them.
    Host, port, timeout and database are those of the configuration. *)
Theorem configured_intervals_are_not_used :
  forall (c : Scheduler.Config) (svc : Scheduler.Service),
    Scheduler.start c = Scheduler.EnteredLoop svc ->
    Scheduler.pollfreq_secs svc = 5
    /\ Scheduler.pollfreq_offset svc = 5
    /\ Scheduler.arcint_secs svc = 60
    /\ Scheduler.cfg_hostname c = Some (Scheduler.hostname svc)
    /\ Scheduler.cfg_db_file c = Some (Scheduler.database svc)
    /\ Scheduler.port svc = Scheduler.cfg_port c
    /\ Scheduler.timeout_secs svc = Scheduler.cfg_timeout_secs c.
Proof.
  intros c svc. unfold Scheduler.start.
  destruct (Scheduler.opt_test c), (Scheduler.opt_dump c);
    cbn [andb]; try discriminate;
    try (destruct (Scheduler.falsy _); discriminate).
  destruct (Scheduler.falsy (Scheduler.cfg_hostname c)); [discriminate|].
  destruct (Scheduler.falsy (Scheduler.cfg_db_file c)); [discriminate|].
  destruct (Scheduler.cfg_pollfreq_secs c =? 0); [discriminate|].
  destruct (negb _); [discriminate|].
  destruct (Scheduler.cfg_hostname c), (Scheduler.cfg_db_file c);
    try discriminate.
  intros [= <-]. repeat split.
Qed.

Lemma configured_intervals_are_not_used_witness :
  Scheduler.pollfreq_secs sample_service = 5
  /\ Scheduler.arcint_secs sample_service = 60.
Proof.
  destruct (configured_intervals_are_not_used
              (Scheduler.mkConfig false false (Some "airlink") 80 15 10 0 300
                 (Some "/home/airlinkproxy/archive/airlinkproxy.sdb"))
              sample_service) as (Hp & _ & Ha & _).
  - reflexivity.
  - split; [exact Hp | exact Ha].
Defined.

(* ------------------------------------------------------------------ *)
(** ** Invariants of the table *)

Module KeyFacts.
Import Sqlite Store Database Keys.






(** A save fails and leaves the table, or appends one row under its key
    to the cleared table, where the key was free. *)
Lemma save_reading_cases db rt ts r :
  int64 rt = true -> int64 ts = true -> writable r ->
  (exists e, save_reading db rt ts r = (db, Raise e))
  \/ exists cs,
      save_reading db rt ts r = ((cleared db rt ++ [mkRow rt ts cs])%list, Ok tt)
      /\ has_key rt ts (cleared db rt) = false.
Proof. apply StoreProofs.save_reading_any. Qed.

Lemma current_rows_app (a b : Table) :
  current_rows (a ++ b)%list = (current_rows a ++ current_rows b)%list.
Proof. apply filter_app. Qed.

Lemma archive_rows_cleared db rt : archive_rows (cleared db rt) = archive_rows db.
Proof.
  unfold cleared. destruct (rt =? RecordType.CURRENT); [|reflexivity].
  apply SaveFacts.archive_rows_delete_current.
Qed.

(** The Archive rows after a save of the current reading. *)
Lemma archive_rows_save_current db r :
  writable r ->
  archive_rows (fst (save_current_reading db r)) = archive_rows db.
Proof.
  intros Hw. unfold save_current_reading.
  destruct (ts r) as [t|] eqn:Hts; [|reflexivity].
  destruct (save_reading_cases db RecordType.CURRENT t r eq_refl
              (RowFacts.writable_ts r t Hw Hts) Hw)
    as [[e ->]|(cs & -> & _)]; cbn [fst]; [reflexivity|].
  rewrite StoreProofs.archive_rows_app, archive_rows_cleared.
  cbn. now rewrite app_nil_r.
Qed.

(** The Archive rows after a save of an archive reading. *)
Lemma archive_rows_save_archive db t r :
  int64 t = true -> writable r ->
  archive_rows (fst (save_archive_reading db t r)) = archive_rows db
  \/ exists cs,
      archive_rows (fst (save_archive_reading db t r))
      = (archive_rows db ++ [mkRow RecordType.ARCHIVE t cs])%list.
Proof.
  intros H64 Hw. unfold save_archive_reading.
  destruct (save_reading_cases db RecordType.ARCHIVE t r eq_refl H64 Hw)
    as [[e ->]|(cs & -> & _)]; cbn [fst]; [now left|].
  right. exists cs. now rewrite StoreProofs.archive_rows_app, archive_rows_cleared.
Qed.

End KeyFacts.

(** X13. A save is all or nothing.  For a reading whose text fields hold
    no double quote and no NUL character and whose integer fields lie within
    64 bits, under a key within 64 bits, [save_reading] either raises and
    leaves the table as it was, the DELETE of a save of the current reading
    undone with it, or it adds exactly one row under the key of the save to
    the table (without its Current rows, for a save of the current reading),
    where that key was free. *)
Theorem save_is_all_or_nothing :
  forall (db db' : Sqlite.Table) (record_type timestamp : Z) (r : Reading)
         (res : result unit),
    Store.in_int64 record_type ->
    Store.in_int64 timestamp ->
    Store.writable r ->
    Database.save_reading db record_type timestamp r = (db', res) ->
    (forall e, res = Raise e -> db' = db)
    /\ (res = Ok tt ->
        Sqlite.has_key record_type timestamp (Keys.cleared db record_type)
          = false
        /\ exists cs,
            db' = (Keys.cleared db record_type
                   ++ [Sqlite.mkRow record_type timestamp cs])%list).
Proof.
  intros db db' rt ts r res Hrt Hts Hw H.
  destruct (KeyFacts.save_reading_cases db rt ts r Hrt Hts Hw)
    as [[e E]|(cs & E & Hfree)]; rewrite E in H; injection H as <- <-.
  - split; [reflexivity | discriminate].
  - split; [discriminate|]. intros _. split; [exact Hfree|]. now exists cs.
Qed.

Lemma save_is_all_or_nothing_witness :
  exists cs,
    fst (Database.save_reading sample_store RecordType.ARCHIVE 1600657440
           test_reading)
    = (Keys.cleared sample_store RecordType.ARCHIVE
       ++ [Sqlite.mkRow RecordType.ARCHIVE 1600657440 cs])%list.
Proof.
  destruct (save_is_all_or_nothing sample_store
              (fst (Database.save_reading sample_store RecordType.ARCHIVE
                      1600657440 test_reading))
              RecordType.ARCHIVE 1600657440 test_reading (Ok tt)) as [_ H].
  - reflexivity.
  - reflexivity.
  - unfold Store.writable, Store.texts, Store.ints. holds.
  - vm_compute. reflexivity.
  - destruct (H eq_refl) as [_ Hcs]. exact Hcs.
Defined.



(** X15. The Current rows, for readings whose text fields hold no double
    quote and no NUL character and whose integer fields lie within 64 bits.
    A save of an archive reading, under a timestamp within 64 bits, leaves
    them as they are.  A save of the current reading that succeeds leaves
    exactly one, under the reading's own [ts]; one that fails leaves those
    that were there. *)
Theorem one_current_row :
  (forall (db : Sqlite.Table) (timestamp : Z) (r : Reading),
      Store.in_int64 timestamp -> Store.writable r ->
      Store.current_rows (fst (Database.save_archive_reading db timestamp r))
      = Store.current_rows db)
  /\ (forall (db db' : Sqlite.Table) (r : Reading),
        Store.writable r ->
        Database.save_current_reading db r = (db', Ok tt) ->
        exists t cs,
          ts r = Some t
          /\ Store.current_rows db' = [Sqlite.mkRow RecordType.CURRENT t cs])
  /\ (forall (db db' : Sqlite.Table) (r : Reading) (e : exn),
        Store.writable r ->
        Database.save_current_reading db r = (db', Raise e) -> db' = db).
Proof.
  split; [|split].
  - intros db t r H64 Hw. unfold Database.save_archive_reading.
    destruct (KeyFacts.save_reading_cases db RecordType.ARCHIVE t r
                eq_refl H64 Hw)
      as [[e ->]|(cs & -> & _)]; cbn [fst]; [reflexivity|].
    rewrite KeyFacts.current_rows_app. cbn. now rewrite app_nil_r.
  - intros db db' r Hw. unfold Database.save_current_reading.
    destruct (ts r) as [t|] eqn:Hts; [|discriminate].
    destruct (KeyFacts.save_reading_cases db RecordType.CURRENT t r
                eq_refl (RowFacts.writable_ts r t Hw Hts) Hw)
      as [[e ->]|(cs & -> & _)]; [discriminate|].
    intros [= <-]. exists t, cs. split; [reflexivity|].
    rewrite KeyFacts.current_rows_app. unfold Keys.cleared.
    rewrite Z.eqb_refl, SaveFacts.current_rows_delete_current. reflexivity.
  - intros db db' r e Hw. unfold Database.save_current_reading.
    destruct (ts r) as [t|] eqn:Hts; [|now intros [= <-]].
    destruct (KeyFacts.save_reading_cases db RecordType.CURRENT t r
                eq_refl (RowFacts.writable_ts r t Hw Hts) Hw)
      as [[e' ->]|(cs & -> & _)]; [now intros [= <-] | discriminate].
Qed.

Lemma one_current_row_witness :
  exists t cs,
    ts test_reading = Some t
    /\ Store.current_rows
         (fst (Database.save_current_reading sample_store test_reading))
       = [Sqlite.mkRow RecordType.CURRENT t cs].
Proof.
  destruct one_current_row as (_ & H & _).
  apply (H sample_store).
  - unfold Store.writable, Store.texts, Store.ints. holds.
  - vm_compute. reflexivity.
Defined.

(* ------------------------------------------------------------------ *)
(** ** The main loop *)

Module LoopFacts.
Import Sqlite Store Scheduler Loop.

(** For a positive poll interval and a time that is not negative the
    scheduler returns and the sleep is not negative. *)
Lemma compute_next_event_sleeps self now :
  0 < pollfreq_secs self -> arcint_secs self <> 0 -> (0 <= now)%Q ->
  exists event secs,
    compute_next_event self now = Ok (event, secs)
    /\ Qle_bool 0 secs = true.
Proof.
  intros Hp Ha Hnow. unfold compute_next_event.
  rewrite (TickFacts.next_poll_event_Z self now Hp Hnow). cbn [bind].
  unfold next_arc_event, py_div.
  destruct (Z.eqb_spec (arcint_secs self) 0); [contradiction|].
  cbn [bind]. do 2 eexists. split; [reflexivity|].
  apply Qle_bool_iff.
  apply (Qplus_le_l _ _ now). ring_simplify.
  eapply Qle_trans; [apply Qlt_le_weak, Qlt_floor|].
  rewrite <- Zle_Qle.
  pose proof (TickFacts.multiple_bracket (Qfloor now) _ Hp). lia.
Qed.

Lemma archive_ts_returns self saved_at :
  arcint_secs self <> 0 ->
  exists ts, archive_ts self saved_at = Ok ts.
Proof.
  intros Ha. unfold archive_ts, py_div.
  destruct (Z.eqb_spec (arcint_secs self) 0); [contradiction|].
  cbn [bind]. eexists. reflexivity.
Qed.

Lemma archive_ts_multiple self saved_at ts :
  archive_ts self saved_at = Ok ts -> (arcint_secs self | ts).
Proof.
  unfold archive_ts, py_div. destruct (arcint_secs self =? 0); [discriminate|].
  cbn [bind]. intros [= <-]. apply Z.divide_factor_r.
Qed.

(** An iteration that finds [reading] unassigned leaves the loop. *)
Lemma iteration_unbound self now c saved_at st :
  0 < pollfreq_secs self -> arcint_secs self <> 0 -> (0 <= now)%Q ->
  found c st = Unbound ->
  iteration self now c saved_at st = Escapes UnboundLocalError.
Proof.
  intros Hp Ha Hnow Hf. unfold iteration.
  destruct (compute_next_event_sleeps self now Hp Ha Hnow)
    as (event & secs & -> & ->).
  cbn [negb]. now rewrite Hf.
Qed.

(** An iteration that finds [reading] assigned goes on, with [reading]
    as it found it. *)
Lemma iteration_bound self now c saved_at st r :
  0 < pollfreq_secs self -> arcint_secs self <> 0 -> (0 <= now)%Q ->
  found c st = Bound r ->
  exists st',
    iteration self now c saved_at st = Continues st'
    /\ reading_var st' = Bound r.
Proof.
  intros Hp Ha Hnow Hf. unfold iteration.
  destruct (compute_next_event_sleeps self now Hp Ha Hnow)
    as (event & secs & -> & ->).
  cbn [negb]. rewrite Hf.
  destruct r as [reading|]; [|eexists; split; reflexivity].
  destruct event; [eexists; split; reflexivity|].
  destruct (archive_ts_returns self saved_at Ha) as [ts ->].
  eexists; split; reflexivity.
Qed.

Lemma run_bound self ticks st r :
  0 < pollfreq_secs self -> arcint_secs self <> 0 ->
  Forall (fun t => (0 <= tick_now t)%Q) ticks ->
  reading_var st = Bound r ->
  exists st', run self ticks st = Continues st'.
Proof.
  intros Hp Ha Hall. revert st r.
  induction Hall as [|t rest Ht _ IH]; intros st r Hr; cbn [run]; [eauto|].
  assert (Hf : exists r', found (tick_collected t) st = Bound r')
    by (unfold found; destruct (tick_collected t); eauto).
  destruct Hf as [r' Hf].
  destruct (iteration_bound self _ _ (tick_saved_at t) st r' Hp Ha Ht Hf)
    as (st' & -> & Hr').
  now apply (IH st' r').
Qed.

(** The timestamp of the archive record is within 64 bits for a clock
    below [2^62]. *)
Lemma archive_ts_int64 self saved_at ts :
  0 < arcint_secs self ->
  (0 <= saved_at)%Q -> (saved_at <= 4611686018427387904)%Q ->
  archive_ts self saved_at = Ok ts -> int64 ts = true.
Proof.
  intros Ha H0 H1.
  rewrite (TickFacts.archive_ts_Z self saved_at Ha)
    by (eapply Qle_trans; [|exact H0]; discriminate).
  intros [= <-].
  assert (F0 : 0 <= Qfloor saved_at) by now apply TickFacts.Qfloor_nonneg.
  assert (F1 : Qfloor saved_at <= 4611686018427387904).
  { rewrite <- (Qfloor_Z 4611686018427387904). now apply Qfloor_resp_le. }
  pose proof (TickFacts.multiple_bracket (Qfloor saved_at + 5) _ Ha) as B.
  assert (0 <= (Qfloor saved_at + 5) / arcint_secs self)
    by (apply Z.div_pos; lia).
  unfold int64. apply andb_true_iff. split; [apply Z.leb_le | apply Z.leb_le];
    nia.
Qed.

(** What an iteration that goes on has done to the Archive rows. *)
Lemma iteration_archive_rows self now c saved_at st st' :
  0 < arcint_secs self ->
  (0 <= saved_at)%Q -> (saved_at <= 4611686018427387904)%Q ->
  local_holds writable (found c st) ->
  iteration self now c saved_at st = Continues st' ->
  reading_var st' = found c st
  /\ (archive_rows (store st') = archive_rows (store st)
      \/ exists ts cs,
          archive_ts self saved_at = Ok ts
          /\ archive_rows (store st')
             = (archive_rows (store st)
                ++ [mkRow RecordType.ARCHIVE ts cs])%list).
Proof.
  intros Ha H0 H1 Hw. unfold iteration.
  destruct (compute_next_event self now) as [[event secs]|]; [|discriminate].
  destruct (negb (Qle_bool 0 secs)); [discriminate|].
  destruct (found c st) as [|[reading|]]; [discriminate| |].
  - cbn [local_holds] in Hw. destruct event.
    + intros [= <-]. cbn [store reading_var]. split; [reflexivity|]. left.
      now apply KeyFacts.archive_rows_save_current.
    + destruct (archive_ts self saved_at) as [ts|] eqn:Ets; [|discriminate].
      intros [= <-]. cbn [store reading_var]. split; [reflexivity|].
      pose proof (archive_ts_int64 _ _ _ Ha H0 H1 Ets) as H64.
      destruct (KeyFacts.archive_rows_save_archive
                  (fst (Database.save_current_reading (store st) reading))
                  ts reading H64 Hw) as [E|[cs E]];
        rewrite E, (KeyFacts.archive_rows_save_current _ _ Hw);
        [now left | right].
      now exists ts, cs.
  - intros [= <-]. split; [reflexivity | now left].
Qed.


End LoopFacts.

(** X17. The loop is left by an exception exactly when the [try] of its
    first iteration raises: the [except] clause then reads the local
    [reading] before any assignment to it ([UnboundLocalError]).  Once an
    iteration has assigned [reading], no later iteration leaves the loop,
    whatever the requests and the saves do. *)
Theorem first_failure_leaves_the_loop :
  forall (self : Scheduler.Service) (ticks : list Loop.tick)
         (db : Sqlite.Table) (e : Loop.escaped),
    0 < Scheduler.pollfreq_secs self ->
    Scheduler.arcint_secs self <> 0 ->
    Forall (fun t => (0 <= Loop.tick_now t)%Q) ticks ->
    (Loop.run self ticks (Loop.mkState Loop.Unbound db) = Loop.Escapes e
     <-> e = Loop.UnboundLocalError
         /\ exists t rest,
             ticks = t :: rest /\ Loop.tick_collected t = Loop.Raised).
Proof.
  intros self ticks db e Hp Ha Hall.
  destruct Hall as [|t rest Ht Hrest]; cbn [Loop.run].
  - split; [discriminate|]. intros (_ & t & rest & H & _). discriminate.
  - destruct (Loop.tick_collected t) as [|r] eqn:Hc.
    + rewrite (LoopFacts.iteration_unbound self _ _ _ _ Hp Ha Ht)
        by reflexivity.
      split.
      * intros [= <-]. split; [reflexivity|]. now exists t, rest.
      * now intros [-> _].
    + destruct (LoopFacts.iteration_bound self (Loop.tick_now t)
                  (Loop.Returned r) (Loop.tick_saved_at t)
                  (Loop.mkState Loop.Unbound db) r Hp Ha Ht eq_refl)
        as (st' & -> & Hr).
      destruct (LoopFacts.run_bound self rest st' r Hp Ha Hrest Hr)
        as [st'' ->].
      split; [discriminate|].
      intros (_ & t' & rest' & [= <- <-] & H). congruence.
Qed.

Lemma first_failure_leaves_the_loop_witness :
  Loop.run sample_service
    [Loop.mkTick 1600657321.75 Loop.Raised 1600657325.02;
     Loop.mkTick 1600657325.03 (Loop.Returned None) 1600657330.01]
    (Loop.mkState Loop.Unbound [])
  = Loop.Escapes Loop.UnboundLocalError.
Proof.
  apply (first_failure_leaves_the_loop sample_service
           [Loop.mkTick 1600657321.75 Loop.Raised 1600657325.02;
            Loop.mkTick 1600657325.03 (Loop.Returned None) 1600657330.01]
           [] Loop.UnboundLocalError).
  - reflexivity.
  - discriminate.
  - repeat constructor; discriminate.
  - split; [reflexivity|]. eexists _, _. split; reflexivity.
Defined.



(** X19. The loop only appends to the Archive rows.  Take iterations whose
    readings have text fields without double quote and NUL character and
    integer fields within 64 bits, on clocks that are not negative and below
    [2^62], for a positive archive interval.  After any number of them the
    Archive rows are those before, followed by at most one new row per
    iteration, each under a multiple of the archive interval; an iteration
    that collected no reading leaves the whole table as it was. *)
Theorem loop_appends_archive_rows_on_boundaries :
  forall (self : Scheduler.Service) (ticks : list Loop.tick)
         (st st' : Loop.state),
    0 < Scheduler.arcint_secs self ->
    Forall Loop.tame ticks ->
    Loop.local_holds Store.writable (Loop.reading_var st) ->
    Loop.run self ticks st = Loop.Continues st' ->
    (exists appended,
        Store.archive_rows (Loop.store st')
        = (Store.archive_rows (Loop.store st) ++ appended)%list
        /\ (List.length appended <= List.length ticks)%nat
        /\ Loop.on_boundaries (Scheduler.arcint_secs self) appended)
    /\ (forall now saved_at st1 st2,
          Loop.iteration self now (Loop.Returned None) saved_at st1
            = Loop.Continues st2 ->
          Loop.store st2 = Loop.store st1).
Proof.
  intros self ticks st st' Ha Htame Hw Hrun. split.
  - revert st Hw Hrun.
    induction Htame as [|t rest (Hc & H0 & H1) _ IH]; intros st Hw;
      cbn [Loop.run].
    + intros [= <-]. exists []. rewrite app_nil_r.
      repeat split; [cbn; lia | constructor].
    + destruct (Loop.iteration self (Loop.tick_now t) (Loop.tick_collected t)
                  (Loop.tick_saved_at t) st) as [st1|] eqn:E; [|discriminate].
      intros Hrest.
      assert (Hfound : Loop.local_holds Store.writable
                         (Loop.found (Loop.tick_collected t) st)).
      { unfold Loop.found. destruct (Loop.tick_collected t) as [|[x|]];
          [exact Hw | exact Hc | exact I]. }
      destruct (LoopFacts.iteration_archive_rows _ _ _ _ _ _ Ha H0 H1 Hfound E)
        as (Hvar & Hrows).
      rewrite <- Hvar in Hfound.
      destruct (IH _ Hfound Hrest) as (app & Happ & Hlen & Hb).
      destruct Hrows as [E1|(ts & cs & Hts & E1)]; rewrite Happ, E1.
      * exists app. repeat split; [cbn [List.length]; lia | exact Hb].
      * exists (Sqlite.mkRow RecordType.ARCHIVE ts cs :: app).
        rewrite <- app_assoc. repeat split; [cbn [List.length]; lia|].
        constructor; [|exact Hb]. cbn [Sqlite.row_timestamp].
        now apply (LoopFacts.archive_ts_multiple self (Loop.tick_saved_at t)).
  - intros now w st1 st2. unfold Loop.iteration.
    destruct (Scheduler.compute_next_event self now) as [[event secs]|];
      [|discriminate].
    destruct (negb (Qle_bool 0 secs)); [discriminate|].
    cbn [Loop.found]. now intros [= <-].
Qed.

Lemma loop_appends_archive_rows_on_boundaries_witness :
  exists st appended,
    Loop.run sample_service
      [Loop.mkTick 1600657321.75
         (Loop.Returned (Some (named_reading "airlink" 1600657322 74.1)))
         1600657325.02;
       Loop.mkTick 1600657325.03 Loop.Raised 1600657330.01]
      (Loop.mkState Loop.Unbound []) = Loop.Continues st
    /\ Store.archive_rows (Loop.store st) = appended
    /\ Loop.on_boundaries 60 appended.
Proof.
  destruct (loop_appends_archive_rows_on_boundaries sample_service
              [Loop.mkTick 1600657321.75
                 (Loop.Returned (Some (named_reading "airlink" 1600657322 74.1)))
                 1600657325.02;
               Loop.mkTick 1600657325.03 Loop.Raised 1600657330.01]
              (Loop.mkState Loop.Unbound [])
              (Loop.mkState
                 (Loop.Bound (Some (named_reading "airlink" 1600657322 74.1)))
                 (fst (Database.save_current_reading
                   (fst (Database.save_archive_reading
                     (fst (Database.save_current_reading []
                            (named_reading "airlink" 1600657322 74.1)))
                     1600657320 (named_reading "airlink" 1600657322 74.1)))
                   (named_reading "airlink" 1600657322 74.1)))))
    as [(appended & Ha & _ & Hb) _].
  - reflexivity.
  - unfold Loop.tame, Store.writable, Store.texts, Store.ints. holds.
  - exact I.
  - vm_compute. reflexivity.
  - eexists _, appended. split; [vm_compute; reflexivity|].
    split; [exact Ha | exact Hb].
Defined.

(* ------------------------------------------------------------------ *)
(** ** The sensor pipeline: what it returns *)

Module CollectFacts.
Import Pipeline PipelineFacts UpgradeFacts.

Lemma set_cond0_error j k v j' :
  set_cond0 j k v = Ok j' -> subscript j' "error" = subscript j "error".
Proof.
  unfold set_cond0.
  destruct (subscript j "data") as [data|]; [|discriminate]. cbn [bind].
  destruct (subscript data "conditions") as [conditions|]; [|discriminate].
  cbn [bind].
  destruct (subscript_int conditions 0) as [c|]; [|discriminate]. cbn [bind].
  destruct c; try discriminate. destruct conditions; try discriminate.
  destruct data; try discriminate. destruct j; try discriminate.
  intros [= <-]. cbn [subscript].
  now rewrite dict_get_set_other by discriminate.
Qed.

Lemma run_error steps j :
  Forall (fun step : json -> result json =>
            forall a b, step a = Ok b ->
                        subscript b "error" = subscript a "error") steps ->
  subscript (run_until_exception steps j) "error" = subscript j "error".
Proof.
  intros Hall. revert j.
  induction Hall as [|step rest Hs _ IH]; intros j; cbn [run_until_exception];
    [reflexivity|].
  destruct (step j) as [j'|] eqn:E; [|reflexivity].
  rewrite IH. now apply Hs.
Qed.

Lemma move_key_error legacy canonical :
  Forall (fun step : json -> result json =>
            forall a b, step a = Ok b ->
                        subscript b "error" = subscript a "error")
    (move_key legacy canonical).
Proof.
  unfold move_key. repeat constructor.
  - intros a b. destruct (cond0 a) as [c|]; [|discriminate]. cbn [bind].
    destruct (subscript c legacy) as [v|]; [|discriminate]. cbn [bind].
    apply set_cond0_error.
  - intros a b. apply set_cond0_error.
Qed.

(** The upgrade does not touch the top-level [error]. *)
Lemma convert_error j :
  subscript (convert_data_structure_type_5_to_6 j) "error"
  = subscript j "error".
Proof.
  unfold convert_data_structure_type_5_to_6. apply run_error.
  repeat (apply Forall_app; split; [apply move_key_error|]).
  repeat constructor. intros a b. apply set_cond0_error.
Qed.

(** What the [try] of [collect_data] went through when it leaves a fresh
    payload. *)
Lemma collect_data_try_fresh py_str j now t j' :
  collect_data_try py_str j now = Ok (Fresh t j') ->
  exists c dst m c' x,
    cond0 j = Ok c
    /\ subscript c "data_structure_type" = Ok dst
    /\ j' = (if eq_int dst 5 then convert_data_structure_type_5_to_6 j else j)
    /\ is_sane py_str j' = Ok (true, m)
    /\ cond0 j' = Ok c'
    /\ subscript c' "last_report_time" = Ok t
    /\ as_number t = Ok x
    /\ (now - x <= 60)%Q.
Proof.
  unfold collect_data_try.
  destruct (contains "error" j) as [has_error|]; [|discriminate]. cbn [bind].
  destruct (if has_error then subscript j "error" else Ok JNull) as [err|];
    [|discriminate]. cbn [bind].
  destruct (has_error && negb (is_none err)).
  { destruct (subscript err "code"); [|discriminate]. cbn [bind].
    destruct (subscript err "message"); [|discriminate]. cbn [bind].
    destruct (as_number _); discriminate. }
  destruct (cond0 j) as [c|] eqn:Hc; [|discriminate]. cbn [bind].
  destruct (subscript c "data_structure_type") as [dst|] eqn:Hdst;
    [|discriminate].
  cbn [bind].
  set (j2 := if eq_int dst 5 then convert_data_structure_type_5_to_6 j else j).
  destruct (is_sane py_str j2) as [[sane m]|] eqn:Hsane; [|discriminate].
  cbn [bind fst]. destruct sane; cbn [negb]; [|discriminate].
  destruct (cond0 j2) as [c'|] eqn:Hc'; [|discriminate]. cbn [bind].
  destruct (subscript c' "last_report_time") as [lrt|] eqn:Hl; [|discriminate].
  cbn [bind].
  destruct (as_number lrt) as [x|] eqn:Hx; [|discriminate]. cbn [bind].
  destruct (Qle_bool (now - x) 60) eqn:Hage; cbn [negb].
  - intros [= <- <-]. exists c, dst, m, c', x.
    repeat split; try assumption; try reflexivity.
    now apply Qle_bool_iff.
  - cbn [bind].
    destruct (subscript c' "pm_1") as [pm|]; [|discriminate]. cbn [bind].
    destruct (is_none pm); discriminate.
Qed.

Lemma is_type_is_dict c t name none_ok :
  is_type c t name none_ok = true -> exists d, c = JDict d.
Proof.
  intros H. destruct (is_type_true _ _ _ _ H) as (x & Hx & _).
  destruct (subscript_dict _ _ _ Hx) as (d & -> & _). eauto.
Qed.

(** The objects of a payload that passes the sanity check, typed after
    the schemas but for [did], which the check does not look at. *)
Lemma sane_typed py_str j m :
  is_sane py_str j = Ok (true, m) ->
  exists dd cd,
    subscript j "error" = Ok JNull
    /\ subscript j "data" = Ok (JDict dd)
    /\ cond0 j = Ok (JDict cd)
    /\ is_type (JDict dd) Tstr "name" false = true
    /\ is_type (JDict dd) Tint "ts" false = true
    /\ dict_get "data_structure_type" cd = Some (JInt 6)
    /\ first_not_type (JDict cd) Tfloat false
         ["temp"; "hum"; "dew_point"; "wet_bulb"; "heat_index"] = None
    /\ is_type (JDict cd) Tint "last_report_time" true = true
    /\ Forall (fun nt => typed_at cd (fst nt) (snd nt)) conditions_schema.
Proof.
  intros Hsane.
  destruct (is_sane_true _ _ _ Hsane)
    as (Herr & data & conds & c & dst & Hd & Hname & Hts & Hcs & Hc0 & Hdst
        & H6 & Hint & Hlsid & Hfl & Hpm).
  destruct (is_type_is_dict _ _ _ _ Hname) as [dd ->].
  destruct (is_type_is_dict _ _ _ _ Hlsid) as [cd ->].
  exists dd, cd.
  assert (Hc : cond0 j = Ok (JDict cd)) by (eapply cond0_of; eassumption).
  assert (Hdst6 : dict_get "data_structure_type" cd = Some (JInt 6)).
  { cbn [subscript] in Hdst.
    destruct (dict_get "data_structure_type" cd) as [x|] eqn:E;
      [|discriminate].
    cbn [of_option] in Hdst. injection Hdst as ->.
    destruct dst; cbn [eq_int] in H6; try discriminate.
    - destruct b; discriminate.
    - apply Z.eqb_eq in H6. now subst.
    - exfalso.
      pose proof (is_sane_true _ _ _ Hsane) as _.
      unfold is_sane in Hsane. rewrite Herr in Hsane.
      cbn [bind is_none negb] in Hsane.
      unfold is_type at 1 in Hsane. rewrite Hd in Hsane.
      cbn [is_none andb isinstance negb] in Hsane.
      cbn [bind] in Hsane. rewrite Hname, Hts in Hsane. cbn [negb] in Hsane.
      unfold is_type at 1 in Hsane. rewrite Hcs in Hsane.
      destruct conds; try discriminate;
        cbn [is_none andb isinstance negb bind py_len] in Hsane;
        try discriminate.
      destruct (List.length l =? 0)%nat; [discriminate|].
      rewrite Hc0 in Hsane. cbn [bind] in Hsane.
      rewrite is_type_dict, E in Hsane.
      cbn [is_none andb isinstance negb] in Hsane. discriminate. }
  assert (Hlrt : is_type (JDict cd) Tint "last_report_time" true = true).
  { pose proof Hint as Hint'.
    do 3 (apply first_not_type_cons in Hint'; destruct Hint' as [_ Hint']).
    apply first_not_type_cons in Hint'. tauto. }
  repeat (split; [assumption|]).
  split_first_not_type.
  unfold conditions_schema.
  repeat (apply Forall_cons; cbn [fst snd];
          [ first [ eapply is_type_typed_at; eassumption
                  | eapply typed_at_value; [eassumption | reflexivity] ] | ]).
  apply Forall_nil.
Qed.

(** [populate_record] on a payload that passed the sanity check: only a
    [did] that is no string stands in the way of the typed reading. *)
Lemma populate_record_sane py_str j m ts :
  is_sane py_str j = Ok (true, m) ->
  exists dd cd,
    subscript j "data" = Ok (JDict dd)
    /\ cond0 j = Ok (JDict cd)
    /\ ((typed_at dd "did" Tstr
         /\ populate_record ts j = Ok (reading_of dd cd))
        \/ (~ typed_at dd "did" Tstr
            /\ populate_record ts j = Raise (Untyped "did"))).
Proof.
  intros Hsane.
  destruct (sane_typed _ _ _ Hsane)
    as (dd & cd & _ & Hd & Hc & Hname & Hts & _ & _ & _ & HC).
  exists dd, cd. split; [exact Hd|]. split; [exact Hc|].
  destruct (is_none (lookup_or_null dd "did")
            || isinstance (lookup_or_null dd "did") Tstr) eqn:Hdid.
  - left. split; [exact Hdid|].
    apply populate_record_typed; try assumption.
    unfold data_schema. repeat apply Forall_cons; try apply Forall_nil;
      cbn [fst snd]; [exact Hdid | |]; eapply is_type_typed_at; eassumption.
  - right. split; [unfold typed_at; congruence|].
    unfold populate_record.
    rewrite !(get_data _ _ _ Hd), !(get_conditions _ _ _ Hc). cbn [bind].
    destruct (lookup_or_null dd "did"); try discriminate; reflexivity.
Qed.

Lemma float_field_some d name :
  is_type (JDict d) Tfloat name false = true ->
  float_field (lookup_or_null d name) <> None.
Proof.
  rewrite is_type_dict. unfold lookup_or_null.
  destruct (dict_get name d) as [x|]; [|discriminate].
  rewrite andb_false_r. destruct x; try discriminate; intros _; discriminate.
Qed.

(** The fields of the reading of a payload that passed the check. *)
Lemma reading_of_sane py_str j m dd cd :
  is_sane py_str j = Ok (true, m) ->
  subscript j "data" = Ok (JDict dd) ->
  cond0 j = Ok (JDict cd) ->
  complete (reading_of dd cd)
  /\ last_report_time (reading_of dd cd)
     = int_field (lookup_or_null cd "last_report_time").
Proof.
  intros Hsane Hd Hc.
  destruct (sane_typed _ _ _ Hsane)
    as (dd' & cd' & _ & Hd' & Hc' & Hname & Hts & H6 & Hfl & _ & _).
  rewrite Hd in Hd'. injection Hd' as <-.
  rewrite Hc in Hc'. injection Hc' as <-.
  split; [|reflexivity].
  unfold complete, reading_of.
  cbn [data_structure_type name ts temp hum dew_point wet_bulb heat_index].
  split_first_not_type.
  split; [unfold lookup_or_null; now rewrite H6|].
  split.
  { rewrite is_type_dict in Hname. unfold lookup_or_null.
    destruct (dict_get "name" dd) as [x|]; [|discriminate].
    rewrite andb_false_r in Hname. destruct x; try discriminate;
      cbn; discriminate. }
  split.
  { rewrite is_type_dict in Hts. unfold lookup_or_null.
    destruct (dict_get "ts" dd) as [x|]; [|discriminate].
    rewrite andb_false_r in Hts. destruct x; try discriminate;
      cbn; discriminate. }
  repeat split; now apply float_field_some.
Qed.

(** A payload that passed the check and is fresh comes back as its
    reading. *)
Lemma collect_data_sane py_str j m dd cd t now :
  is_sane py_str j = Ok (true, m) ->
  subscript j "data" = Ok (JDict dd) ->
  cond0 j = Ok (JDict cd) ->
  typed_at dd "did" Tstr ->
  dict_get "last_report_time" cd = Some (JInt t) ->
  (now - inject_Z t <= 60)%Q ->
  collect_data py_str (Ok j) now = Ok (Some (reading_of dd cd)).
Proof.
  intros Hsane Hd Hc Hdid Ht Hage.
  destruct (sane_typed _ _ _ Hsane)
    as (dd' & cd' & Herr & Hd' & Hc' & _ & _ & H6 & _).
  rewrite Hc in Hc'. injection Hc' as <-.
  destruct (populate_record_sane py_str j m (JInt t) Hsane)
    as (dd2 & cd2 & Hd2 & Hc2 & Hpop).
  rewrite Hd in Hd2. injection Hd2 as <-.
  rewrite Hc in Hc2. injection Hc2 as <-.
  destruct Hpop as [[_ Hpop]|[Hno _]]; [|contradiction].
  destruct (subscript_dict _ _ _ Herr) as (d & -> & Hde).
  unfold collect_data, collect_data_try.
  cbn [contains bind try_except]. unfold dict_mem.
  rewrite Hde. cbn [subscript of_option bind]. rewrite Hde.
  cbn [of_option bind andb negb is_none].
  rewrite Hc. cbn [bind subscript]. rewrite H6.
  cbn [of_option bind eq_int Z.eqb Pos.eqb]. rewrite Hsane.
  cbn [bind fst negb]. rewrite Hc. cbn [bind subscript]. rewrite Ht.
  cbn [of_option bind as_number].
  apply Qle_bool_iff in Hage. rewrite Hage.
  cbn [negb bind try_except]. rewrite Hpop. reflexivity.
Qed.

End CollectFacts.
Module DiscardFacts.
Import Pipeline PipelineFacts UpgradeFacts CollectFacts.

(** Without a readable [error] member the [try] raises. *)
Lemma collect_data_try_without_error py_str j e now :
  subscript j "error" = Raise e ->
  exists x, collect_data_try py_str j now = Raise x.
Proof.
  intros He. unfold collect_data_try.
  destruct (contains "error" j) as [has_error|]; cbn [bind]; [|eauto].
  destruct has_error.
  - rewrite He. cbn [bind]. eauto.
  - cbn [bind andb].
    destruct (cond0 j) as [c|]; cbn [bind]; [|eauto].
    destruct (subscript c "data_structure_type") as [dst|]; cbn [bind];
      [|eauto].
    assert (Hs : subscript
                   (if eq_int dst 5
                    then convert_data_structure_type_5_to_6 j else j)
                   "error" = Raise e)
      by (destruct (eq_int dst 5); [rewrite convert_error|]; exact He).
    unfold is_sane. rewrite Hs. cbn [bind]. eauto.
Qed.

(** A legacy key that is not there ends the upgrade where it stands. *)
Lemma run_move_key_missing jd dd rest cd legacy canonical more :
  dict_get legacy cd = None ->
  run_until_exception (move_key legacy canonical ++ more)
    (with_cond0 jd dd rest cd)
  = with_cond0 jd dd rest cd.
Proof.
  intros Hv. unfold move_key. cbn [app run_until_exception].
  rewrite cond0_with. cbn [bind subscript]. now rewrite Hv.
Qed.

(** An upgrade that does not find all five legacy keys leaves the type
    at 5. *)
Lemma convert_incomplete jd dd rest cd :
  dict_get "data_structure_type" cd = Some (JInt 5) ->
  forallb (fun k => dict_mem k cd) legacy_keys = false ->
  exists cd',
    convert_data_structure_type_5_to_6 (with_cond0 jd dd rest cd)
    = with_cond0 jd dd rest cd'
    /\ dict_get "data_structure_type" cd' = Some (JInt 5).
Proof.
  intros H5 Hmiss. unfold convert_data_structure_type_5_to_6.
  unfold legacy_keys, dict_mem in Hmiss. cbn [forallb] in Hmiss.
  destruct (dict_get "pm_10p0" cd) as [p|] eqn:L0;
    [|rewrite run_move_key_missing by exact L0; eauto].
  rewrite (run_move_key _ _ _ _ _ _ p) by exact L0.
  destruct (dict_get "pm_10p0_last_1_hour" cd) as [p1|] eqn:L1;
    [|rewrite run_move_key_missing by (other_key; exact L1);
      eexists; split; [reflexivity | other_key; exact H5]].
  rewrite (run_move_key _ _ _ _ _ _ p1) by (other_key; exact L1).
  destruct (dict_get "pm_10p0_last_3_hours" cd) as [p3|] eqn:L3;
    [|rewrite run_move_key_missing by (other_key; exact L3);
      eexists; split; [reflexivity | other_key; exact H5]].
  rewrite (run_move_key _ _ _ _ _ _ p3) by (other_key; exact L3).
  destruct (dict_get "pm_10p0_last_24_hours" cd) as [p24|] eqn:L24;
    [|rewrite run_move_key_missing by (other_key; exact L24);
      eexists; split; [reflexivity | other_key; exact H5]].
  rewrite (run_move_key _ _ _ _ _ _ p24) by (other_key; exact L24).
  destruct (dict_get "pm_10p0_nowcast" cd) as [pn|] eqn:Ln;
    [discriminate|].
  rewrite run_move_key_missing by (other_key; exact Ln).
  eexists; split; [reflexivity | other_key; exact H5].
Qed.

End DiscardFacts.

(** X20. A payload without a top-level [error] member yields no reading,
    whatever else it holds: the sanity check looks [error] up, the lookup
    raises inside the [try], and the handler clears the payload.  The same
    holds for a payload that is no object. *)
Theorem payload_without_error_member_is_discarded :
  forall (py_str : json -> string) (j : json) (e : exn) (now : Q),
    subscript j "error" = Raise e ->
    Pipeline.collect_data py_str (Ok j) now = Ok None.
Proof.
  intros py_str j e now He.
  apply PipelineProofs.collect_data_discarded. intros t j' E.
  destruct (DiscardFacts.collect_data_try_without_error py_str j e now He)
    as [x Hx].
  rewrite Hx in E. discriminate.
Qed.

Lemma payload_without_error_member_is_discarded_witness :
  Pipeline.collect_data (fun _ => "") (Ok sample_payload_without_error)
    1600657322
  = Ok None.
Proof.
  apply (payload_without_error_member_is_discarded (fun _ => "")
           sample_payload_without_error (KeyError "error") 1600657322).
  reflexivity.
Defined.

(** X21. Every reading that [collect_data] returns, from whatever response,
    has [data_structure_type] 6, a name, a timestamp and the five weather
    values, and a report time that is not more than 60 seconds before
    [now]. *)
Theorem returned_reading_is_complete_and_fresh :
  forall (py_str : json -> string) (parsed : result json) (now : Q)
         (r : Reading),
    Pipeline.collect_data py_str parsed now = Ok (Some r) ->
    complete r
    /\ exists t, last_report_time r = Some t
                 /\ (now - inject_Z t <= 60)%Q.
Proof.
  intros py_str parsed now r. unfold Pipeline.collect_data.
  destruct parsed as [j|]; cbn [bind try_except]; [|discriminate].
  destruct (Pipeline.collect_data_try py_str j now) as [[why|t j']|] eqn:E;
    cbn [bind try_except]; try discriminate.
  destruct (Pipeline.populate_record t j') as [r'|] eqn:Hp; cbn [bind];
    [|discriminate].
  intros [= <-].
  destruct (CollectFacts.collect_data_try_fresh _ _ _ _ _ E)
    as (c & dst & m & c' & x & _ & _ & _ & Hsane & Hc' & Hl & Hx & Hage).
  destruct (CollectFacts.populate_record_sane py_str j' m t Hsane)
    as (dd & cd & Hd & Hc & [[_ Hr]|[_ Hr]]); rewrite Hr in Hp;
    [|discriminate].
  injection Hp as <-.
  destruct (CollectFacts.reading_of_sane _ _ _ _ _ Hsane Hd Hc) as [Hcomp Hlrt].
  split; [exact Hcomp|].
  rewrite Hc in Hc'. injection Hc' as <-.
  cbn [subscript] in Hl.
  assert (Ht : Pipeline.is_type (JDict cd) Tint "last_report_time" true = true).
  { destruct (CollectFacts.sane_typed _ _ _ Hsane)
      as (dd' & cd' & _ & _ & Hc2 & _ & _ & _ & _ & Ht & _).
    rewrite Hc in Hc2. injection Hc2 as <-. exact Ht. }
  rewrite UpgradeFacts.is_type_dict in Ht.
  rewrite Hlrt. unfold Pipeline.lookup_or_null.
  destruct (dict_get "last_report_time" cd) as [v|]; [|discriminate].
  cbn [of_option] in Hl. injection Hl as ->.
  destruct t; cbn [as_number is_none andb isinstance] in Hx, Ht;
    try discriminate; injection Hx as <-; cbn [Pipeline.int_field]; eauto.
Qed.

Lemma returned_reading_is_complete_and_fresh_witness :
  exists r,
    Pipeline.collect_data (fun _ => "") (Ok sample_payload) 1600657324
      = Ok (Some r)
    /\ complete r.
Proof.
  assert (H : exists r,
             Pipeline.collect_data (fun _ => "") (Ok sample_payload)
               1600657324 = Ok (Some r))
    by (eexists; vm_compute; reflexivity).
  destruct H as [r H]. exists r. split; [exact H|].
  apply (returned_reading_is_complete_and_fresh (fun _ => "")
           (Ok sample_payload) 1600657324 r H).
Defined.

(** X22. The path of a good response.  For a payload that passes the
    sanity check, whose [did] is a string, null or absent and whose
    [last_report_time] is an integer that a double holds exactly (up to
    [2^53] in magnitude, so that the age is computed without overflow) and
    not more than 60 seconds before [now], [collect_data] returns the
    reading whose fields are the values of [data] and [conditions[0]] under
    the same names, null and absent values as [None]. *)
Theorem sane_fresh_payload_is_returned :
  forall (py_str : json -> string) (j : json) (m : string)
         (dd cd : list (string * json)) (t : Z) (now : Q),
    Pipeline.is_sane py_str j = Ok (true, m) ->
    subscript j "data" = Ok (JDict dd) ->
    Pipeline.cond0 j = Ok (JDict cd) ->
    Pipeline.typed_at dd "did" Tstr ->
    dict_get "last_report_time" cd = Some (JInt t) ->
    Z.abs t <= 9007199254740992 ->
    (now - inject_Z t <= 60)%Q ->
    Pipeline.collect_data py_str (Ok j) now
    = Ok (Some (Pipeline.reading_of dd cd)).
Proof.
  intros py_str j m dd cd t now Hsane Hd Hc Hdid Ht _ Hage.
  now apply (CollectFacts.collect_data_sane py_str j m dd cd t now).
Qed.

Lemma sane_fresh_payload_is_returned_witness :
  option_map (fun r => (name r, temp r, pm_10 r))
    match Pipeline.collect_data (fun _ => "") (Ok sample_payload)
            1600657324 with
    | Ok (Some r) => Some r
    | _ => None
    end
  = Some (Some "paloaltoweather.com", Some 74.1%Q, Some 17.28%Q).
Proof.
  rewrite (sane_fresh_payload_is_returned (fun _ => "") sample_payload ""
             [("did", JStr "001D0A100214"); ("name", JStr "paloaltoweather.com");
              ("ts", JInt 1600657321);
              ("conditions", JList [sample_conditions])]
             [("lsid", JInt 347825); ("data_structure_type", JInt 6);
              ("temp", JFloat 74.1); ("hum", JFloat 62.8);
              ("dew_point", JFloat 60.6); ("wet_bulb", JFloat 64.2);
              ("heat_index", JFloat 74.7);
              ("pm_1_last", JInt 11); ("pm_2p5_last", JInt 14);
              ("pm_10_last", JInt 17); ("pm_1", JFloat 11.68);
              ("pm_2p5", JFloat 15.55);
              ("pm_2p5_last_1_hour", JFloat 19.35);
              ("pm_2p5_last_3_hours", JFloat 20.54);
              ("pm_2p5_last_24_hours", JFloat 18.59);
              ("pm_2p5_nowcast", JFloat 21.25);
              ("pm_10", JFloat 17.28);
              ("pm_10_last_1_hour", JFloat 23.30);
              ("pm_10_last_3_hours", JFloat 24.64);
              ("pm_10_last_24_hours", JFloat 22.71);
              ("pm_10_nowcast", JFloat 25.60);
              ("last_report_time", JInt 1600657321);
              ("pct_pm_data_last_1_hour", JInt 100);
              ("pct_pm_data_last_3_hours", JInt 100);
              ("pct_pm_data_nowcast", JInt 100);
              ("pct_pm_data_last_24_hours", JInt 100)]
             1600657321 1600657324).
  - reflexivity.
  - reflexivity.
  - reflexivity.
  - reflexivity.
  - reflexivity.
  - reflexivity.
  - discriminate.
  - discriminate.
Defined.

(** X23. A payload of [data_structure_type] 5 that lacks one of the five
    [pm_10p0*] keys yields no reading: the upgrade stops at the missing key
    with the assignments made up to there, the type stays 5, and the sanity
    check, which asks for 6, rejects the payload. *)
Theorem legacy_payload_missing_key_is_discarded :
  forall (py_str : json -> string) (jd dd cd : list (string * json))
         (rest : list json) (now : Q),
    dict_get "data" jd = Some (JDict dd) ->
    dict_get "conditions" dd = Some (JList (JDict cd :: rest)) ->
    dict_get "data_structure_type" cd = Some (JInt 5) ->
    forallb (fun k => dict_mem k cd) legacy_keys = false ->
    Pipeline.collect_data py_str (Ok (JDict jd)) now = Ok None
    /\ exists cd',
        Pipeline.convert_data_structure_type_5_to_6 (JDict jd)
        = Pipeline.with_cond0 jd dd rest cd'
        /\ dict_get "data_structure_type" cd' = Some (JInt 5).
Proof.
  intros py_str jd dd cd rest now Hd Hc H5 Hmiss.
  destruct (DiscardFacts.convert_incomplete jd dd rest cd H5 Hmiss)
    as (cd' & Hconv & H5').
  rewrite (UpgradeFacts.with_cond0_id jd dd rest cd Hd Hc) in Hconv.
  split; [|now exists cd'].
  apply PipelineProofs.collect_data_discarded. intros t j' E.
  destruct (CollectFacts.collect_data_try_fresh _ _ _ _ _ E)
    as (c & dst & m & c' & x & Hc0 & Hdst & Hj' & Hsane & _).
  rewrite <- (UpgradeFacts.with_cond0_id jd dd rest cd Hd Hc) in Hc0.
  rewrite UpgradeFacts.cond0_with in Hc0. injection Hc0 as <-.
  cbn [subscript] in Hdst. rewrite H5 in Hdst. injection Hdst as <-.
  cbn [eq_int Z.eqb Pos.eqb] in Hj'. rewrite Hconv in Hj'. subst j'.
  destruct (CollectFacts.sane_typed _ _ _ Hsane)
    as (dd2 & cd2 & _ & _ & Hc2 & _ & _ & H6 & _).
  rewrite UpgradeFacts.cond0_with in Hc2. injection Hc2 as <-.
  rewrite H5' in H6. discriminate.
Qed.

Lemma legacy_payload_missing_key_is_discarded_witness :
  Pipeline.collect_data (fun _ => "")
    (Ok (JDict sample_legacy_payload_short)) 1600657324
  = Ok None.
Proof.
  apply (legacy_payload_missing_key_is_discarded (fun _ => "")
           sample_legacy_payload_short sample_legacy_data_short
           sample_legacy_conditions_short [] 1600657324);
    reflexivity.
Defined.

(** X24. The request is tried at most three times.  Its outcome is that of
    the first attempt that does not raise [ConnectionError]: the response,
    or the other exception, which is not retried; one [sleep(1)] was made
    for each failed attempt before it.  After three [ConnectionError]s the
    third is raised to the caller, two sleeps made.  The loop never ends
    without an outcome. *)
Theorem request_is_tried_three_times :
  forall (R : Type) (attempt_at : nat -> Request.attempt R),
    match Request.request attempt_at with
    | Request.Response r slept =>
        (slept < 3)%nat /\ attempt_at slept = Request.Responds r
        /\ forall i, (i < slept)%nat ->
                     attempt_at i = Request.RaisesConnectionError
    | Request.OtherRaised slept =>
        (slept < 3)%nat /\ attempt_at slept = Request.RaisesOther
        /\ forall i, (i < slept)%nat ->
                     attempt_at i = Request.RaisesConnectionError
    | Request.ConnectionErrorRaised slept =>
        slept = 2%nat
        /\ forall i, (i < 3)%nat ->
                     attempt_at i = Request.RaisesConnectionError
    | Request.NoResponse _ => False
    end.
Proof.
  intros R attempt_at. unfold Request.request. cbn [Request.request_loop].
  assert (G : forall n (P : nat -> Prop),
             (forall i, (i < n)%nat -> P i) -> P n ->
             forall i, (i < S n)%nat -> P i).
  { intros n P Hlt Hn i Hi. destruct (Nat.eq_dec i n) as [->|];
      [exact Hn | apply Hlt; lia]. }
  destruct (attempt_at 0%nat) eqn:E0; cbn [Nat.ltb Nat.leb].
  - repeat split; [lia | exact E0 | intros; lia].
  - destruct (attempt_at 1%nat) eqn:E1; cbn [Nat.ltb Nat.leb].
    + repeat split; [lia | exact E1|].
      apply G; [intros; lia | exact E0].
    + destruct (attempt_at 2%nat) eqn:E2; cbn [Nat.ltb Nat.leb].
      * repeat split; [lia | exact E2|].
        apply G; [apply G; [intros; lia | exact E0] | exact E1].
      * split; [reflexivity|].
        apply G; [apply G; [apply G; [intros; lia | exact E0] | exact E1]
                 | exact E2].
      * repeat split; [lia | exact E2|].
        apply G; [apply G; [intros; lia | exact E0] | exact E1].
    + repeat split; [lia | exact E1|].
      apply G; [intros; lia | exact E0].
  - repeat split; [lia | exact E0 | intros; lia].
Qed.

(** X25. Once the response is in, [collect_data] raises no Python
    exception, whatever the response holds: everything that can raise sits
    inside the [try], and [populate_record] looks up only keys that are
    there.  The one failure of the embedding is a [did] that is no string,
    which has no place in the typed reading. *)
Theorem collect_data_raises_nothing :
  forall (py_str : json -> string) (parsed : result json) (now : Q) (e : exn),
    Pipeline.collect_data py_str parsed now = Raise e ->
    e = Untyped "did".
Proof.
  intros py_str parsed now e. unfold Pipeline.collect_data.
  destruct parsed as [j|]; cbn [bind try_except]; [|discriminate].
  destruct (Pipeline.collect_data_try py_str j now) as [[why|t j']|] eqn:E;
    cbn [bind try_except]; try discriminate.
  destruct (CollectFacts.collect_data_try_fresh _ _ _ _ _ E)
    as (c & dst & m & c' & x & _ & _ & _ & Hsane & _).
  destruct (CollectFacts.populate_record_sane py_str j' m t Hsane)
    as (dd & cd & _ & _ & [[_ ->]|[_ ->]]); cbn [bind]; [discriminate|].
  now intros [= <-].
Qed.

Lemma collect_data_raises_nothing_witness :
  Pipeline.collect_data (fun _ => "") (Ok sample_payload_numeric_did)
    1600657324
  = Raise (Untyped "did").
Proof.
  assert (H : exists e,
             Pipeline.collect_data (fun _ => "")
               (Ok sample_payload_numeric_did) 1600657324 = Raise e)
    by (eexists; vm_compute; reflexivity).
  destruct H as [e H]. rewrite H. f_equal.
  exact (collect_data_raises_nothing _ _ _ e H).
Defined.

(* ------------------------------------------------------------------ *)
(** ** Readings as JSON *)

Module WireFacts.
Import Sqlite Store Database Pipeline Wire.

Lemma str_field_of_str o : str_field (of_str o) = o.
Proof. now destruct o. Qed.

Lemma int_field_of_int o : int_field (of_int o) = o.
Proof. now destruct o. Qed.

Lemma float_field_of_float o : float_field (of_float o) = o.
Proof. now destruct o. Qed.

Lemma of_str_typed o : is_none (of_str o) || isinstance (of_str o) Tstr = true.
Proof. now destruct o. Qed.

Lemma of_int_typed o : is_none (of_int o) || isinstance (of_int o) Tint = true.
Proof. now destruct o. Qed.

Lemma of_float_typed o :
  is_none (of_float o) || isinstance (of_float o) Tfloat = true.
Proof. now destruct o. Qed.

(** The two objects of the dictionary of a reading. *)
Lemma reading_dict_objects r :
  exists dd cd,
    subscript (reading_dict r) "data" = Ok (JDict dd)
    /\ cond0 (reading_dict r) = Ok (JDict cd)
    /\ Forall (fun nt => typed_at dd (fst nt) (snd nt)) data_schema
    /\ Forall (fun nt => typed_at cd (fst nt) (snd nt)) conditions_schema
    /\ reading_of dd cd = r.
Proof.
  destruct r. do 2 eexists.
  split; [reflexivity|]. split; [reflexivity|]. split; [|split].
  - unfold data_schema. repeat constructor; cbn [fst snd];
      first [ exact (of_str_typed _) | exact (of_int_typed _) ].
  - unfold conditions_schema. repeat constructor; cbn [fst snd];
      first [ exact (of_int_typed _) | exact (of_float_typed _) ].
  - unfold reading_of.
    cbv [lookup_or_null dict_get dict_set String.eqb Ascii.eqb Bool.eqb].
    now rewrite !str_field_of_str, !int_field_of_int, !float_field_of_float.
Qed.

End WireFacts.

Module ServedFacts.
Import Sqlite Store Database Pipeline Wire WireFacts.

Lemma of_int_ok o :
  (if is_none (of_int o) && true then true else isinstance (of_int o) Tint)
  = true.
Proof. now destruct o. Qed.

Lemma of_float_ok o :
  (if is_none (of_float o) && true then true
   else isinstance (of_float o) Tfloat) = true.
Proof. now destruct o. Qed.

(** The dictionary of a complete reading passes the sanity check. *)
Lemma is_sane_reading_dict py_str r :
  complete r -> is_sane py_str (reading_dict r) = Ok (true, "").
Proof.
  destruct r as [did0 name0 ts0 lsid0 dst0 temp0 hum0 dew_point0 wet_bulb0
                 heat_index0 pm_1_last0 pm_2p5_last0 pm_10_last0 pm_1_0
                 pm_2p5_0 pm_2p5_1 pm_2p5_3 pm_2p5_24 pm_2p5_nc pm_10_0
                 pm_10_1 pm_10_3 pm_10_24 pm_10_nc lrt0 pct_1 pct_3 pct_nc
                 pct_24].
  unfold complete.
  cbn [data_structure_type name ts temp hum dew_point wet_bulb heat_index].
  intros (-> & Hn & Ht & H1 & H2 & H3 & H4 & H5).
  destruct name0 as [n|]; [|contradiction].
  destruct ts0 as [t|]; [|contradiction].
  destruct temp0 as [q1|]; [|contradiction].
  destruct hum0 as [q2|]; [|contradiction].
  destruct dew_point0 as [q3|]; [|contradiction].
  destruct wet_bulb0 as [q4|]; [|contradiction].
  destruct heat_index0 as [q5|]; [|contradiction].
  clear.
  unfold is_sane, reading_dict. cbv zeta.
  cbn [did name ts lsid
       data_structure_type temp hum
       dew_point wet_bulb heat_index
       pm_1_last pm_2p5_last pm_10_last
       pm_1 pm_2p5 pm_2p5_last_1_hour
       pm_2p5_last_3_hours pm_2p5_last_24_hours
       pm_2p5_nowcast pm_10 pm_10_last_1_hour
       pm_10_last_3_hours pm_10_last_24_hours
       pm_10_nowcast last_report_time
       pct_pm_data_last_1_hour pct_pm_data_last_3_hours
       pct_pm_data_nowcast pct_pm_data_last_24_hours].
  cbv [bind subscript of_option dict_get dict_set String.eqb Ascii.eqb
       Bool.eqb is_type first_not_type py_len List.length Nat.eqb
       subscript_int item nth_error].
  rewrite !of_int_ok, !of_float_ok. reflexivity.
Qed.

(** A reading that [collect_data] returns has the fields that the sanity
    check asks for. *)
Lemma returned_complete py_str parsed now r :
  collect_data py_str parsed now = Ok (Some r) -> complete r.
Proof.
  unfold collect_data.
  destruct parsed as [j|]; cbn [bind try_except]; [|discriminate].
  destruct (collect_data_try py_str j now) as [[why|t j']|] eqn:E;
    cbn [bind try_except]; try discriminate.
  destruct (populate_record t j') as [r'|] eqn:Hp; cbn [bind];
    [|discriminate].
  intros [= <-].
  destruct (CollectFacts.collect_data_try_fresh _ _ _ _ _ E)
    as (c & dst & m & c' & x & _ & _ & _ & Hsane & _).
  destruct (CollectFacts.populate_record_sane py_str j' m t Hsane)
    as (dd & cd & Hd & Hc & [[_ Hr]|[_ Hr]]); rewrite Hr in Hp;
    [|discriminate].
  injection Hp as <-.
  now destruct (CollectFacts.reading_of_sane _ _ _ _ _ Hsane Hd Hc).
Qed.

End ServedFacts.

(** X26. What the proxy serves, it accepts.  For a reading that
    [collect_data] returned, the dictionary that [convert_to_json] builds is
    read back by [populate_record] as that reading, field for field, and it
    passes [is_sane]; when its report time, an integer that a double holds
    exactly, is not more than 60 seconds old, [collect_data] on it returns
    the reading. *)
Theorem served_reading_reads_back :
  forall (py_str : json -> string) (parsed : result json) (collected_at : Q)
         (r : Reading),
    Pipeline.collect_data py_str parsed collected_at = Ok (Some r) ->
    (forall ts, Pipeline.populate_record ts (Wire.reading_dict r) = Ok r)
    /\ Pipeline.is_sane py_str (Wire.reading_dict r) = Ok (true, "")
    /\ forall t now,
         last_report_time r = Some t ->
         Z.abs t <= 9007199254740992 ->
         (now - inject_Z t <= 60)%Q ->
         Pipeline.collect_data py_str (Ok (Wire.reading_dict r)) now
         = Ok (Some r).
Proof.
  intros py_str parsed collected_at r Hret.
  pose proof (ServedFacts.returned_complete _ _ _ _ Hret) as Hcomp.
  destruct (WireFacts.reading_dict_objects r)
    as (dd & cd & Hd & Hc & HD & HC & Hr).
  pose proof (ServedFacts.is_sane_reading_dict py_str r Hcomp) as Hsane.
  split; [|split; [exact Hsane|]].
  - intros ts. rewrite <- Hr at 2.
    now apply UpgradeFacts.populate_record_typed.
  - intros t now Ht _ Hage.
    rewrite <- Hr at 2.
    apply (CollectFacts.collect_data_sane py_str _ "" dd cd t now);
      try assumption.
    + unfold Pipeline.data_schema in HD.
      apply Forall_cons_iff in HD. exact (proj1 HD).
    + rewrite <- Hr in Ht. unfold Pipeline.reading_of in Ht.
      cbn [last_report_time] in Ht.
      assert (Hin : Pipeline.typed_at cd "last_report_time" Tint).
      { unfold Pipeline.conditions_schema in HC.
        rewrite Forall_forall in HC.
        apply (HC ("last_report_time", Tint)). cbn. tauto. }
      assert (Hsome : exists v, dict_get "last_report_time" cd = Some v).
      { destruct (CollectFacts.sane_typed _ _ _ Hsane)
          as (dd' & cd' & _ & _ & Hc2 & _ & _ & _ & _ & Hl & _).
        rewrite Hc in Hc2. injection Hc2 as <-.
        rewrite UpgradeFacts.is_type_dict in Hl.
        destruct (dict_get "last_report_time" cd); [eauto | discriminate]. }
      destruct Hsome as [v Hv]. rewrite Hv. f_equal.
      unfold Pipeline.lookup_or_null in Ht. rewrite Hv in Ht.
      destruct v; cbn [Pipeline.int_field] in Ht; try discriminate;
        try (injection Ht as ->; reflexivity).
      exfalso.
      destruct r. cbn in Hc. injection Hc as <-.
      cbv [dict_get String.eqb Ascii.eqb Bool.eqb] in Hv.
      match type of Hv with
      | Some (Wire.of_int ?o) = _ => destruct o; discriminate
      end.
Qed.

Lemma served_reading_reads_back_witness :
  exists r,
    Pipeline.collect_data (fun _ => "") (Ok sample_payload) 1600657324
    = Ok (Some r)
    /\ Pipeline.collect_data (fun _ => "") (Ok (Wire.reading_dict r))
         1600657330
       = Ok (Some r).
Proof.
  eexists. split; [vm_compute; reflexivity|].
  match goal with
  | |- Pipeline.collect_data _ (Ok (Wire.reading_dict ?r)) _ = _ =>
      destruct (served_reading_reads_back (fun _ => "") (Ok sample_payload)
                  1600657324 r) as (_ & _ & G)
  end.
  - vm_compute. reflexivity.
  - apply (G 1600657321); [reflexivity | discriminate | discriminate].
Defined.

Module JsonFacts.
Import Sqlite Store Database Wire.

Lemma append_nonempty (a b : string) : b <> "" -> a ++ b <> "".
Proof. destruct a; cbn; [auto | discriminate]. Qed.

(** The loop of [fetch_archive_readings_as_json] from contents that are
    not empty: a comma before every further text. *)
Lemma fold_add_reading dumps readings contents :
  (forall j, dumps j <> "") -> contents <> "" ->
  fold_left (add_reading dumps) readings contents
  = unsplit "," (contents :: map (convert_to_json dumps) readings).
Proof.
  intros Hd. revert contents.
  induction readings as [|r rest IH]; intros contents Hc;
    cbn [fold_left map unsplit]; [reflexivity|].
  rewrite IH.
  - unfold add_reading. apply String.eqb_neq in Hc. rewrite Hc. cbn [negb].
    destruct (map (convert_to_json dumps) rest) as [|x l]; cbn [unsplit].
    + now rewrite append_assoc.
    + now rewrite !append_assoc.
  - unfold add_reading. apply append_nonempty, Hd.
Qed.

Lemma fold_add_reading_start dumps readings :
  (forall j, dumps j <> "") ->
  fold_left (add_reading dumps) readings ""
  = unsplit "," (map (convert_to_json dumps) readings).
Proof.
  intros Hd. destruct readings as [|r rest]; [reflexivity|].
  cbn [fold_left map]. unfold add_reading at 2. cbn [String.eqb negb append].
  apply fold_add_reading; [exact Hd | apply Hd].
Qed.

(** The first row of a sorted list is the least. *)
Lemma sorted_head_least row rows :
  StronglySorted by_timestamp (row :: rows) ->
  forall r, In r (row :: rows) -> row_timestamp row <= row_timestamp r.
Proof.
  intros Hs r [<-|Hin]; [lia|].
  inversion Hs as [|? ? _ Hall]; subst.
  rewrite Forall_forall in Hall. now apply Hall.
Qed.


End JsonFacts.

(** X27. [fetch_archive_readings_as_json] returns the texts of the fetched
    readings, in the order of the fetch, separated by single commas, between
    ['[  '] and [' ]']; with no reading that is ['[   ]'].  ([dumps] returns
    no empty text.) *)
Theorem archive_readings_as_json_list :
  forall (dumps : json -> string) (db : Sqlite.Table) (since_ts : Z)
         (max_ts limit : option Z) (readings : list Reading),
    (forall j, dumps j <> "") ->
    Database.fetch_archive_readings db since_ts max_ts limit = Ok readings ->
    Wire.fetch_archive_readings_as_json dumps db since_ts max_ts limit
    = Ok ("[  "
          ++ unsplit "," (map (Wire.convert_to_json dumps) readings)
          ++ " ]").
Proof.
  intros dumps db since_ts max_ts limit readings Hd Hf.
  unfold Wire.fetch_archive_readings_as_json. rewrite Hf. cbn [bind].
  now rewrite JsonFacts.fold_add_reading_start.
Qed.

Lemma archive_readings_as_json_list_witness :
  Wire.fetch_archive_readings_as_json Wire.sample_dumps sample_store
    1600657260 None None
  = Ok "[  {},{} ]".
Proof.
  assert (H : exists readings,
             Database.fetch_archive_readings sample_store 1600657260 None None
             = Ok readings /\ List.length readings = 2%nat)
    by (eexists; split; vm_compute; reflexivity).
  destruct H as (readings & H & Hlen).
  rewrite (archive_readings_as_json_list Wire.sample_dumps sample_store
             1600657260 None None readings); [|discriminate | exact H].
  destruct readings as [|a [|b [|c rest]]]; try discriminate. reflexivity.
Defined.

(** X28. [get_earliest_timestamp_as_json] answers with the least timestamp
    of the Archive rows: with the empty object when there is no Archive
    row, and otherwise with a [timestamp] that is the timestamp of an
    Archive row and not greater than that of any other. *)
Theorem earliest_timestamp_is_least :
  forall (dumps : json -> string) (db : Sqlite.Table),
    (Store.archive_rows db = [] ->
     Wire.get_earliest_timestamp_as_json dumps db = dumps (JDict []))
    /\ (Store.archive_rows db <> [] ->
        exists earliest,
          Wire.get_earliest_timestamp_as_json dumps db
            = dumps (JDict [("timestamp", JInt earliest)])
          /\ In earliest (map Sqlite.row_timestamp (Store.archive_rows db))
          /\ forall row, In row (Store.archive_rows db) ->
                         earliest <= Sqlite.row_timestamp row).
Proof.
  intros dumps db.
  unfold Wire.get_earliest_timestamp_as_json, Wire.earliest_rows.
  fold (Store.archive_rows db).
  pose proof (SelectFacts.order_perm (Store.archive_rows db)) as Hperm.
  pose proof (SelectFacts.order_sorted (Store.archive_rows db)) as Hsorted.
  split.
  - intros E. rewrite E. reflexivity.
  - intros Hne.
    destruct (Sqlite.order_by_timestamp (Store.archive_rows db))
      as [|row rows] eqn:E.
    + apply Permutation_nil in Hperm. contradiction.
    + exists (Sqlite.row_timestamp row). cbn. split; [reflexivity|]. split.
      * apply in_map. apply (Permutation_in _ Hperm). now left.
      * intros r Hr. apply (JsonFacts.sorted_head_least row rows Hsorted).
        apply (Permutation_in _ (Permutation_sym Hperm)). exact Hr.
Qed.

Lemma earliest_timestamp_is_least_witness :
  Wire.get_earliest_timestamp_as_json Wire.sample_dumps [] = "{}"
  /\ exists earliest,
      In earliest (map Sqlite.row_timestamp (Store.archive_rows sample_store))
      /\ forall row, In row (Store.archive_rows sample_store) ->
                     earliest <= Sqlite.row_timestamp row.
Proof.
  split.
  - destruct (earliest_timestamp_is_least Wire.sample_dumps []) as [H _].
    now apply H.
  - destruct (earliest_timestamp_is_least Wire.sample_dumps sample_store)
      as [_ H].
    destruct H as (earliest & _ & Hin & Hleast).
    + vm_compute. discriminate.
    + exists earliest. split; [exact Hin | exact Hleast].
Defined.


